(** * preprocess-input-media: a shallow embedding of the ingestion core

    The development follows the Python sources:
    - [src/config.py]            the static tables,
    - [src/utils/file_utils.py]  extensions, output tree, tracking store,
    - [src/utils/timestamp_utils.py]  timestamp resolution,
    - [src/core/file_processor.py]    classification, synthesis, [process],
    - [src/main.py]              the batch loop [process_files].

    Python [str] is modelled by [string] (a sequence of 8-bit characters;
    the character classes are the ASCII ones), dictionaries whose iteration
    order matters by association lists in insertion order, the tracking
    store by a [gmap], the set of existing paths by a [gset].  Code that can
    raise returns in the exception monad [res]. *)

From Stdlib Require Import ZArith String Ascii List Bool Lia QArith Qround Qabs.
From Stdlib Require Import DecimalString.
From stdpp Require Import base gmap strings.

Set Default Proof Using "Type".

(** ** Exceptions *)

Inductive exn :=
  | ValueError | TypeError | IndexError | KeyError | AttributeError
  | OtherError.

Inductive res (A : Type) :=
  | Ok (a : A)
  | Raise (e : exn).
Arguments Ok {A} a.
Arguments Raise {A} e.

Definition exn_eqb (a b : exn) : bool :=
  match a, b with
  | ValueError, ValueError | TypeError, TypeError | IndexError, IndexError
  | KeyError, KeyError | AttributeError, AttributeError
  | OtherError, OtherError => true
  | _, _ => false
  end.

Definition rbind {A B} (r : res A) (k : A → res B) : res B :=
  match r with
  | Ok a => k a
  | Raise e => Raise e
  end.

#[global] Instance res_ret : MRet res := @Ok.
#[global] Instance res_bind : MBind res := λ A B k r, rbind r k.

(** [try: body except (kinds): handler] *)
Definition try_except {A} (body : res A) (kinds : list exn) (handler : res A)
  : res A :=
  match body with
  | Ok a => Ok a
  | Raise e => if existsb (exn_eqb e) kinds then handler else Raise e
  end.

(** [try: body except Exception: handler] *)
Definition try_all {A} (body : res A) (handler : res A) : res A :=
  match body with
  | Ok a => Ok a
  | Raise _ => handler
  end.

(** ** Python string primitives *)

Module Py.

Definition is_digit (c : ascii) : bool :=
  let n := nat_of_ascii c in Nat.leb 48 n && Nat.leb n 57.

Definition is_upper (c : ascii) : bool :=
  let n := nat_of_ascii c in Nat.leb 65 n && Nat.leb n 90.

(** [str.isspace] on the ASCII range: TAB..CR, FS..US and the blank. *)
Definition is_space (c : ascii) : bool :=
  let n := nat_of_ascii c in
  (Nat.leb 9 n && Nat.leb n 13) || (Nat.leb 28 n && Nat.leb n 32).

Definition lower_char (c : ascii) : ascii :=
  if is_upper c then ascii_of_nat (nat_of_ascii c + 32) else c.

Fixpoint lower (s : string) : string :=
  match s with
  | EmptyString => EmptyString
  | String c s' => String (lower_char c) (lower s')
  end.

Fixpoint all_chars (p : ascii → bool) (s : string) : bool :=
  match s with
  | EmptyString => true
  | String c s' => p c && all_chars p s'
  end.

(** [s.isdigit()]: at least one character, all of them digits. *)
Definition isdigit (s : string) : bool :=
  match s with
  | EmptyString => false
  | _ => all_chars is_digit s
  end.

(** Whether [s] begins with [p]. *)
Fixpoint has_prefix (p s : string) : bool :=
  match p with
  | EmptyString => true
  | String a p' =>
      match s with
      | String b s' => Ascii.eqb a b && has_prefix p' s'
      | EmptyString => false
      end
  end.

(** [s.startswith(p)] *)
Definition startswith (s p : string) : bool := has_prefix p s.

(** [needle in hay] *)
Fixpoint contains (needle hay : string) : bool :=
  has_prefix needle hay ||
  match hay with
  | EmptyString => false
  | String _ h => contains needle h
  end.

(** [s[n:]] *)
Fixpoint drop (n : nat) (s : string) : string :=
  match n, s with
  | O, _ => s
  | S k, String _ s' => drop k s'
  | S _, EmptyString => EmptyString
  end.

(** [s[:n]] *)
Fixpoint take (n : nat) (s : string) : string :=
  match n, s with
  | S k, String c s' => String c (take k s')
  | _, _ => EmptyString
  end.

(** [s.count(c)] for a one-character [c] *)
Fixpoint count (c : ascii) (s : string) : nat :=
  match s with
  | EmptyString => 0
  | String a s' => (if Ascii.eqb a c then 1 else 0) + count c s'
  end.

(** [s.split(sep)] for a one-character separator *)
Fixpoint split (sep : ascii) (s : string) : list string :=
  match s with
  | EmptyString => [EmptyString]
  | String c s' =>
      if Ascii.eqb c sep then EmptyString :: split sep s'
      else match split sep s' with
           | p :: ps => String c p :: ps
           | [] => [String c EmptyString]
           end
  end.

(** [s.split(sep, 1)] *)
Fixpoint split1 (sep : ascii) (s : string) : list string :=
  match s with
  | EmptyString => [EmptyString]
  | String c s' =>
      if Ascii.eqb c sep then [EmptyString; s']
      else match split1 sep s' with
           | p :: ps => String c p :: ps
           | [] => [String c EmptyString]
           end
  end.

(** [sep.join(parts)] *)
Fixpoint join (sep : string) (parts : list string) : string :=
  match parts with
  | [] => EmptyString
  | [p] => p
  | p :: ps => p +:+ sep +:+ join sep ps
  end.

(** [s.replace(old, new)]: left to right, matches do not overlap.  [skip]
    counts the characters of a match still to be dropped. *)
Fixpoint replace_go (old new : string) (skip : nat) (s : string) : string :=
  match s with
  | EmptyString => EmptyString
  | String c s' =>
      match skip with
      | S k => replace_go old new k s'
      | O =>
          if has_prefix old s
          then new +:+ replace_go old new (String.length old - 1) s'
          else String c (replace_go old new 0 s')
      end
  end.

Fixpoint intersperse (new s : string) : string :=
  match s with
  | EmptyString => new
  | String c s' => new +:+ String c (intersperse new s')
  end.

Definition replace (old new s : string) : string :=
  match old with
  | EmptyString => intersperse new s
  | _ => replace_go old new 0 s
  end.

Fixpoint lstrip (s : string) : string :=
  match s with
  | String c s' => if is_space c then lstrip s' else s
  | EmptyString => EmptyString
  end.

Fixpoint rstrip (s : string) : string :=
  match s with
  | EmptyString => EmptyString
  | String c s' =>
      match rstrip s' with
      | EmptyString => if is_space c then EmptyString else String c EmptyString
      | r => String c r
      end
  end.

Definition strip (s : string) : string := rstrip (lstrip s).

(** [''.join(c for c in s if p c)] *)
Fixpoint filter_chars (p : ascii → bool) (s : string) : string :=
  match s with
  | EmptyString => EmptyString
  | String c s' => if p c then String c (filter_chars p s') else filter_chars p s'
  end.

(** [s.rfind(c)] *)
Fixpoint rfind (c : ascii) (s : string) : option nat :=
  match s with
  | EmptyString => None
  | String a s' =>
      match rfind c s' with
      | Some i => Some (S i)
      | None => if Ascii.eqb a c then Some 0 else None
      end
  end.

Fixpoint zeros (n : nat) : string :=
  match n with
  | O => EmptyString
  | S k => String "0" (zeros k)
  end.

(** Decimal digits of [|z|]. *)
Definition str_abs (z : Z) : string :=
  NilZero.string_of_uint (N.to_uint (Z.abs_N z)).

(** [str(z)] for an [int] *)
Definition str_int (z : Z) : string :=
  if (z <? 0)%Z then String "-" (str_abs z) else str_abs z.

(** [format(z, '0{w}d')]: the sign counts in the width, zeros follow it. *)
Definition fmt_0d (w : nat) (z : Z) : string :=
  if (z <? 0)%Z then
    String "-" (zeros (w - 1 - String.length (str_abs z)) +:+ str_abs z)
  else zeros (w - String.length (str_abs z)) +:+ str_abs z.

(** Value of a string of ASCII digits. *)
Fixpoint digits_val (s : string) (acc : Z) : Z :=
  match s with
  | EmptyString => acc
  | String c s' => digits_val s' (10 * acc + Z.of_nat (nat_of_ascii c - 48))%Z
  end.

(** Digits with single underscores between them, as [int] accepts. *)
Fixpoint int_body (s : string) (prev_digit : bool) (acc : Z) : option Z :=
  match s with
  | EmptyString => if prev_digit then Some acc else None
  | String c s' =>
      if is_digit c
      then int_body s' true (10 * acc + Z.of_nat (nat_of_ascii c - 48))%Z
      else if Ascii.eqb c "_" && prev_digit then int_body s' false acc
      else None
  end.

(** [int(s)] for a string: surrounding white space, an optional sign,
    decimal digits; [None] stands for [ValueError]. *)
Definition int_of_str (s : string) : option Z :=
  match strip s with
  | String "-" r => Z.opp <$> int_body r false 0%Z
  | String "+" r => int_body r false 0%Z
  | r => int_body r false 0%Z
  end.

End Py.

(** ** [pathlib] *)

(** [Path(p).name]: the final component. *)
Definition path_name (p : string) : string :=
  match Py.rfind "/" p with
  | Some i => Py.drop (S i) p
  | None => p
  end.

(** [PurePath.suffix] of a file name: the text from the last dot, unless
    that dot starts or ends the name. *)
Definition suffix (name : string) : string :=
  match Py.rfind "." name with
  | Some i =>
      if Nat.ltb 0 i && Nat.ltb i (String.length name - 1)
      then Py.drop i name else EmptyString
  | None => EmptyString
  end.

(** [base / child] *)
Definition path_join (base child : string) : string := base +:+ "/" +:+ child.

(** ** Metadata bags

    What [json.loads] can return, and the Python notions the code applies
    to it.  A bag is a dictionary in insertion order; its keys are
    distinct, as those of a Python dictionary are. *)

#[local] Set Warnings "-register-all".
Inductive value :=
  | VNone
  | VBool (b : bool)
  | VInt (z : Z)
  | VFloat (q : Q)
  | VStr (s : string)
  | VList (l : list value)
  | VDict (d : list (string * value)).
#[local] Set Warnings "register-all".

Abbreviation dict := (list (string * value)).

(** [d[k]] for a key that is present, as an option. *)
Fixpoint dict_lookup (d : dict) (k : string) : option value :=
  match d with
  | [] => None
  | (k', v) :: d' => if String.eqb k' k then Some v else dict_lookup d' k
  end.

(** [d.get(k)] *)
Definition dict_get (d : dict) (k : string) : value :=
  default VNone (dict_lookup d k).

(** [d.get(k, dflt)] *)
Definition dict_get_default (d : dict) (k : string) (dflt : value) : value :=
  default dflt (dict_lookup d k).

(** [k in d] *)
Definition dict_mem (d : dict) (k : string) : bool :=
  match dict_lookup d k with Some _ => true | None => false end.

(** [d[k] = v]: an existing key keeps its place. *)
Fixpoint dict_set (d : dict) (k : string) (v : value) : dict :=
  match d with
  | [] => [(k, v)]
  | (k', v') :: d' =>
      if String.eqb k' k then (k', v) :: d' else (k', v') :: dict_set d' k v
  end.

(** [bool(v)] *)
Definition truthy (v : value) : bool :=
  match v with
  | VNone => false
  | VBool b => b
  | VInt z => negb (z =? 0)%Z
  | VFloat q => negb (Qeq_bool q 0)
  | VStr s => negb (String.eqb s EmptyString)
  | VList l => match l with [] => false | _ => true end
  | VDict d => match d with [] => false | _ => true end
  end.

(** [x in xs] for a list of string literals *)
Definition str_in (x : string) (xs : list string) : bool :=
  existsb (String.eqb x) xs.

(** ** [src/config.py] *)

Inductive device := dji_drone | sony_camera | dji_rc_pro.
Inductive media := image | video.

Definition device_eqb (a b : device) : bool :=
  match a, b with
  | dji_drone, dji_drone | sony_camera, sony_camera
  | dji_rc_pro, dji_rc_pro => true
  | _, _ => false
  end.

Definition media_eqb (a b : media) : bool :=
  match a, b with
  | image, image | video, video => true
  | _, _ => false
  end.

Definition EXTENSION_MAPPING : list (string * string) :=
  [ (".jpeg", ".jpg"); (".dng", ".dng"); (".arw", ".arw"); (".mp4", ".mp4") ].

Record device_patterns := {
  filename_patterns : list string;
  metadata_patterns : list (string * list string)
}.

Definition DEVICE_PATTERNS : list (device * device_patterns) :=
  [ (dji_drone,
      {| filename_patterns := ["DJI_"; "Mavic3Pro"];
         metadata_patterns :=
           [ ("make", ["Hasselblad"; "DJI"]);
             ("model", ["L2D-20c"; "Mavic3Pro"]);
             ("product_name", ["DJIMavic3Pro"]);
             ("manufacturer", ["DJI"]) ] |});
    (sony_camera,
      {| filename_patterns := ["DSC"];
         metadata_patterns :=
           [ ("make", ["SONY"]);
             ("model", ["ILCE-7M4"]);
             ("devicemanufacturer", ["Sony"]);
             ("devicemodelname", ["ILCE-7M4"]) ] |});
    (dji_rc_pro,
      {| filename_patterns := ["screen-"; "RCPro"];
         metadata_patterns :=
           [ ("make", ["DJI"]); ("model", ["RCPro"]) ] |}) ].

Definition FILENAME_PATTERNS : list (device * media * string) :=
  [ (dji_drone, image,
      "{date}-{time}-{sequence}-DJI-{model}-{focal_length}{ext}");
    (dji_drone, video,
      "{date}-{time}-{resolution}-{fps}-{duration}-DJI-{model}{ext}");
    (sony_camera, image,
      "{date}-{time}-{shutter_count}-{make}-{model}{ext}");
    (sony_camera, video,
      "{date}-{time}-{resolution}-{fps}-{duration}-{make}-{model}{ext}");
    (dji_rc_pro, video,
      "{date}-{time}-{resolution}-{fps}-{duration}-{make}-{model}{ext}") ].

(** [FILENAME_PATTERNS['default']] *)
Definition FILENAME_PATTERNS_default : string :=
  "{date}-{time}-{make}-{model}{ext}".

(** ** [src/utils/file_utils.py]: extensions *)

(** [get_file_extension] of a [Path] *)
Definition get_file_extension (path : string) : string :=
  suffix (path_name path).

Fixpoint assoc_get (tbl : list (string * string)) (k dflt : string) : string :=
  match tbl with
  | [] => dflt
  | (k', v) :: tbl' => if String.eqb k' k then v else assoc_get tbl' k dflt
  end.

Definition get_normalized_extension (extension : string) : string :=
  let ext := Py.lower extension in
  assoc_get EXTENSION_MAPPING ext ext.

(** ** [FileProcessor]: classification *)

(** One entry of [metadata_patterns]: the field is looked up as written
    and, failing that, in lower case. *)
Definition metadata_pattern_hit (md : dict) (field : string)
    (values : list string) : bool :=
  let v0 := dict_get md field in
  let v := if truthy v0 then v0 else dict_get md (Py.lower field) in
  truthy v &&
  existsb (λ value,
             match v with
             | VStr s => Py.contains (Py.lower value) (Py.lower s)
             | _ => false
             end) values.

Definition device_hit (filename : string) (md : dict) (p : device_patterns)
  : bool :=
  existsb (λ pat, Py.contains pat filename) (filename_patterns p) ||
  existsb (λ fv, metadata_pattern_hit md (fst fv) (snd fv))
          (metadata_patterns p).

Fixpoint scan_devices (filename : string) (md : dict)
    (tbl : list (device * device_patterns)) : option device :=
  match tbl with
  | [] => None
  | (d, p) :: tbl' =>
      if device_hit filename md p then Some d else scan_devices filename md tbl'
  end.

(** The part of a file name before its first dot. *)
Definition base_name (filename : string) : string :=
  hd EmptyString (Py.split "." filename).

Definition _identify_device_type (filename : string) (md : dict)
  : option device :=
  let file_ext := Py.lower (suffix filename) in
  if String.eqb file_ext ".mp4" &&
     Py.startswith filename "C" &&
     Py.isdigit (Py.drop 1 (base_name filename))
  then Some sony_camera
  else if Py.contains "DJI-Mavic3Pro" filename then Some dji_drone
  else if Py.contains "DJI-RCPro" filename then Some dji_rc_pro
  else if Py.contains "Sony-ILCE" filename then Some sony_camera
  else
    match scan_devices filename md DEVICE_PATTERNS with
    | Some d => Some d
    | None =>
        if str_in file_ext [".arw"] then Some sony_camera
        else if str_in file_ext [".dng"; ".jpg"; ".jpeg"; ".mp4"] &&
                (Py.contains "DJI" filename || Py.contains "FC43" filename)
        then Some dji_drone
        else if str_in file_ext [".mp4"] &&
                (Py.contains "Sony" filename || Py.contains "ILCE" filename)
        then Some sony_camera
        else None
    end.

Definition _identify_media_type (filename : string) : option media :=
  let ext := Py.lower (suffix filename) in
  if str_in ext [".jpg"; ".jpeg"; ".dng"; ".arw"] then Some image
  else if str_in ext [".mp4"] then Some video
  else None.

Definition _extract_sequence_number (device_type : option device)
    (filename : string) : option string :=
  match device_type with
  | Some dji_drone =>
      let parts := Py.split "_" filename in
      if Nat.leb 3 (length parts) then parts !! 2%nat else None
  | _ => None
  end.

(** ** Dates and times *)

(** The [tzinfo] objects the code meets: [dateutil.tz.tzlocal()], UTC, a
    fixed offset in seconds, a named zone. *)
Inductive tz :=
  | tzlocal
  | tzutc
  | tzoffset (seconds : Z)
  | tznamed (name : string).

Record datetime := mkdt {
  year : Z; month : Z; day : Z;
  hour : Z; minute : Z; second : Z; microsecond : Z;
  tzinfo : option tz
}.

(** [dt.replace(tzinfo=z)] *)
Definition replace_tzinfo (dt : datetime) (z : option tz) : datetime :=
  mkdt (year dt) (month dt) (day dt) (hour dt) (minute dt) (second dt)
       (microsecond dt) z.

(** A datetime is aware when it carries a [tzinfo]. *)
Definition aware (dt : datetime) : bool :=
  match tzinfo dt with Some _ => true | None => false end.

Definition is_leap (y : Z) : bool :=
  ((y mod 4 =? 0) && (negb (y mod 100 =? 0) || (y mod 400 =? 0)))%Z.

Definition days_in_month (y m : Z) : Z :=
  if (m =? 2)%Z then (if is_leap y then 29 else 28)%Z
  else if ((m =? 4) || (m =? 6) || (m =? 9) || (m =? 11))%Z then 30%Z
  else 31%Z.

Definition between (lo x hi : Z) : bool := ((lo <=? x) && (x <=? hi))%Z.

(** [datetime(y, m, d, H, M, S, tzinfo=z)]; [None] stands for the
    [ValueError] of a field out of range. *)
Definition datetime_new (y m d H M S : Z) (z : option tz) : option datetime :=
  if between 1 y 9999 && between 1 m 12 && between 1 d (days_in_month y m) &&
     between 0 H 23 && between 0 M 59 && between 0 S 59
  then Some (mkdt y m d H M S 0 z)
  else None.

(** [strftime] directives used by the code.  [%m], [%d], [%H], [%M] and
    [%S] are padded to two digits; [%Y] is the year as the C library of
    Linux prints it, without padding (year 999 is [999]). *)
Definition strftime_Y (dt : datetime) : string := Py.str_int (year dt).
Definition strftime_m (dt : datetime) : string := Py.fmt_0d 2 (month dt).
Definition strftime_d (dt : datetime) : string := Py.fmt_0d 2 (day dt).
Definition strftime_H (dt : datetime) : string := Py.fmt_0d 2 (hour dt).
Definition strftime_M (dt : datetime) : string := Py.fmt_0d 2 (minute dt).
Definition strftime_S (dt : datetime) : string := Py.fmt_0d 2 (second dt).

(** ** [src/utils/timestamp_utils.py]: the file name *)

(** [\d{n}] at the head of [s]: the number read and the rest. *)
Fixpoint take_digits (n : nat) (s : string) (acc : Z) : option (Z * string) :=
  match n with
  | O => Some (acc, s)
  | S k =>
      match s with
      | String c s' =>
          if Py.is_digit c
          then take_digits k s' (10 * acc + Z.of_nat (nat_of_ascii c - 48))%Z
          else None
      | EmptyString => None
      end
  end.

(** [[...]?] before a group of digits: the separator is taken when it is
    there (a separator is never a digit, so no other choice can match). *)
Definition opt_sep (seps : list ascii) (s : string) : string :=
  match s with
  | String c s' => if existsb (Ascii.eqb c) seps then s' else s
  | EmptyString => EmptyString
  end.

Definition lit (p : string) (s : string) : option string :=
  if Py.has_prefix p s then Some (Py.drop (String.length p) s) else None.

Record groups6 := G6 { g1 : Z; g2 : Z; g3 : Z; g4 : Z; g5 : Z; g6 : Z }.

(** [DJI_(\d{4})(\d{2})(\d{2})(\d{2})(\d{2})(\d{2})_] at the head of [s] *)
Definition dji_pattern (s : string) : option groups6 :=
  r ← lit "DJI_" s;
  '(y, r) ← take_digits 4 r 0;
  '(m, r) ← take_digits 2 r 0;
  '(d, r) ← take_digits 2 r 0;
  '(hh, r) ← take_digits 2 r 0;
  '(mi, r) ← take_digits 2 r 0;
  '(sec, r) ← take_digits 2 r 0;
  _ ← lit "_" r;
  Some (G6 y m d hh mi sec).

(** [screen-(\d{4})(\d{2})(\d{2})-(\d{2})(\d{2})(\d{2})] *)
Definition screen_pattern (s : string) : option groups6 :=
  r ← lit "screen-" s;
  '(y, r) ← take_digits 4 r 0;
  '(m, r) ← take_digits 2 r 0;
  '(d, r) ← take_digits 2 r 0;
  r ← lit "-" r;
  '(hh, r) ← take_digits 2 r 0;
  '(mi, r) ← take_digits 2 r 0;
  '(sec, r) ← take_digits 2 r 0;
  Some (G6 y m d hh mi sec).

(** [(\d{4})[-_]?(\d{2})[-_]?(\d{2})[-_T]?(\d{2})[-_:]?(\d{2})[-_:]?(\d{2})] *)
Definition generic_pattern (s : string) : option groups6 :=
  '(y, r) ← take_digits 4 s 0;
  '(m, r) ← take_digits 2 (opt_sep ["-"; "_"]%char r) 0;
  '(d, r) ← take_digits 2 (opt_sep ["-"; "_"]%char r) 0;
  '(hh, r) ← take_digits 2 (opt_sep ["-"; "_"; "T"]%char r) 0;
  '(mi, r) ← take_digits 2 (opt_sep ["-"; "_"; ":"]%char r) 0;
  '(sec, r) ← take_digits 2 (opt_sep ["-"; "_"; ":"]%char r) 0;
  Some (G6 y m d hh mi sec).

(** [re.search(pattern, s)]: the match at the leftmost position that has
    one. *)
Fixpoint re_search {A} (pattern : string → option A) (s : string) : option A :=
  match pattern s with
  | Some g => Some g
  | None =>
      match s with
      | EmptyString => None
      | String _ s' => re_search pattern s'
      end
  end.

(** [datetime(year, ..., second, tzinfo=tzlocal())] of a match; [None] when
    the constructor raises [ValueError], which the code passes over. *)
Definition local_datetime_of (g : groups6) : option datetime :=
  datetime_new (g1 g) (g2 g) (g3 g) (g4 g) (g5 g) (g6 g) (Some tzlocal).

Definition try_pattern (pattern : string → option groups6) (filename : string)
  : option datetime :=
  re_search pattern filename ≫= local_datetime_of.

Definition extract_timestamp_from_filename (filename : string)
  : option datetime :=
  match try_pattern dji_pattern filename with
  | Some dt => Some dt
  | None =>
      match try_pattern screen_pattern filename with
      | Some dt => Some dt
      | None => try_pattern generic_pattern filename
      end
  end.

Definition get_formatted_timestamp (timestamp : datetime) : string * string :=
  (strftime_Y timestamp +:+ strftime_m timestamp +:+ strftime_d timestamp,
   strftime_H timestamp +:+ strftime_M timestamp +:+ strftime_S timestamp).

(** ** [src/utils/file_utils.py]: the output tree *)

(** The directory [create_output_directory] returns (and creates). *)
Definition output_directory (base_dir : string) (timestamp : datetime)
    (media_type : option media) : string :=
  let year := strftime_Y timestamp in
  let month := strftime_m timestamp in
  let day := strftime_d timestamp in
  let base_path :=
    match media_type with
    | Some image => path_join base_dir "photos"
    | Some video => path_join base_dir "videos"
    | None => base_dir
    end in
  path_join (path_join (path_join base_path year) (year +:+ "-" +:+ month))
            (year +:+ "-" +:+ month +:+ "-" +:+ day).

(** ** The libraries the code calls

    Floating point, [str] of floats and containers, [dateutil]'s parser and
    zone conversion are not part of the repository: the embedding takes
    them as an interface and holds for every implementation of it. *)

Record PyLib := {
  pyfloat : Type;
  (** [float(s)]; [None] stands for [ValueError] *)
  float_of_str : string → option pyfloat;
  float_of_Z : Z → pyfloat;
  float_of_Q : Q → pyfloat;
  fadd : pyfloat → pyfloat → pyfloat;
  fsub : pyfloat → pyfloat → pyfloat;
  fmul : pyfloat → pyfloat → pyfloat;
  ffloordiv : pyfloat → pyfloat → pyfloat;
  fmod : pyfloat → pyfloat → pyfloat;
  fabs : pyfloat → pyfloat;
  flt : pyfloat → pyfloat → bool;
  f_is_integer : pyfloat → bool;
  (** [int(x)] *)
  f_int : pyfloat → res Z;
  (** [format(x, '.2f')] and [str(x)] *)
  f_fmt2 : pyfloat → string;
  f_str : pyfloat → string;
  (** [str] of a list or a dictionary *)
  container_str : value → string;
  (** [dateutil.parser.parse(s, fuzzy=b)] on a string *)
  parser_parse : bool → string → res datetime;
  (** the wall-clock fields of [dt.astimezone(z)] *)
  astimezone_fields : datetime → tz → res datetime;
  (** [dt.utcoffset()], in seconds, of an aware datetime in zone [z] *)
  zone_utcoffset : tz → datetime → Z
}.

Section WithLibrary.

Variable L : PyLib.

(** [str(v)] *)
Definition py_str (v : value) : string :=
  match v with
  | VStr s => s
  | VInt z => Py.str_int z
  | VBool true => "True"
  | VBool false => "False"
  | VNone => "None"
  | VFloat q => f_str L (float_of_Q L q)
  | VList _ | VDict _ => container_str L v
  end.

(** [dateutil.parser.parse(v, fuzzy=b)]: anything but a string is a
    [TypeError]. *)
Definition dateutil_parse (fuzzy : bool) (v : value) : res datetime :=
  match v with
  | VStr s => parser_parse L fuzzy s
  | _ => Raise TypeError
  end.

(** [dt.astimezone(z)]: the result carries [z]. *)
Definition astimezone (dt : datetime) (z : tz) : res datetime :=
  d ← astimezone_fields L dt z; Ok (replace_tzinfo d (Some z)).

(** [dt.utcoffset()] in seconds; [None] for a naive datetime. *)
Definition utcoffset (dt : datetime) : option Z :=
  match tzinfo dt with
  | None => None
  | Some (tzoffset s) => Some s
  | Some tzutc => Some 0%Z
  | Some z => Some (zone_utcoffset L z dt)
  end.

(** [timezone(timedelta(seconds=s))]: an offset of a day or more is a
    [ValueError], one no [timedelta] can hold an [OverflowError]. *)
Definition timezone_of_seconds (s : Z) : res tz :=
  if ((-86400 <? s) && (s <? 86400))%Z then Ok (tzoffset s)
  else if between (-999999999) (s / 86400) 999999999 then Raise ValueError
  else Raise OtherError.

(** [k in v] and [v[k]] for a string [k] *)
Definition py_in (k : string) (v : value) : res bool :=
  match v with
  | VDict d => Ok (dict_mem d k)
  | VStr s => Ok (Py.contains k s)
  | VList l =>
      Ok (existsb (λ x, match x with
                        | VStr s => String.eqb s k
                        | _ => false
                        end) l)
  | _ => Raise TypeError
  end.

Definition py_getitem (v : value) (k : string) : res value :=
  match v with
  | VDict d =>
      match dict_lookup d k with
      | Some x => Ok x
      | None => Raise KeyError
      end
  | _ => Raise TypeError
  end.

(** ** [src/utils/timestamp_utils.py]: the metadata *)

Definition timestamp_fields : list string :=
  [ "ExifIFD:DateTimeOriginal"; "IFD0:ModifyDate"; "System:FileModifyDate";
    "QuickTime:CreateDate"; "Track1:TrackCreateDate";
    "SubSecDateTimeOriginal"; "SubSecCreateDate"; "SubSecModifyDate";
    "DateTimeOriginal"; "CreateDate"; "ModifyDate";
    "EXIF:DateTimeOriginal"; "EXIF:CreateDate"; "EXIF:ModifyDate";
    "Composite:SubSecDateTimeOriginal"; "Composite:SubSecCreateDate";
    "Composite:SubSecModifyDate";
    "QuickTime:MediaCreateDate"; "QuickTime:TrackCreateDate";
    "QuickTime:ModifyDate";
    "XML:CreationDate"; "XML:LastUpdate";
    "FileModifyDate"; "File:FileModifyDate";
    "MediaCreateDate"; "TrackCreateDate";
    "CreationDateValue"; "CreationTime" ].

Definition offset_fields : list string :=
  [ "OffsetTimeOriginal"; "OffsetTime"; "TimeZoneOffset";
    "EXIF:OffsetTimeOriginal"; "EXIF:OffsetTime" ].

(** The zone the function works with.  For a configured name other than
    ['local'] the code calls [timezone.gettz], which [datetime.timezone]
    does not have: the [AttributeError] is swallowed by the bare [except]
    and the zone is the local one again. *)
Definition working_tz (timezone_str : string) : tz :=
  if String.eqb timezone_str "local" then tzlocal else tzlocal.

Definition is_dict (v : value) : bool :=
  match v with VDict _ => true | _ => false end.

Definition prefixed (prefix key : string) : string :=
  if String.eqb prefix EmptyString then key else prefix +:+ ":" +:+ key.

(** The loop that follows the recursive call in [_flatten_metadata]. *)
Definition add_direct (new_key : string) (d : dict) (result : dict) : dict :=
  fold_left (λ r kv, if is_dict (snd kv) then r
                     else dict_set r (new_key +:+ ":" +:+ fst kv) (snd kv))
            d result.

Fixpoint _flatten_metadata (metadata : value) (result : dict) (prefix : string)
  : dict :=
  match metadata with
  | VDict items =>
      (fix items_loop (items : dict) (result : dict) : dict :=
         match items with
         | [] => result
         | (key, v) :: rest =>
             let new_key := prefixed prefix key in
             items_loop rest
               match v with
               | VDict d => add_direct new_key d (_flatten_metadata v result new_key)
               | _ => dict_set result new_key v
               end
         end) items result
  | _ => result
  end.

(** The QuickTime block: it writes into the flattened bag and reassigns
    the variable [timezone_str] of the enclosing function. *)
Definition quicktime_step (quicktime_data : value) (qt_field : string)
    (st : dict * option string) : res (dict * option string) :=
  let '(flat_metadata, timezone_str) := st in
  present ← py_in qt_field quicktime_data;
  if present : bool then
    has_tz ← py_in "TimeZone" quicktime_data;
    tzv ← (if has_tz : bool then py_getitem quicktime_data "TimeZone"
           else Ok VNone);
    v ← py_getitem quicktime_data qt_field;
    let '(timezone_str, qt_value) :=
      match has_tz, tzv with
      | true, VStr z => (Some z, VStr (py_str v +:+ z))
      | _, _ => (None, v)
      end in
    let flat_metadata := dict_set flat_metadata ("QuickTime:" +:+ qt_field) qt_value in
    let flat_metadata :=
      if dict_mem flat_metadata qt_field then flat_metadata
      else dict_set flat_metadata qt_field qt_value in
    Ok (flat_metadata, timezone_str)
  else Ok st.

Fixpoint quicktime_loop (quicktime_data : value) (fields : list string)
    (st : dict * option string) : res (dict * option string) :=
  match fields with
  | [] => Ok st
  | f :: fields' =>
      st' ← quicktime_step quicktime_data f st;
      quicktime_loop quicktime_data fields' st'
  end.

(** [flat_metadata.get(field, metadata.get(field))] *)
Definition flat_get (flat_metadata metadata : dict) (field : string) : value :=
  dict_get_default flat_metadata field (dict_get metadata field).

(** The body of the [try] that reads one offset field. *)
Definition offset_tz (offset : string) : res tz :=
  offset_hours ← from_option Ok (Raise ValueError)
                   (Py.int_of_str (Py.take 2 (Py.drop 1 offset)));
  offset_mins ← (if Nat.ltb 4 (String.length offset)
                 then from_option Ok (Raise ValueError)
                        (Py.int_of_str (Py.drop 4 offset))
                 else Ok 0%Z);
  let offset_seconds := (offset_hours * 3600 + offset_mins * 60)%Z in
  if Py.has_prefix "+" offset then timezone_of_seconds offset_seconds
  else timezone_of_seconds (- offset_seconds).

(** The loop over [offset_fields] for a naive [dt]: the first field that
    yields a zone ends it. *)
Fixpoint offset_loop (flat_metadata metadata : dict) (fields : list string)
    (dt : datetime) : res datetime :=
  match fields with
  | [] => Ok dt
  | f :: fields' =>
      match flat_get flat_metadata metadata f with
      | VStr offset =>
          if String.eqb offset EmptyString
          then offset_loop flat_metadata metadata fields' dt
          else
            match offset_tz offset with
            | Ok z => Ok (replace_tzinfo dt (Some z))
            | Raise ValueError | Raise IndexError =>
                offset_loop flat_metadata metadata fields' dt
            | Raise e => Raise e
            end
      | _ => offset_loop flat_metadata metadata fields' dt
      end
  end.

(** The body of the [try] of the main loop, for one candidate string. *)
Definition timestamp_of_field (flat_metadata metadata : dict)
    (timezone_str : option string) (tz0 : tz) (timestamp_str : string)
  : res datetime :=
  dt ← parser_parse L true timestamp_str;
  match tzinfo dt with
  | None =>
      dt ← offset_loop flat_metadata metadata offset_fields dt;
      match tzinfo dt with
      | None => Ok (replace_tzinfo dt (Some tz0))
      | Some _ => Ok dt
      end
  | Some _ =>
      if bool_decide (timezone_str = Some "local") then astimezone dt tz0
      else Ok dt
  end.

(** The main loop; [None] when no field gave a timestamp. *)
Fixpoint fields_loop (flat_metadata metadata : dict)
    (timezone_str : option string) (tz0 : tz) (fields : list string)
  : res (option datetime) :=
  match fields with
  | [] => Ok None
  | field :: fields' =>
      match flat_get flat_metadata metadata field with
      | VStr timestamp_str =>
          if String.eqb timestamp_str EmptyString
          then fields_loop flat_metadata metadata timezone_str tz0 fields'
          else
            match timestamp_of_field flat_metadata metadata timezone_str tz0
                    timestamp_str with
            | Ok dt => Ok (Some dt)
            | Raise ValueError | Raise TypeError =>
                fields_loop flat_metadata metadata timezone_str tz0 fields'
            | Raise e => Raise e
            end
      | _ => fields_loop flat_metadata metadata timezone_str tz0 fields'
      end
  end.

(** The last resort: [metadata['File']['FileModifyDate']]. *)
Definition file_modify_fallback (metadata : dict) (tz0 : tz)
  : res (option datetime) :=
  match dict_lookup metadata "File" with
  | Some (VDict file) =>
      match dict_lookup file "FileModifyDate" with
      | Some v =>
          try_except
            (dt ← dateutil_parse true v;
             Ok (Some (match tzinfo dt with
                       | None => replace_tzinfo dt (Some tz0)
                       | Some _ => dt
                       end)))
            [ValueError; TypeError] (Ok None)
      | None => Ok None
      end
  | _ => Ok None
  end.

Definition extract_timestamp_from_metadata (metadata : dict)
    (timezone_str : string) : res (option datetime) :=
  let tz0 := working_tz timezone_str in
  let flat_metadata := _flatten_metadata (VDict metadata) [] EmptyString in
  '(flat_metadata, timezone_str) ←
    (if dict_mem metadata "QuickTime"
     then quicktime_loop (dict_get metadata "QuickTime")
            ["CreateDate"; "ModifyDate"; "TrackCreateDate"; "MediaCreateDate"]
            (flat_metadata, Some timezone_str)
     else Ok (flat_metadata, Some timezone_str));
  r ← fields_loop flat_metadata metadata timezone_str tz0 timestamp_fields;
  match r with
  | Some dt => Ok (Some dt)
  | None => file_modify_fallback metadata tz0
  end.

(** ** [FileProcessor.process]: the timestamp *)

Definition is_sony_arw (name : string) : bool :=
  String.eqb (Py.lower (suffix name)) ".arw".

Definition is_sony_mp4 (name : string) : bool :=
  String.eqb (Py.lower (suffix name)) ".mp4" && Py.startswith name "C".

(** [g in metadata and k in metadata[g]] *)
Definition has_group_key (md : dict) (g k : string) : res bool :=
  if dict_mem md g then py_in k (dict_get md g) else Ok false.

(** The outcome of a [try] whose handler only logs: the value assigned
    before an exception, here none. *)
Definition try_none {A} (body : res (option A)) : option A :=
  match body with
  | Ok o => o
  | Raise _ => None
  end.

Definition list_count_str (k : string) (l : list value) : nat :=
  length (List.filter (λ x, match x with
                       | VStr s => String.eqb s k
                       | _ => false
                       end) l).

(** [YYYY:MM:DD rest] to [YYYY-MM-DD rest], as the ARW blocks do it. *)
Definition colon_date (date_str : string) : string :=
  if Py.contains ":" date_str && Nat.leb 2 (Py.count ":" date_str) then
    match Py.split1 " " date_str with
    | [date_part; time_part] =>
        Py.replace ":" "-" date_part +:+ " " +:+ time_part
    | _ => date_str
    end
  else date_str.

(** The same statements on whatever value the tag holds. *)
Definition colon_date_value (v : value) : res value :=
  match v with
  | VStr s => Ok (VStr (colon_date s))
  | VList l =>
      if Nat.ltb 0 (list_count_str ":" l) && Nat.leb 2 (list_count_str ":" l)
      then Raise AttributeError else Ok v
  | VDict d => if dict_mem d ":" then Raise AttributeError else Ok v
  | _ => Raise TypeError
  end.

(** [Composite:SubSecDateTimeOriginal], [System:FileModifyDate] and
    [IFD0:ModifyDate] of an ARW file. *)
Definition arw_block (md : dict) (g k : string) : res (option datetime) :=
  c ← has_group_key md g k;
  if c : bool then
    Ok (try_none (date_str ← py_getitem (dict_get md g) k;
                  date_str ← colon_date_value date_str;
                  dt ← dateutil_parse false date_str;
                  Ok (Some dt)))
  else Ok None.

(** [ExifIFD:DateTimeOriginal] with [OffsetTimeOriginal] *)
Definition arw_exififd (md : dict) : res (option datetime) :=
  if dict_mem md "ExifIFD" then
    let g := dict_get md "ExifIFD" in
    c ← py_in "DateTimeOriginal" g;
    if c : bool then
      date_str ← py_getitem g "DateTimeOriginal";
      has_off ← py_in "OffsetTimeOriginal" g;
      tz_offset ← (if has_off : bool then py_getitem g "OffsetTimeOriginal"
                   else Ok VNone);
      Ok (try_none
            (date_str ← colon_date_value date_str;
             dt ← parser_parse L false
                    (py_str date_str +:+
                     (if truthy tz_offset then py_str tz_offset
                      else EmptyString));
             Ok (Some dt)))
    else Ok None
  else Ok None.

Definition or_else (t : option datetime) (next : res (option datetime))
  : res (option datetime) :=
  match t with
  | Some _ => Ok t
  | None => next
  end.

Definition sony_arw_chain (md : dict) : res (option datetime) :=
  t ← arw_block md "Composite" "SubSecDateTimeOriginal";
  t ← or_else t (arw_block md "System" "FileModifyDate");
  t ← or_else t (arw_exififd md);
  or_else t (arw_block md "IFD0" "ModifyDate").

(** [parts[0].replace(':', '-')] and [' '.join(parts[1:])] put together *)
Definition dash_first_part (parts : list string) : string :=
  Py.replace ":" "-" (hd EmptyString parts) +:+ " " +:+
  Py.join " " (tl parts).

(** [XML:CreationDateValue] of an MP4 file *)
Definition mp4_xml_creation (md : dict) : res (option datetime) :=
  c ← has_group_key md "XML" "CreationDateValue";
  if c : bool then
    date_str ← py_getitem (dict_get md "XML") "CreationDateValue";
    Ok (try_none
          match date_str with
          | VStr s =>
              let parts := Py.split " " s in
              if Nat.leb 2 (length parts)
              then dt ← parser_parse L false (dash_first_part parts);
                   Ok (Some dt)
              else Ok None
          | _ => Raise AttributeError
          end)
  else Ok None.

Definition nth_str (l : list string) (i : nat) : string :=
  nth i l EmptyString.

Definition int_or_raise (s : string) : res Z :=
  from_option Ok (Raise ValueError) (Py.int_of_str s).

(** The manual parsing the QuickTime block falls back on. *)
Definition manual_parse (date_str tz_offset : value) : res (option datetime) :=
  match date_str with
  | VStr s =>
      let date_parts := Py.split " " s in
      if Nat.leb 2 (length date_parts) then
        let ymd_parts := Py.split "-" (nth_str date_parts 0) in
        let hms_parts := Py.split ":" (nth_str date_parts 1) in
        if Nat.leb 3 (length ymd_parts) && Nat.leb 3 (length hms_parts) then
          y ← int_or_raise (nth_str ymd_parts 0);
          m ← int_or_raise (nth_str ymd_parts 1);
          d ← int_or_raise (nth_str ymd_parts 2);
          hh ← int_or_raise (nth_str hms_parts 0);
          mi ← int_or_raise (nth_str hms_parts 1);
          f ← from_option Ok (Raise ValueError)
                (float_of_str L (nth_str hms_parts 2));
          sec ← f_int L f;
          dt ← from_option Ok (Raise ValueError)
                 (datetime_new y m d hh mi sec None);
          dt ← (if truthy tz_offset then
                  p ← parser_parse L false
                        ("2000-01-01 12:00:00" +:+ py_str tz_offset);
                  match utcoffset p with
                  | Some off =>
                      z ← timezone_of_seconds off;
                      Ok (replace_tzinfo dt (Some z))
                  | None => Raise TypeError
                  end
                else Ok dt);
          Ok (Some dt)
        else Ok None
      else Ok None
  | _ => Raise AttributeError
  end.

(** [QuickTime:CreateDate] with [QuickTime:TimeZone] *)
Definition mp4_quicktime (md : dict) : res (option datetime) :=
  c ← has_group_key md "QuickTime" "CreateDate";
  if c : bool then
    let q := dict_get md "QuickTime" in
    date_str ← py_getitem q "CreateDate";
    date_str ←
      match date_str with
      | VStr s =>
          if Py.contains ":" s then
            let parts := Py.split " " s in
            Ok (VStr (if Nat.leb 2 (length parts) then dash_first_part parts
                      else s))
          else Ok date_str
      | VList l =>
          if Nat.ltb 0 (list_count_str ":" l) then Raise AttributeError
          else Ok date_str
      | VDict d => if dict_mem d ":" then Raise AttributeError else Ok date_str
      | _ => Raise TypeError
      end;
    has_tz ← py_in "TimeZone" q;
    tz_offset ← (if has_tz : bool then py_getitem q "TimeZone" else Ok VNone);
    Ok (try_none
          match parser_parse L false
                  (py_str date_str +:+
                   (if truthy tz_offset then py_str tz_offset
                    else EmptyString)) with
          | Ok dt => Ok (Some dt)
          | Raise ValueError => Ok (try_none (manual_parse date_str tz_offset))
          | Raise e => Raise e
          end)
  else Ok None.

(** [System:FileModifyDate] and [XML:LastUpdate] of an MP4 file *)
Definition mp4_plain (md : dict) (g k : string) : res (option datetime) :=
  c ← has_group_key md g k;
  if c : bool then
    Ok (try_none (v ← py_getitem (dict_get md g) k;
                  dt ← dateutil_parse false v;
                  Ok (Some dt)))
  else Ok None.

Definition sony_mp4_chain (md : dict) : res (option datetime) :=
  t ← mp4_xml_creation md;
  t ← or_else t (mp4_quicktime md);
  t ← or_else t (mp4_plain md "System" "FileModifyDate");
  or_else t (mp4_plain md "XML" "LastUpdate").

(** The value of [sony_timestamp] when the chain is left. *)
Definition sony_timestamp (name : string) (md : dict) : res (option datetime) :=
  if is_sony_arw name then sony_arw_chain md
  else if is_sony_mp4 name then sony_mp4_chain md
  else Ok None.

(** The value of [timestamp] at line 299 of [file_processor.py]. *)
Definition resolve_timestamp (name : string) (md : dict) (timezone : string)
  : res (option datetime) :=
  let filename_timestamp := extract_timestamp_from_filename name in
  sony ← sony_timestamp name md;
  metadata_timestamp ←
    match sony with
    | Some _ => Ok sony
    | None => extract_timestamp_from_metadata md timezone
    end;
  Ok (if is_sony_arw name || is_sony_mp4 name then
        match sony with
        | Some _ => sony
        | None => metadata_timestamp
        end
      else
        match filename_timestamp with
        | Some _ => filename_timestamp
        | None => metadata_timestamp
        end).

(** ** [FileProcessor]: the components of the new name *)

Definition device_is (device_type : option device) (d : device) : bool :=
  match device_type with
  | Some d' => device_eqb d' d
  | None => false
  end.

Definition media_is (media_type : option media) (m : media) : bool :=
  match media_type with
  | Some m' => media_eqb m' m
  | None => false
  end.

(** The first field holding a string that is not blank, stripped. *)
Fixpoint first_stripped (md : dict) (fields : list string) : option string :=
  match fields with
  | [] => None
  | field :: fields' =>
      match dict_get md field with
      | VStr s =>
          if negb (String.eqb s EmptyString) &&
             negb (String.eqb (Py.strip s) EmptyString)
          then Some (Py.strip s)
          else first_stripped md fields'
      | _ => first_stripped md fields'
      end
  end.

Definition _extract_make (device_type : option device) (md : dict) : string :=
  match first_stripped md ["Make"; "DeviceManufacturer"; "manufacturer"] with
  | Some make => make
  | None =>
      match device_type with
      | Some dji_rc_pro => "DJI"
      | Some dji_drone => "DJI"
      | Some sony_camera => "Sony"
      | None => "Unknown"
      end
  end.

Definition _extract_model (device_type : option device) (md : dict) : string :=
  match first_stripped md ["Model"; "DeviceModelName"; "modelname"] with
  | Some model => model
  | None =>
      match device_type with
      | Some dji_drone => "Mavic 3 Pro"
      | Some sony_camera => "ILCE-7M4"
      | Some dji_rc_pro => "RC Pro"
      | None => "Unknown"
      end
  end.

(** [int(v)]: a number is truncated, a string parsed. *)
Definition py_int (v : value) : res Z :=
  match v with
  | VStr s => int_or_raise s
  | VInt z => Ok z
  | VBool b => Ok (if b then 1 else 0)%Z
  | VFloat q => Ok (if Qle_bool 0 q then Qfloor q else Qceiling q)
  | _ => Raise TypeError
  end.

Definition _extract_shutter_count (device_type : option device) (md : dict)
  : option string :=
  if device_is device_type sony_camera then
    let attempt (v : value) (s : string) : option string :=
      if truthy v then Py.fmt_0d 6 <$> Py.int_of_str s else None in
    let sc := dict_get md "ShutterCount" in
    match attempt sc (Py.strip (py_str sc)) with
    | Some r => Some r
    | None =>
        let sc2 := dict_get md "ShutterCount2" in
        attempt sc2 (py_str sc2)
    end
  else None.

(** The label of a frame height that is an [int]. *)
Definition resolution_label (height : Z) : string :=
  if (height =? 2160)%Z then "4K"
  else if (height =? 1080)%Z then "FHD"
  else if (height =? 720)%Z then "HD"
  else Py.str_int height +:+ "p".

(** The same comparisons on a value that was not a string. *)
Definition resolution_label_value (height : value) : string :=
  match height with
  | VInt z => resolution_label z
  | VFloat q =>
      if Qeq_bool q 2160 then "4K"
      else if Qeq_bool q 1080 then "FHD"
      else if Qeq_bool q 720 then "HD"
      else py_str height +:+ "p"
  | VBool _ | VNone | VStr _ | VList _ | VDict _ => py_str height +:+ "p"
  end.

Definition resolution_fields : list (string * string) :=
  [ ("ImageWidth", "ImageHeight");
    ("VideoFormatVideoLayoutPixel", "VideoFormatVideoLayoutNumOfVerticalLine");
    ("Width", "Height");
    ("SourceImageWidth", "SourceImageHeight");
    ("XML:VideoFormatVideoLayoutPixel",
     "XML:VideoFormatVideoLayoutNumOfVerticalLine");
    ("Composite:ImageWidth", "Composite:ImageHeight") ].

(** One turn of the loop over [resolution_fields]: [Some] label returns
    it, [None] goes on with the next pair. *)
Definition resolution_of_pair (md : dict) (wh : string * string)
  : option string :=
  let width := dict_get md (fst wh) in
  let height := dict_get md (snd wh) in
  if truthy width && truthy height then
    let width_ok :=
      match width with
      | VStr w =>
          match Py.int_of_str (Py.strip (hd EmptyString (Py.split "x" w))) with
          | Some _ => true
          | None => false
          end
      | _ => true
      end in
    if width_ok then
      match height with
      | VStr h =>
          resolution_label <$>
            Py.int_of_str
              (if Py.contains "x" h
               then Py.strip (nth_str (Py.split "x" h) 1) else h)
      | _ => Some (resolution_label_value height)
      end
    else None
  else None.

Fixpoint first_some {A B} (f : A → option B) (l : list A) : option B :=
  match l with
  | [] => None
  | x :: l' =>
      match f x with
      | Some y => Some y
      | None => first_some f l'
      end
  end.

(** The [ImageSize] block *)
Definition resolution_of_image_size (md : dict) : option string :=
  match dict_get md "ImageSize" with
  | VStr image_size =>
      if negb (String.eqb image_size EmptyString) then
        let separator := if Py.contains "x" image_size then "x"%char
                         else " "%char in
        if Py.contains (String separator EmptyString) image_size then
          match Py.split separator (Py.lower image_size) with
          | [w; h] =>
              match Py.int_of_str w, Py.int_of_str h with
              | Some _, Some height => Some (resolution_label height)
              | _, _ => None
              end
          | _ => None
          end
        else None
      else None
  | _ => None
  end.

Definition _extract_resolution (device_type : option device) (name : string)
    (md : dict) : option string :=
  let sony :=
    if device_is device_type sony_camera &&
       String.eqb (Py.lower (suffix name)) ".mp4" then
      let width := dict_get md "VideoFormatVideoLayoutPixel" in
      let height := dict_get md "VideoFormatVideoLayoutNumOfVerticalLine" in
      if truthy width && truthy height then
        match py_int width, py_int height with
        | Ok _, Ok h => Some (resolution_label h)
        | _, _ => None
        end
      else None
    else None in
  match sony with
  | Some r => Some r
  | None =>
      match first_some (resolution_of_pair md) resolution_fields with
      | Some r => Some r
      | None => resolution_of_image_size md
      end
  end.

(** The frame-rate label of a parsed rate. *)
Definition near (fps : pyfloat L) (rate : Z) : bool :=
  flt L (fabs L (fsub L fps (float_of_Z L rate))) (float_of_Q L (1 # 2)).

Definition fps_label (fps : pyfloat L) : res string :=
  if near fps 24 then Ok "24p"
  else if near fps 25 then Ok "25p"
  else if near fps 30 then Ok "30p"
  else if near fps 50 then Ok "50p"
  else if near fps 60 then Ok "60p"
  else if f_is_integer L fps
       then z ← f_int L fps; Ok (Py.str_int z +:+ "p")
       else Ok (f_fmt2 L fps +:+ "p").

Definition float_or_raise (s : string) : res (pyfloat L) :=
  from_option Ok (Raise ValueError) (float_of_str L s).

(** The loop over the Sony fields: a value without a ['p'] is passed
    over, [ValueError] and [TypeError] are swallowed. *)
Fixpoint sony_fps_loop (md : dict) (fields : list string)
  : res (option string) :=
  match fields with
  | [] => Ok None
  | field :: fields' =>
      let value := dict_get md field in
      if truthy value && Py.contains "p" (py_str value) then
        match (fps ← float_or_raise (hd EmptyString (Py.split "p" (py_str value)));
               fps_label fps) with
        | Ok r => Ok (Some r)
        | Raise ValueError | Raise TypeError => sony_fps_loop md fields'
        | Raise e => Raise e
        end
      else sony_fps_loop md fields'
  end.

Definition fps_fields : list string :=
  [ "VideoFrameRate"; "VideoFrameRateManual";
    "VideoFormatVideoFrameCaptureFps"; "VideoFormatVideoFrameFormatFps";
    "FrameRate";
    "XML:VideoFormatVideoFrameCaptureFps";
    "XML:VideoFormatVideoFrameFormatFps";
    "XML:LtcChangeTableTcFps"; "AvgFrameRate" ].

(** One turn of the generic loop; every exception goes on with the next
    field. *)
Definition fps_of_field (md : dict) (field : string) : option string :=
  let value := dict_get md field in
  if truthy value then
    let value_str := py_str value in
    match (fps ← float_or_raise
                   (if Py.contains "p" value_str
                    then hd EmptyString (Py.split "p" value_str)
                    else value_str);
           fps_label fps) with
    | Ok r => Some r
    | Raise _ => None
    end
  else None.

Definition _extract_fps (device_type : option device) (name : string)
    (md : dict) : res (option string) :=
  sony ← (if device_is device_type sony_camera &&
             String.eqb (Py.lower (suffix name)) ".mp4"
          then sony_fps_loop md
                 [ "VideoFormatVideoFrameCaptureFps";
                   "VideoFormatVideoFrameFormatFps";
                   "XML:VideoFormatVideoFrameCaptureFps" ]
          else Ok None);
  match sony with
  | Some r => Ok (Some r)
  | None => Ok (first_some (fps_of_field md) fps_fields)
  end.

Definition duration_fields : list string :=
  [ "Duration"; "MediaDuration"; "TrackDuration"; "QuickTime:Duration";
    "XML:Duration"; "MediaCreateDate"; "MediaModifyDate";
    "TrackCreateDate"; "TrackModifyDate" ].

(** [map(float, parts)] *)
Fixpoint floats_of (parts : list string) : option (list (pyfloat L)) :=
  match parts with
  | [] => Some []
  | p :: parts' =>
      f ← float_of_str L p; fs ← floats_of parts'; Some (f :: fs)
  end.

(** One turn of the loop over [duration_fields]: the seconds read from the
    field, if any. *)
Definition duration_of_field (md : dict) (field : string)
  : option (pyfloat L) :=
  let value := dict_get md field in
  if truthy value then
    let value_str := py_str value in
    if Py.contains ":" value_str then
      let parts := Py.split ":" value_str in
      match floats_of parts with
      | Some [h; m; s] =>
          Some (fadd L (fadd L (fmul L h (float_of_Z L 3600))
                               (fmul L m (float_of_Z L 60))) s)
      | Some [m; s] => Some (fadd L (fmul L m (float_of_Z L 60)) s)
      | _ => None
      end
    else if Py.contains "s" value_str ||
            Py.isdigit (Py.replace "." EmptyString value_str)
    then float_of_str L
           (Py.filter_chars (λ c, Py.is_digit c || Ascii.eqb c ".") value_str)
    else None
  else None.

Definition _extract_video_duration (media_type : option media) (md : dict)
  : res (option string) :=
  if media_is media_type video then
    match first_some (duration_of_field md) duration_fields with
    | Some duration_seconds =>
        minutes ← f_int L (ffloordiv L duration_seconds (float_of_Z L 60));
        seconds ← f_int L (fmod L duration_seconds (float_of_Z L 60));
        Ok (Some (if (0 <? minutes)%Z
                  then Py.fmt_0d 2 minutes +:+ "m" +:+
                       Py.fmt_0d 2 seconds +:+ "s"
                  else Py.fmt_0d 2 seconds +:+ "s"))
    | None => Ok None
    end
  else Ok None.

Definition _extract_focal_length (device_type : option device)
    (media_type : option media) (name : string) (md : dict) : option string :=
  if negb (media_is media_type image) || negb (device_is device_type dji_drone)
  then None
  else
    let filename := Py.lower name in
    let camera_model :=
      Py.lower (py_str (dict_get_default md "Model" (VStr EmptyString))) in
    let lens_id :=
      Py.lower (py_str (dict_get_default md "LensID" (VStr EmptyString))) in
    let hit code := Py.contains code filename ||
                    Py.contains code camera_model ||
                    Py.contains code lens_id in
    if hit "l2d-20c" then Some "24mm"
    else if hit "fc4382" then Some "70mm"
    else if hit "fc4370" then Some "166mm"
    else None.

(** ** [FileProcessor._generate_new_filename] *)

(** The normalisation of the model name. *)
Definition clean_model (model : string) : string :=
  if String.eqb model EmptyString then model
  else if Py.contains "RC Pro" model then "RCPro"
  else if Py.contains "Mavic 3 Pro" model then "Mavic3Pro"
  else if Py.contains "ILCE-" model
       then Py.replace " " "-" (Py.replace "ILCE-" "ILCE" model)
       else Py.replace " " "-" model.

Definition clean_make (make : string) : string :=
  if String.eqb make EmptyString then make else Py.replace " " "-" make.

(** [components[k] = v] on the dictionary of components. *)
Fixpoint comp_set (c : list (string * string)) (k v : string)
  : list (string * string) :=
  match c with
  | [] => [(k, v)]
  | (k', v') :: c' =>
      if String.eqb k' k then (k', v) :: c' else (k', v') :: comp_set c' k v
  end.

Definition comp_set_opt (c : list (string * string)) (k : string)
    (v : option string) : list (string * string) :=
  match v with
  | Some s => if String.eqb s EmptyString then c else comp_set c k s
  | None => c
  end.

(** The dictionary [components] when the pattern is filled in. *)
Definition components (device_type : option device)
    (media_type : option media) (name : string) (md : dict)
    (date_str time_str : string) : res (list (string * string)) :=
  let ext := get_normalized_extension (suffix name) in
  let make := clean_make (_extract_make device_type md) in
  let model := clean_model (_extract_model device_type md) in
  let c := [ ("datetime", date_str +:+ "-" +:+ time_str);
             ("date", date_str); ("time", time_str);
             ("make", make); ("model", model); ("ext", ext) ] in
  let c :=
    if device_is device_type dji_drone then
      let c := comp_set_opt c "sequence"
                 (_extract_sequence_number device_type name) in
      let c := comp_set c "model" "Mavic3Pro" in
      if media_is media_type image
      then comp_set_opt c "focal_length"
             (_extract_focal_length device_type media_type name md)
      else c
    else c in
  if media_is media_type video then
    let c := comp_set_opt c "resolution"
               (_extract_resolution device_type name md) in
    fps ← _extract_fps device_type name md;
    let c := comp_set_opt c "fps" fps in
    duration ← _extract_video_duration media_type md;
    Ok (comp_set_opt c "duration" duration)
  else if media_is media_type image && device_is device_type sony_camera then
    Ok (comp_set_opt c "shutter_count" (_extract_shutter_count device_type md))
  else Ok c.

(** [FILENAME_PATTERNS.get((device, media), FILENAME_PATTERNS.get('default'))] *)
Definition pattern_for (device_type : option device)
    (media_type : option media) : string :=
  match device_type, media_type with
  | Some d, Some m =>
      default FILENAME_PATTERNS_default
        (snd <$> List.find (λ e, device_eqb (fst (fst e)) d &&
                                  media_eqb (snd (fst e)) m)
                   FILENAME_PATTERNS)
  | _, _ => FILENAME_PATTERNS_default
  end.

(** The loop that replaces [{key}] by its value, in the order of
    [components]. *)
Definition fill (new_filename : string) (c : list (string * string)) : string :=
  fold_left (λ fn kv,
               let placeholder := "{" +:+ fst kv +:+ "}" in
               if Py.contains placeholder fn
               then Py.replace placeholder (snd kv) fn else fn)
            c new_filename.

(** Whether [[^\}]+\}] matches at the head of [s], having read [n]
    characters of it. *)
Fixpoint closes (n : nat) (s : string) : bool :=
  match s with
  | EmptyString => false
  | String c s' =>
      if Ascii.eqb c "}" then negb (Nat.eqb n 0) else closes (S n) s'
  end.

(** [re.sub(r'\{[^\}]+\}', '', s)]: [inside] holds between the opening
    brace of a match and its closing brace. *)
Fixpoint strip_placeholders (inside : bool) (s : string) : string :=
  match s with
  | EmptyString => EmptyString
  | String c s' =>
      if inside then strip_placeholders (negb (Ascii.eqb c "}")) s'
      else if Ascii.eqb c "{" && closes 0 s' then strip_placeholders true s'
      else String c (strip_placeholders false s')
  end.

(** The body of the [try]. *)
Definition cleanup (new_filename : string) : string :=
  Py.replace " " "-"
    (Py.replace "--" "-" (strip_placeholders false new_filename)).

Definition _generate_new_filename (device_type : option device)
    (media_type : option media) (name : string) (md : dict)
    (date_str time_str : string) : res string :=
  c ← components device_type media_type name md date_str time_str;
  Ok (cleanup (fill (pattern_for device_type media_type) c)).

(** ** The world outside

    [paths] are the paths that exist (files and directories), [store] is
    the table [processed_files] of the tracking store, keyed by source
    path.  Reading the store is taken to succeed; a write to it may fail,
    which the code logs and survives (see [mark_file_as_processed]). *)

Record world := World {
  paths : gset string;
  store : gmap string string
}.

(** What a run cannot decide by itself: whether [exiftool] answers, the
    bag [MetadataExtractor.extract_metadata] returns for a path, whether a
    copy or a removal succeeds, and whether the [INSERT] of a row into the
    tracking store goes through. *)
Record env := Env {
  exiftool_available : bool;
  extract_metadata : string → dict;
  copy_ok : string → string → bool;
  remove_ok : string → bool;
  mark_ok : string → string → bool
}.

(** A path and the directories above it. *)
Fixpoint ancestors_go (seen rest : string) : list string :=
  match rest with
  | EmptyString => [seen]
  | String c rest' =>
      let tail := ancestors_go (seen +:+ String c EmptyString) rest' in
      if Ascii.eqb c "/" && negb (String.eqb seen EmptyString)
      then seen :: tail else tail
  end.

Definition ancestors (p : string) : list string := ancestors_go EmptyString p.

(** [output_dir.mkdir(parents=True, exist_ok=True)] *)
Definition mkdir_parents (w : world) (dir : string) : world :=
  World (list_to_set (ancestors dir) ∪ paths w) (store w).

Definition create_output_directory (w : world) (base_dir : string)
    (timestamp : datetime) (media_type : option media) : world * string :=
  let output_dir := output_directory base_dir timestamp media_type in
  (mkdir_parents w output_dir, output_dir).

Definition is_file_already_processed (w : world)
    (source_path output_path : string) : bool :=
  if bool_decide (output_path ∈ paths w) then true
  else bool_decide (is_Some (store w !! source_path)).

(** [INSERT OR REPLACE] inside a [try]: when it raises, the exception is
    printed and the row is not written. *)
Definition mark_file_as_processed (E : env) (w : world)
    (source_path output_path : string) : world :=
  if mark_ok E source_path output_path
  then World (paths w) (<[source_path := output_path]> (store w))
  else w.

(** ** [FileProcessor.process] *)

Definition process (E : env) (w : world) (input_path output_base_dir : string)
    (timezone : string) : world * res (option string) :=
  if negb (bool_decide (input_path ∈ paths w)) then (w, Ok None)
  else
    let metadata := extract_metadata E input_path in
    match metadata with
    | [] => (w, Ok None)
    | _ =>
        let name := path_name input_path in
        let device_type := _identify_device_type name metadata in
        let media_type := _identify_media_type name in
        match device_type, media_type with
        | Some _, Some _ =>
            match resolve_timestamp name metadata timezone with
            | Raise e => (w, Raise e)
            | Ok None => (w, Ok None)
            | Ok (Some timestamp) =>
                let '(date_str, time_str) := get_formatted_timestamp timestamp in
                let '(w, output_dir) :=
                  create_output_directory w output_base_dir timestamp
                    media_type in
                match _generate_new_filename device_type media_type name
                        metadata date_str time_str with
                | Raise e => (w, Raise e)
                | Ok new_filename =>
                    if String.eqb new_filename EmptyString then (w, Ok None)
                    else
                      let output_path := path_join output_dir new_filename in
                      if is_file_already_processed w input_path output_path
                      then (w, Ok None)
                      else if copy_ok E input_path output_path
                      then (World ({[output_path]} ∪ paths w) (store w),
                            Ok (Some output_path))
                      else (w, Ok None)
                end
            end
        | _, _ => (w, Ok None)
        end
    end.

(** ** [src/main.py] *)

Record counts := Counts { success_count : nat; error_count : nat }.

Definition succeeded (c : counts) : counts :=
  Counts (S (success_count c)) (error_count c).

Definition failed (c : counts) : counts :=
  Counts (success_count c) (S (error_count c)).

(** What the dry-run branch prints for one file. *)
Record dry_report := DryReport {
  would_process_as : option device * option media;
  would_use_timestamp : option datetime;
  would_save_to : option string
}.

(** The dry-run branch of the loop body.  The processor was only
    constructed: its own [metadata] is still the empty dictionary when
    [_identify_device_type] is called. *)
Definition dry_run_file (E : env) (file_path output_dir timezone : string)
  : res dry_report :=
  let name := path_name file_path in
  let metadata := extract_metadata E file_path in
  let device_type := _identify_device_type name [] in
  let media_type := _identify_media_type name in
  let filename_timestamp := extract_timestamp_from_filename name in
  metadata_timestamp ← extract_timestamp_from_metadata metadata timezone;
  let timestamp :=
    if device_is device_type sony_camera then metadata_timestamp
    else match filename_timestamp with
         | Some _ => filename_timestamp
         | None => metadata_timestamp
         end in
  match timestamp with
  | Some ts =>
      let '(date_str, time_str) := get_formatted_timestamp ts in
      let media_output_dir :=
        match media_type with
        | Some image => path_join output_dir "photos"
        | Some video => path_join output_dir "videos"
        | None => output_dir
        end in
      let year_month := strftime_Y ts +:+ "/" +:+ strftime_m ts in
      let proposed_output_dir := path_join media_output_dir year_month in
      new_filename ← _generate_new_filename device_type media_type name
                       metadata date_str time_str;
      Ok (DryReport (device_type, media_type) timestamp
            (if String.eqb new_filename EmptyString then None
             else Some (path_join proposed_output_dir new_filename)))
  | None => Ok (DryReport (device_type, media_type) None None)
  end.

(** One turn of the loop of [process_files]. *)
Definition process_file (E : env) (output_dir timezone : string)
    (dry_run remove_processed : bool) (st : world * counts)
    (file_path : string) : world * counts :=
  let '(w, c) := st in
  if negb (exiftool_available E) then (w, failed c)
  else if dry_run then
    match dry_run_file E file_path output_dir timezone with
    | Ok _ => (w, succeeded c)
    | Raise _ => (w, failed c)
    end
  else
    match process E w file_path output_dir timezone with
    | (w, Ok (Some output_path)) =>
        let w := mark_file_as_processed E w file_path output_path in
        let w :=
          if remove_processed && remove_ok E file_path
          then World (paths w ∖ {[file_path]}) (store w) else w in
        (w, succeeded c)
    | (w, Ok None) => (w, failed c)
    | (w, Raise _) => (w, failed c)
    end.

Definition process_files (E : env) (w : world) (media_files : list string)
    (output_dir timezone : string) (dry_run remove_processed : bool)
  : world * counts :=
  fold_left (process_file E output_dir timezone dry_run remove_processed)
            media_files (w, Counts 0 0).

(** The output directory and the output path of a file as [process]
    computes them at line 316, when it gets that far. *)
Definition planned_output (E : env) (input_path output_base_dir : string)
    (timezone : string) : option (string * string) :=
  let metadata := extract_metadata E input_path in
  let name := path_name input_path in
  match metadata, _identify_device_type name metadata,
        _identify_media_type name with
  | _ :: _, Some d, Some m =>
      match resolve_timestamp name metadata timezone with
      | Ok (Some timestamp) =>
          let '(date_str, time_str) := get_formatted_timestamp timestamp in
          let output_dir :=
            output_directory output_base_dir timestamp (Some m) in
          match _generate_new_filename (Some d) (Some m) name metadata
                  date_str time_str with
          | Ok new_filename =>
              if String.eqb new_filename EmptyString then None
              else Some (output_dir, path_join output_dir new_filename)
          | Raise _ => None
          end
      | _ => None
      end
  | _, _, _ => None
  end.

(** ** [src/utils/file_utils.py]: the tracking store *)

(** [get_processed_files]: the source paths on record. *)
Definition get_processed_files (w : world) : gset string := dom (store w).

(** ** [src/main.py]: finding the files *)

Definition SUPPORTED_EXTENSIONS : list (media * list string) :=
  [ (image, [".jpg"; ".jpeg"; ".dng"; ".arw"]); (video, [".mp4"]) ].

(** What the file system shows of an input directory: whether it exists,
    its own entries with [is_file()] of each, and the files [os.walk]
    finds in it and below. *)
Record listing := Listing {
  dir_exists : bool;
  top_entries : list (string * bool);
  walked_files : list string
}.

Definition all_extensions : list string :=
  concat (map snd SUPPORTED_EXTENSIONS).

Definition supported (path : string) : bool :=
  str_in (Py.lower (get_file_extension path)) all_extensions.

Definition find_media_files (d : listing) (recursive : bool) : list string :=
  if negb (dir_exists d) then []
  else if recursive then List.filter supported (walked_files d)
  else map fst (List.filter (λ e, snd e && supported (fst e)) (top_entries d)).

(** The command line. *)
Record arguments := Arguments {
  arg_input : listing;
  arg_output : string;
  arg_timezone : string;
  arg_recursive : bool;
  arg_dry_run : bool;
  arg_remove_processed : bool
}.

(** [main]: the world it leaves and the exit status of the process
    ([sys.exit(None)] is status 0). *)
Definition main (E : env) (w : world) (args : arguments) : world * Z :=
  let media_files := find_media_files (arg_input args) (arg_recursive args) in
  match media_files with
  | [] => (w, 0%Z)
  | _ =>
      let '(w, c) :=
        process_files E w media_files (arg_output args) (arg_timezone args)
          (arg_dry_run args) (arg_remove_processed args) in
      (w, if Nat.eqb (error_count c) 0 then 0 else 1)%Z
  end.

(** [re.search(r'\{[^\}]+\}', s) is not None]: some position of [s] opens
    a placeholder. *)
Fixpoint has_placeholder (s : string) : bool :=
  match s with
  | EmptyString => false
  | String c s' => (Ascii.eqb c "{" && closes 0 s') || has_placeholder s'
  end.

(** How the two values of [timezone_str] of two runs with the zones [a] and
    [b] are related while [extract_timestamp_from_metadata] runs: they
    agree, or they are still the two configured names. *)
Definition same_or_configured (a b : string) (t1 t2 : option string) : Prop :=
  t1 = t2 ∨ (t1 = Some a ∧ t2 = Some b).

(** A label that ends in [p], such as [540p] or [30p]. *)
Definition ends_in_p (r : string) : Prop := ∃ s, r = s +:+ "p".

(** ** Notions the specification uses *)

(** A base name made of a capital letter followed by digits only. *)
Definition spec_capital_then_digits (base : string) : bool :=
  match base with
  | String c digits => Py.is_upper c && Py.isdigit digits
  | EmptyString => false
  end.

(** The time zone a configuration string names: the system zone for
    ['local'], the named zone otherwise. *)
Definition spec_configured_zone (timezone : string) : tz :=
  if String.eqb timezone "local" then tzlocal else tznamed timezone.

(** The naive instant a pattern reads from a file name: the digits of its
    leftmost match as year, month, day, hour, minute and second, when they
    are the fields of a date and a time that exist. *)
Definition spec_naive_instant (pattern : string → option groups6)
    (filename : string) : option datetime :=
  g ← re_search pattern filename;
  datetime_new (g1 g) (g2 g) (g3 g) (g4 g) (g5 g) (g6 g) None.

End WithLibrary.

(** ** A reference library

    A small implementation of the interface, used to run the model on
    concrete inputs: floats are exact rationals, the date parser reads
    [YYYY-MM-DD HH:MM:SS] with an optional fraction and an optional
    [Z] or [+HH:MM] offset (what [dateutil] returns for such a string),
    and the local zone of the machine is UTC. *)

Module RefLib.

(** Up to six digits of a fraction of a second, in microseconds. *)
Fixpoint read_frac (k : nat) (r : string) (acc : Z) : Z * string :=
  match k with
  | O => (acc, r)
  | S k' =>
      match r with
      | String c r' =>
          if Py.is_digit c
          then read_frac k' r' (10 * acc + Z.of_nat (nat_of_ascii c - 48))%Z
          else ((acc * 10 ^ Z.of_nat k)%Z, r)
      | EmptyString => ((acc * 10 ^ Z.of_nat k)%Z, r)
      end
  end.

Definition opt_frac (s : string) : option (Z * string) :=
  match s with
  | String "." r =>
      match r with
      | String c _ => if Py.is_digit c then Some (read_frac 6 r 0) else None
      | EmptyString => None
      end
  | _ => Some (0%Z, s)
  end.

Definition opt_zone (s : string) : option (option tz) :=
  match s with
  | EmptyString => Some None
  | String "Z" EmptyString => Some (Some tzutc)
  | String sign r =>
      if Ascii.eqb sign "+" || Ascii.eqb sign "-" then
        '(hh, r) ← take_digits 2 r 0;
        '(mm, r) ← take_digits 2 (opt_sep [":"%char] r) 0;
        if String.eqb r EmptyString && (hh <? 24)%Z && (mm <? 60)%Z then
          let secs := (hh * 3600 + mm * 60)%Z in
          Some (Some (tzoffset (if Ascii.eqb sign "-" then - secs else secs)))
        else None
      else None
  end.

Definition parse_iso (s : string) : option datetime :=
  '(y, r) ← take_digits 4 s 0;
  r ← lit "-" r;
  '(m, r) ← take_digits 2 r 0;
  r ← lit "-" r;
  '(d, r) ← take_digits 2 r 0;
  r ← match lit " " r with Some r' => Some r' | None => lit "T" r end;
  '(hh, r) ← take_digits 2 r 0;
  r ← lit ":" r;
  '(mi, r) ← take_digits 2 r 0;
  r ← lit ":" r;
  '(sec, r) ← take_digits 2 r 0;
  '(us, r) ← opt_frac r;
  z ← opt_zone r;
  dt ← datetime_new y m d hh mi sec z;
  Some (mkdt (year dt) (month dt) (day dt) (hour dt) (minute dt) (second dt)
             us z).

Definition parse (fuzzy : bool) (s : string) : res datetime :=
  from_option Ok (Raise ValueError) (parse_iso s).

(** Days since 1970-01-01 of a civil date, and back. *)
Definition days_from_civil (y m d : Z) : Z :=
  let y := (if m <=? 2 then y - 1 else y)%Z in
  let era := (y / 400)%Z in
  let yoe := (y - era * 400)%Z in
  let doy := ((153 * (if 2 <? m then m - 3 else m + 9) + 2) / 5 + d - 1)%Z in
  let doe := (yoe * 365 + yoe / 4 - yoe / 100 + doy)%Z in
  (era * 146097 + doe - 719468)%Z.

Definition civil_from_days (z : Z) : Z * Z * Z :=
  let z := (z + 719468)%Z in
  let era := (z / 146097)%Z in
  let doe := (z - era * 146097)%Z in
  let yoe := ((doe - doe / 1460 + doe / 36524 - doe / 146096) / 365)%Z in
  let doy := (doe - (365 * yoe + yoe / 4 - yoe / 100))%Z in
  let mp := ((5 * doy + 2) / 153)%Z in
  let d := (doy - (153 * mp + 2) / 5 + 1)%Z in
  let m := (if mp <? 10 then mp + 3 else mp - 9)%Z in
  ((if m <=? 2 then yoe + era * 400 + 1 else yoe + era * 400)%Z, m, d).

Definition offset_of (z : tz) : Z :=
  match z with
  | tzoffset s => s
  | _ => 0%Z
  end.

(** The wall clock of [dt] in zone [z]; a naive [dt] is read as local. *)
Definition to_zone (dt : datetime) (z : tz) : res datetime :=
  let src := from_option offset_of 0%Z (tzinfo dt) in
  let secs := (days_from_civil (year dt) (month dt) (day dt) * 86400 +
               hour dt * 3600 + minute dt * 60 + second dt
               - src + offset_of z)%Z in
  let '(y, m, d) := civil_from_days (secs / 86400) in
  let sod := (secs mod 86400)%Z in
  if between 1 y 9999 then
    Ok (mkdt y m d (sod / 3600) (sod mod 3600 / 60) (sod mod 60)
             (microsecond dt) (tzinfo dt))
  else Raise OtherError.

Fixpoint frac_digits (s : string) (num den : Z) : option Q :=
  match s with
  | EmptyString => Some (num # Z.to_pos den)
  | String c s' =>
      if Py.is_digit c
      then frac_digits s' (10 * num + Z.of_nat (nat_of_ascii c - 48))%Z
                       (10 * den)%Z
      else None
  end.

(** [float(s)] for [digits], [digits.digits] and a sign *)
Definition float_of_string (s : string) : option Q :=
  let body (r : string) : option Q :=
    match Py.split1 "." r with
    | [i] => if Py.isdigit i then Some (inject_Z (Py.digits_val i 0)) else None
    | [i; f] =>
        if String.eqb i EmptyString && String.eqb f EmptyString then None
        else if Py.all_chars Py.is_digit i
        then frac_digits f (Py.digits_val i 0) 1
        else None
    | _ => None
    end in
  match Py.strip s with
  | String "-" r => Qopp <$> body r
  | String "+" r => body r
  | r => body r
  end.

Definition trunc (q : Q) : Z := if Qle_bool 0 q then Qfloor q else Qceiling q.

Definition fmt2 (q : Q) : string :=
  let n := Qfloor (Qabs q * 100 + (1 # 2))%Q in
  (if Qle_bool 0 q then EmptyString else "-") +:+
  Py.str_int (n / 100) +:+ "." +:+ Py.fmt_0d 2 (n mod 100).

Definition lib : PyLib := {|
  pyfloat := Q;
  float_of_str := float_of_string;
  float_of_Z := inject_Z;
  float_of_Q := λ q, q;
  fadd := Qplus;
  fsub := Qminus;
  fmul := Qmult;
  ffloordiv := λ a b, inject_Z (Qfloor (a / b)%Q);
  fmod := λ a b, (a - inject_Z (Qfloor (a / b)) * b)%Q;
  fabs := Qabs;
  flt := λ a b, Qle_bool a b && negb (Qeq_bool a b);
  f_is_integer := λ q, Qeq_bool q (inject_Z (Qfloor q));
  f_int := λ q, Ok (trunc q);
  f_fmt2 := fmt2;
  f_str := λ q, if Qeq_bool q (inject_Z (Qfloor q))
                then Py.str_int (Qfloor q) +:+ ".0" else fmt2 q;
  container_str := λ v, match v with VList _ => "[...]" | _ => "{...}" end;
  parser_parse := parse;
  astimezone_fields := to_zone;
  zone_utcoffset := λ z _, offset_of z
|}.

End RefLib.

(** ** [src/utils/metadata_extractor.py] *)

Module MetadataExtractor.

(** What running [exiftool -json -a -u -g1] on a file gives: the process
    fails, its output is not JSON, or it is the JSON value [v]. *)
Inductive exiftool_output :=
  | SubprocessError
  | NotJson
  | Json (v : value).

(** The inner loop over the tags of a group. *)
Definition add_group (group_key : string) (group_data : dict)
    (flattened_metadata : dict) : dict :=
  fold_left (λ fm kv,
               let fm := dict_set fm (group_key +:+ ":" +:+ fst kv) (snd kv) in
               if dict_mem fm (fst kv) then fm
               else dict_set fm (fst kv) (snd kv))
            group_data flattened_metadata.

(** One turn of the loop over the groups. *)
Definition add_entry (flattened_metadata : dict) (entry : string * value)
  : dict :=
  let '(group_key, group_data) := entry in
  if String.eqb group_key "SourceFile"
  then dict_set flattened_metadata group_key group_data
  else
    match group_data with
    | VDict d =>
        add_group group_key d
          (dict_set flattened_metadata group_key group_data)
    | _ => dict_set flattened_metadata group_key group_data
    end.

Definition flatten (metadata : dict) : dict :=
  fold_left add_entry metadata [].

(** [extract_metadata]: the first element of the JSON list, flattened;
    the empty dictionary when [exiftool] fails or prints no list.  An
    element that is not a dictionary has no [items]. *)
Definition extract_metadata (out : exiftool_output) : res dict :=
  match out with
  | SubprocessError => Ok []
  | NotJson => Ok []
  | Json (VList (VDict metadata :: _)) => Ok (flatten metadata)
  | Json (VList (_ :: _)) => Raise AttributeError
  | Json _ => Ok []
  end.

End MetadataExtractor.

(** ** Sample inputs *)

Module Sample.

Definition dji_photo : string := "DJI_20230615143022_0007_D.jpg".
Definition dji_photo_path : string := "in/DJI_20230615143022_0007_D.jpg".
Definition dji_video : string := "DJI_20230615143022_0001_D.mp4".

(** A bag that names its file and nothing else. *)
Definition bare_bag (path : string) : dict := [("SourceFile", VStr path)].

(** 2023-06-15 14:30:22, without a zone and in the local zone. *)
Definition june15_naive : datetime := mkdt 2023 6 15 14 30 22 0 None.
Definition june15_local : datetime := mkdt 2023 6 15 14 30 22 0 (Some tzlocal).

(** A Sony raw file whose only date tag has no offset. *)
Definition arw_path : string := "in/DSC00123.ARW".
Definition arw_bag : dict :=
  [ ("SourceFile", VStr arw_path);
    ("IFD0", VDict [("ModifyDate", VStr "2023:06:15 14:30:22")]) ].

(** A Sony JPEG straight from the camera, and one this program renamed. *)
Definition sony_jpeg : string := "DSC00123.JPG".
Definition sony_jpeg_bag : dict :=
  [ ("Composite",
      VDict [("SubSecDateTimeOriginal", VStr "2023-06-15 14:30:22+02:00")]);
    ("IFD0", VDict [("ModifyDate", VStr "2024-01-01 10:00:00")]) ].
Definition renamed_sony_jpeg : string :=
  "20230615-143022-000042-Sony-ILCE7M4.jpg".
Definition renamed_sony_bag : dict :=
  [ ("Composite",
      VDict [("SubSecDateTimeOriginal", VStr "2024-01-01 10:00:00+02:00")]) ].

(** A QuickTime group as a Sony MP4 carries it. *)
Definition quicktime_bag (date zone : string) : dict :=
  [ ("QuickTime",
      VDict [("CreateDate", VStr date); ("TimeZone", VStr zone)]) ].

(** A world that holds one input file, and an environment in which every
    file has the bag [md] and copies, removals and store writes succeed. *)
Definition world_with (path : string) : world := World {[ path ]} ∅.
Definition env_with (md : dict) : env :=
  Env true (λ _, md) (λ _ _, true) (λ _, true) (λ _ _, true).

(** The drone photo alone in the input directory, with a bare bag. *)
Definition photo_bag : dict := bare_bag dji_photo_path.
Definition photo_env : env := env_with photo_bag.
Definition photo_world : world := world_with dji_photo_path.
Definition photo_out : string :=
  "out/photos/2023/2023-06/2023-06-15/20230615-143022-0007-DJI-Mavic3Pro-.jpg".


End Sample.

(** * Properties *)

(** ** Strings *)

Lemma append_cons (x : ascii) (a b : string) :
  String x a +:+ b = String x (a +:+ b).
Proof. reflexivity. Qed.

Lemma append_empty_l (b : string) : EmptyString +:+ b = b.
Proof. reflexivity. Qed.

Lemma append_empty_r (a : string) : a +:+ EmptyString = a.
Proof.
  induction a as [|x a IH]; [done|]. by rewrite append_cons, IH.
Qed.

Lemma eqb_refl_true (s : string) : String.eqb s s = true.
Proof. apply String.eqb_refl. Qed.

Lemma split_length (sep : ascii) (s : string) :
  length (Py.split sep s) = S (Py.count sep s).
Proof.
  induction s as [|c s IH]; simpl; [done|].
  destruct (Ascii.eqb c sep); simpl; [by rewrite IH|].
  destruct (Py.split sep s) as [|p ps]; simpl in *; lia.
Qed.

Lemma split_nonempty (sep : ascii) (s : string) : Py.split sep s ≠ [].
Proof.
  intros H. pose proof (split_length sep s) as Hl. rewrite H in Hl. done.
Qed.

(** A part that holds no separator is split off whole. *)
Lemma split_app_sep (sep : ascii) (a r : string) :
  Py.count sep a = 0 →
  Py.split sep (a +:+ String sep r) = a :: Py.split sep r.
Proof.
  induction a as [|c a IH]; intros Hc.
  - rewrite append_empty_l. simpl. by rewrite Ascii.eqb_refl.
  - rewrite append_cons. simpl in *.
    destruct (Ascii.eqb c sep); [done|]. by rewrite IH.
Qed.

Lemma split_no_sep (sep : ascii) (a : string) :
  Py.count sep a = 0 → Py.split sep a = [a].
Proof.
  induction a as [|c a IH]; simpl; intros Hc; [done|].
  destruct (Ascii.eqb c sep); [done|].
  simpl in Hc. by rewrite IH.
Qed.

Lemma has_prefix_char (a : ascii) (s : string) :
  Py.has_prefix (String a EmptyString) s = true → ∃ s', s = String a s'.
Proof.
  destruct s as [|b s]; [done|]. cbn [Py.has_prefix]. intros H.
  apply andb_true_iff in H as [H _]. apply Ascii.eqb_eq in H. subst. eauto.
Qed.

(** The head of a split follows the first character. *)
Lemma base_name_cons (c : ascii) (s : string) :
  base_name (String c s) =
  if Ascii.eqb c "." then EmptyString else String c (base_name s).
Proof.
  unfold base_name. simpl. destruct (Ascii.eqb c "."); [done|].
  destruct (Py.split "." s) eqn:E; [|done].
  by apply split_nonempty in E.
Qed.

(** ** The exception monad *)

Lemma bind_ok {A B} (r : res A) (k : A → res B) (b : B) :
  (r ≫= k) = Ok b → ∃ a, r = Ok a ∧ k a = Ok b.
Proof. destruct r; simpl; [eauto | done]. Qed.

Lemma bind_Ok {A B} (a : A) (k : A → res B) : (Ok a ≫= k) = k a.
Proof. reflexivity. Qed.

(** ** Classification *)

Lemma starts_with_C (name digits : string) :
  base_name name = String "C" digits → ∃ s, name = String "C" s.
Proof.
  destruct name as [|c s]; [done|]. rewrite base_name_cons.
  destruct (Ascii.eqb c "."); [done|]. intros [= -> _]. eauto.
Qed.

Lemma c_digits_shortcut (name digits : string) (md : dict) :
  Py.lower (suffix name) = ".mp4" →
  base_name name = String "C" digits →
  Py.isdigit digits = true →
  _identify_device_type name md = Some sony_camera.
Proof.
  intros Hext Hbase Hdig. unfold _identify_device_type.
  rewrite Hext, Hbase. cbn [Py.drop]. rewrite Hdig.
  apply starts_with_C in Hbase as [s ->]. reflexivity.
Qed.

(** C8, as the code has it: only the letter [C] opens the shortcut.  A
    video whose extension is [.mp4] in any case and whose base name is [C]
    followed by digits is a [sony_camera], whatever the bag holds. *)
Theorem c_digits_video_is_sony (name digits : string) (md : dict) :
  Py.lower (suffix name) = ".mp4" →
  base_name name = String "C" digits →
  Py.isdigit digits = true →
  _identify_device_type name md = Some sony_camera.
Proof. apply c_digits_shortcut. Qed.

Lemma c_digits_video_is_sony_witness :
  _identify_device_type "C0001.MP4" [("Make", VStr "DJI")] = Some sony_camera.
Proof.
  apply (c_digits_video_is_sony "C0001.MP4" "0001"); reflexivity.
Defined.

(** C8 as the specification states it fails for a capital letter other
    than [C]: [A0001.MP4] is a video with a capital-and-digits base name
    and is not classified at all. *)
Lemma capital_digits_video_unclassified :
  Py.lower (suffix "A0001.MP4") = ".mp4" ∧
  spec_capital_then_digits (base_name "A0001.MP4") = true ∧
  _identify_device_type "A0001.MP4" (Sample.bare_bag "in/A0001.MP4") = None ∧
  _identify_device_type "A0001.MP4" [] = None.
Proof. repeat split; reflexivity. Qed.

(** ** The sequence number *)

Lemma comp_set_other (c : list (string * string)) (k k' v v' : string) :
  k ≠ k' → In (k, v) (comp_set c k' v') ↔ In (k, v) c.
Proof.
  intros Hk. induction c as [|[k0 v0] c IH]; cbn [comp_set In].
  - split; [intros [[= <- _]|[]]; done|done].
  - destruct (String.eqb_spec k0 k') as [->|_]; cbn [In]; [|by rewrite IH].
    split; (intros [[= <- _]|H]; [done|by right]).
Qed.

Lemma comp_set_opt_other (c : list (string * string)) (k k' v : string)
    (o : option string) :
  k ≠ k' → In (k, v) (comp_set_opt c k' o) ↔ In (k, v) c.
Proof.
  intros Hk. unfold comp_set_opt. destruct o as [s|]; [|done].
  destruct (String.eqb s EmptyString); [done|]. by apply comp_set_other.
Qed.

Lemma comp_set_fresh (c : list (string * string)) (k v v0 : string) :
  (∀ v', ¬ In (k, v') c) → In (k, v) (comp_set c k v0) ↔ v = v0.
Proof.
  induction c as [|[k0 v0'] c IH]; intros Hc; cbn [comp_set In].
  - split; [by intros [[= <-]|[]]|by intros ->; left].
  - destruct (String.eqb_spec k0 k) as [->|Hk].
    + exfalso. apply (Hc v0'). by left.
    + cbn [In]. rewrite IH by (intros v' H; apply (Hc v'); by right).
      split; [intros [[= ? _]|H]; done|by right].
Qed.

Section Sequence.

Variable L : PyLib.

(** The [sequence] entry of the components of a drone file. *)
Lemma components_sequence (media_type : option media) (name : string)
    (md : dict) (date_str time_str : string) (c : list (string * string))
    (v : string) :
  components L (Some dji_drone) media_type name md date_str time_str = Ok c →
  In ("sequence", v) c ↔
  _extract_sequence_number (Some dji_drone) name = Some v ∧ v ≠ EmptyString.
Proof.
  unfold components. cbn [device_is device_eqb].
  set (c0 := [ ("datetime", date_str +:+ "-" +:+ time_str);
               ("date", date_str); ("time", time_str);
               ("make", clean_make (_extract_make (Some dji_drone) md));
               ("model", clean_model (_extract_model (Some dji_drone) md));
               ("ext", get_normalized_extension (suffix name)) ]).
  assert (Hc0 : ∀ v', ¬ In ("sequence", v') c0).
  { intros v' H. cbn [c0 In] in H.
    repeat (destruct H as [H|H]; [discriminate H|]). done. }
  assert (H1 : In ("sequence", v)
                 (comp_set_opt c0 "sequence"
                    (_extract_sequence_number (Some dji_drone) name)) ↔
               _extract_sequence_number (Some dji_drone) name = Some v ∧
               v ≠ EmptyString).
  { unfold comp_set_opt.
    destruct (_extract_sequence_number (Some dji_drone) name) as [s|].
    - destruct (String.eqb_spec s EmptyString) as [->|Hs].
      + split; [intros H; by apply Hc0 in H|by intros [[= <-] ?]].
      + rewrite comp_set_fresh by done.
        split; [by intros ->|by intros [[= ->] _]].
    - split; [intros H; by apply Hc0 in H|by intros [? _]]. }
  generalize dependent c0. intros c0 _ H1.
  set (c2 := comp_set _ "model" "Mavic3Pro").
  assert (H2 : In ("sequence", v) c2 ↔
               _extract_sequence_number (Some dji_drone) name = Some v ∧
               v ≠ EmptyString)
    by (unfold c2; by rewrite comp_set_other).
  generalize dependent c2. intros c2 H2. clear H1.
  destruct media_type as [[|]|]; cbn [media_is media_eqb andb].
  - intros [= <-]. by rewrite comp_set_opt_other.
  - destruct (_extract_fps L _ name md) as [fps|e];
      cbn [mbind res_bind rbind]; [|done].
    destruct (_extract_video_duration L _ md) as [dur|e];
      cbn [mbind res_bind rbind]; [|done].
    intros [= <-]. by rewrite !comp_set_opt_other.
  - by intros [= <-].
Qed.

(** C10, as the code has it: for a file classified as [dji_drone] the
    [sequence] component is the third part of the name between underscores,
    whatever its characters, when the name has three parts or more and
    that part is not empty; there is no [sequence] component when that part
    is empty or the name has fewer than three parts. *)
Theorem sequence_is_third_token (name : string) (md : dict)
    (media_type : option media) (date_str time_str : string)
    (comps : list (string * string)) :
  _identify_device_type name md = Some dji_drone →
  components L (_identify_device_type name md) media_type name md
    date_str time_str = Ok comps →
  (∀ a b c rest,
      name = a +:+ "_" +:+ b +:+ "_" +:+ c +:+ rest →
      Py.count "_" a = 0 → Py.count "_" b = 0 → Py.count "_" c = 0 →
      rest = EmptyString ∨ Py.has_prefix "_" rest = true →
      if String.eqb c EmptyString
      then ∀ v, ¬ In ("sequence", v) comps
      else In ("sequence", c) comps ∧
           ∀ v, In ("sequence", v) comps → v = c) ∧
  (length (Py.split "_" name) < 3 → ∀ v, ¬ In ("sequence", v) comps).
Proof.
  intros -> Hc. split.
  - intros a b c rest -> Ha Hb Hcc Hrest.
    assert (_extract_sequence_number (Some dji_drone)
              (a +:+ "_" +:+ b +:+ "_" +:+ c +:+ rest) = Some c) as Hseq.
    { unfold _extract_sequence_number.
      assert (∃ more, Py.split "_" (a +:+ "_" +:+ b +:+ "_" +:+ c +:+ rest)
                      = a :: b :: c :: more) as [more ->]; [|done].
      change (a +:+ "_" +:+ b +:+ "_" +:+ c +:+ rest)
        with (a +:+ String "_" (b +:+ String "_" (c +:+ rest))).
      rewrite !split_app_sep by done.
      destruct Hrest as [->|Hp].
      + exists []. rewrite append_empty_r. by rewrite split_no_sep.
      + apply has_prefix_char in Hp as [rest' ->].
        rewrite split_app_sep by done. eauto. }
    destruct (String.eqb_spec c EmptyString) as [->|Hne].
    + intros v Hv. apply (components_sequence _ _ _ _ _ _ _ Hc) in Hv.
      destruct Hv as [Hv Hn]. rewrite Hseq in Hv. by injection Hv as <-.
    + split.
      * by apply (components_sequence _ _ _ _ _ _ _ Hc).
      * intros v Hv. apply (components_sequence _ _ _ _ _ _ _ Hc) in Hv.
        destruct Hv as [Hv _]. rewrite Hseq in Hv. by injection Hv.
  - intros Hlen v Hv. apply (components_sequence _ _ _ _ _ _ _ Hc) in Hv.
    destruct Hv as [Hv _]. unfold _extract_sequence_number in Hv.
    destruct (Nat.leb 3 (length (Py.split "_" name))) eqn:E; [|done].
    apply Nat.leb_le in E. lia.
Qed.

End Sequence.

Lemma sequence_is_third_token_witness :
  ∃ comps,
    components RefLib.lib (_identify_device_type "DJI_x_abc_y.jpg" [])
      (Some image) "DJI_x_abc_y.jpg" [] "20230615" "143022" = Ok comps ∧
    In ("sequence", "abc") comps ∧
    ∀ v, In ("sequence", v) comps → v = "abc".
Proof.
  eexists. split; [vm_compute; reflexivity|].
  refine (proj1 (sequence_is_third_token RefLib.lib "DJI_x_abc_y.jpg" []
                   (Some image) "20230615" "143022" _ eq_refl _)
            "DJI" "x" "abc" "_y.jpg" _ _ _ _ _);
    [vm_compute; reflexivity | reflexivity | reflexivity | reflexivity
    | reflexivity | right; reflexivity].
Defined.

(** C10 as the specification states it fails on an empty third part:
    [DJI_a__b.jpg] has four parts between underscores, it is classified
    as a drone file, and its components hold no [sequence]. *)
Lemma empty_token_gives_no_sequence :
  _identify_device_type "DJI_a__b.jpg" [] = Some dji_drone ∧
  Py.split "_" "DJI_a__b.jpg" = ["DJI"; "a"; ""; "b.jpg"] ∧
  _extract_sequence_number (Some dji_drone) "DJI_a__b.jpg" = Some "" ∧
  ∃ comps,
    components RefLib.lib (Some dji_drone) (Some image) "DJI_a__b.jpg" []
      "20230615" "143022" = Ok comps ∧
    ∀ v, ¬ In ("sequence", v) comps.
Proof.
  split; [reflexivity|]. split; [reflexivity|]. split; [reflexivity|].
  eexists. split; [vm_compute; reflexivity|].
  intros v H. simpl in H.
  repeat (destruct H as [H|H]; [discriminate H|]). exact H.
Qed.

(** ** Timestamps from the file name *)




Section Resolution.

Variable L : PyLib.

(** ** Timestamps from the metadata *)






End Resolution.

Section Claims.

Variable L : PyLib.

(** ** How the timestamp is chosen *)

Lemma sony_timestamp_other (name : string) (md : dict) :
  is_sony_arw name || is_sony_mp4 name = false →
  sony_timestamp L name md = Ok None.
Proof.
  intros H. apply orb_false_iff in H as [Ha Hm].
  unfold sony_timestamp. by rewrite Ha, Hm.
Qed.

Lemma resolve_sony (name : string) (md : dict) (timezone : string) :
  is_sony_arw name || is_sony_mp4 name = true →
  resolve_timestamp L name md timezone =
    (sony ← sony_timestamp L name md;
     match sony with
     | Some _ => Ok sony
     | None => extract_timestamp_from_metadata L md timezone
     end).
Proof.
  intros H. unfold resolve_timestamp. rewrite H.
  destruct (sony_timestamp L name md) as [[t|]|e]; try reflexivity.
  rewrite !bind_Ok.
  by destruct (extract_timestamp_from_metadata L md timezone).
Qed.

Lemma resolve_other (name : string) (md : dict) (timezone : string) :
  is_sony_arw name || is_sony_mp4 name = false →
  resolve_timestamp L name md timezone =
    (m ← extract_timestamp_from_metadata L md timezone;
     Ok (match extract_timestamp_from_filename name with
         | Some t => Some t
         | None => m
         end)).
Proof.
  intros H. unfold resolve_timestamp.
  rewrite (sony_timestamp_other _ _ H), H, bind_Ok.
  destruct (extract_timestamp_from_metadata L md timezone); [|done].
  rewrite !bind_Ok. by destruct (extract_timestamp_from_filename name).
Qed.

(** C3, as the code has it: the strategy follows the extension and the
    first letter of the name, not the device.  With [.arw], or [.mp4] and a
    leading [C], the Sony fields come first, the generic scan second, and
    the file name is not consulted; any other file takes the date in its
    name when there is one.  A video that the [C]-and-digits shortcut
    classifies as [sony_camera] always meets the condition. *)
Theorem strategy_follows_extension (name : string) (md : dict)
    (timezone : string) :
  (is_sony_arw name || is_sony_mp4 name = true →
     resolve_timestamp L name md timezone =
       (sony ← sony_timestamp L name md;
        match sony with
        | Some _ => Ok sony
        | None => extract_timestamp_from_metadata L md timezone
        end)) ∧
  (is_sony_arw name || is_sony_mp4 name = false →
     resolve_timestamp L name md timezone =
       (m ← extract_timestamp_from_metadata L md timezone;
        Ok (match extract_timestamp_from_filename name with
            | Some t => Some t
            | None => m
            end))) ∧
  (∀ digits,
     Py.lower (suffix name) = ".mp4" →
     base_name name = String "C" digits →
     Py.isdigit digits = true →
     _identify_device_type name md = Some sony_camera ∧
     is_sony_mp4 name = true).
Proof.
  split; [apply resolve_sony|]. split; [apply resolve_other|].
  intros digits Hext Hbase Hdig. split; [eauto using c_digits_shortcut|].
  unfold is_sony_mp4. rewrite Hext.
  apply starts_with_C in Hbase as [s ->]. reflexivity.
Qed.

(** What [try_pattern] returns is the naive instant of the pattern with
    the local zone attached. *)
Lemma try_pattern_naive pattern (filename : string) :
  try_pattern pattern filename
  = (λ naive, replace_tzinfo naive (Some tzlocal)) <$>
      spec_naive_instant pattern filename.
Proof.
  unfold try_pattern, spec_naive_instant.
  destruct (re_search pattern filename) as [g|]; [|done].
  cbn [mbind option_bind]. unfold local_datetime_of, datetime_new.
  by destruct (_ && _).
Qed.

(** C4, as the code has it: for a file name in which one of the three
    patterns, tried in the order DJI, screen recording, generic, reads a
    date and a time that exist, the timestamp read from the name is that
    naive instant with the system local zone attached, and for a file
    outside the Sony condition it is the resolved timestamp, whatever zone
    is configured. *)
Theorem filename_timestamp_is_local (name : string) (md : dict)
    (timezone : string) (naive : datetime) :
  spec_naive_instant dji_pattern name = Some naive ∨
  spec_naive_instant dji_pattern name = None ∧
    spec_naive_instant screen_pattern name = Some naive ∨
  spec_naive_instant dji_pattern name = None ∧
    spec_naive_instant screen_pattern name = None ∧
    spec_naive_instant generic_pattern name = Some naive →
  extract_timestamp_from_filename name
  = Some (replace_tzinfo naive (Some tzlocal)) ∧
  (is_sony_arw name || is_sony_mp4 name = false →
   ∀ r, resolve_timestamp L name md timezone = Ok r →
        r = Some (replace_tzinfo naive (Some tzlocal))).
Proof.
  intros Hp.
  assert (Hf : extract_timestamp_from_filename name
               = Some (replace_tzinfo naive (Some tzlocal))).
  { unfold extract_timestamp_from_filename. rewrite !try_pattern_naive.
    destruct Hp as [->|[[-> ->]|(-> & -> & ->)]]; reflexivity. }
  split; [exact Hf|].
  intros Hc r. rewrite (resolve_other _ _ _ Hc), Hf.
  intros H. apply bind_ok in H as (m & _ & H). by injection H as <-.
Qed.


(** ** The QuickTime group *)

Lemma fields_loop_skip flat md tzs tz0 f fs :
  flat_get flat md f = VNone →
  fields_loop L flat md tzs tz0 (f :: fs) = fields_loop L flat md tzs tz0 fs.
Proof. intros H. cbn [fields_loop]. by rewrite H. Qed.

Lemma fields_loop_hit flat md tzs tz0 f fs s dt :
  flat_get flat md f = VStr s → s ≠ EmptyString →
  timestamp_of_field L flat md tzs tz0 s = Ok dt →
  fields_loop L flat md tzs tz0 (f :: fs) = Ok (Some dt).
Proof.
  intros H Hs Ht. cbn [fields_loop]. rewrite H, Ht.
  by apply String.eqb_neq in Hs as ->.
Qed.

Lemma append_nonempty_r (a b : string) :
  b ≠ EmptyString → a +:+ b ≠ EmptyString.
Proof. destruct a; [by rewrite append_empty_l | by rewrite append_cons]. Qed.

(** C6 on a bag with a QuickTime group: the block that copies the group
    reassigns [timezone_str], so an aware instant is returned as parsed,
    in its own zone, although the caller passed ['local']. *)
Theorem quicktime_blocks_local_conversion (date zone : string)
    (dt : datetime) :
  zone ≠ EmptyString → zone ≠ "local" →
  parser_parse L true (date +:+ zone) = Ok dt →
  aware dt = true →
  extract_timestamp_from_metadata L (Sample.quicktime_bag date zone) "local"
  = Ok (Some dt).
Proof.
  intros Hz Hl Hp Ha.
  unfold extract_timestamp_from_metadata, Sample.quicktime_bag.
  set (md := [("QuickTime", _)]).
  set (flat := [ ("QuickTime:CreateDate", VStr (date +:+ zone));
                 ("QuickTime:TimeZone", VStr zone);
                 ("CreateDate", VStr (date +:+ zone)) ]).
  assert (Hq : (if dict_mem md "QuickTime"
                then quicktime_loop L (dict_get md "QuickTime")
                       ["CreateDate"; "ModifyDate"; "TrackCreateDate";
                        "MediaCreateDate"]
                       (_flatten_metadata (VDict md) [] EmptyString,
                        Some "local")
                else Ok (_flatten_metadata (VDict md) [] EmptyString,
                         Some "local"))
               = Ok (flat, Some zone)) by reflexivity.
  rewrite Hq, bind_Ok. cbv beta iota. unfold timestamp_fields.
  rewrite !fields_loop_skip by reflexivity.
  erewrite fields_loop_hit;
    [reflexivity | reflexivity | by apply append_nonempty_r |].
  unfold timestamp_of_field. rewrite Hp, bind_Ok.
  unfold aware in Ha. destruct (tzinfo dt); [|done].
  rewrite bool_decide_eq_false_2; [done|congruence].
Qed.

(** The same tag outside a QuickTime group is converted. *)
Lemma plain_tag_converted_to_local (s : string) (dt d : datetime) :
  s ≠ EmptyString →
  parser_parse L true s = Ok dt →
  aware dt = true →
  astimezone L dt tzlocal = Ok d →
  extract_timestamp_from_metadata L [("CreateDate", VStr s)] "local"
  = Ok (Some d) ∧ tzinfo d = Some tzlocal.
Proof.
  intros Hs Hp Ha Hz. split.
  - unfold extract_timestamp_from_metadata.
    set (md := [("CreateDate", _)]).
    change (if dict_mem md "QuickTime" then _ else _)
      with (@Ok (dict * option string) (md, Some "local")).
    rewrite bind_Ok. cbv beta iota. unfold timestamp_fields.
    rewrite !fields_loop_skip by reflexivity.
    erewrite fields_loop_hit; [reflexivity | reflexivity | done |].
    unfold timestamp_of_field. rewrite Hp, bind_Ok.
    unfold aware in Ha. destruct (tzinfo dt); [|done].
    by rewrite bool_decide_eq_true_2.
  - unfold astimezone in Hz. apply bind_ok in Hz as (x & _ & Hz).
    by injection Hz as <-.
Qed.

End Claims.

(** ** Closed instances on the reference library *)

Lemma strategy_follows_extension_witness :
  resolve_timestamp RefLib.lib "DSC00123.ARW" Sample.arw_bag "local" =
    (sony ← sony_timestamp RefLib.lib "DSC00123.ARW" Sample.arw_bag;
     match sony with
     | Some _ => Ok sony
     | None => extract_timestamp_from_metadata RefLib.lib Sample.arw_bag "local"
     end) ∧
  resolve_timestamp RefLib.lib Sample.sony_jpeg Sample.sony_jpeg_bag "local" =
    (m ← extract_timestamp_from_metadata RefLib.lib Sample.sony_jpeg_bag "local";
     Ok (match extract_timestamp_from_filename Sample.sony_jpeg with
         | Some t => Some t
         | None => m
         end)) ∧
  (_identify_device_type "C0001.MP4" [] = Some sony_camera ∧
   is_sony_mp4 "C0001.MP4" = true).
Proof.
  pose proof (strategy_follows_extension RefLib.lib "DSC00123.ARW"
                Sample.arw_bag "local") as (H1 & _ & _).
  pose proof (strategy_follows_extension RefLib.lib Sample.sony_jpeg
                Sample.sony_jpeg_bag "local") as (_ & H2 & _).
  pose proof (strategy_follows_extension RefLib.lib "C0001.MP4" []
                "local") as (_ & _ & H3).
  split; [apply H1; reflexivity|].
  split; [apply H2; reflexivity|].
  apply (H3 "0001"); reflexivity.
Defined.

(** C3 as the specification states it fails on Sony JPEG files.  Both are
    classified as [sony_camera] and both bags hold a vendor field that
    parses; the camera's own file is dated by the generic scan from another
    field, the renamed one by the date in its name. *)
Lemma sony_jpeg_not_metadata_preferred :
  (_identify_device_type Sample.sony_jpeg Sample.sony_jpeg_bag
   = Some sony_camera ∧
   sony_arw_chain RefLib.lib Sample.sony_jpeg_bag
   = Ok (Some (mkdt 2023 6 15 14 30 22 0 (Some (tzoffset 7200)))) ∧
   resolve_timestamp RefLib.lib Sample.sony_jpeg Sample.sony_jpeg_bag "local"
   = Ok (Some (mkdt 2024 1 1 10 0 0 0 (Some tzlocal)))) ∧
  (_identify_device_type Sample.renamed_sony_jpeg Sample.renamed_sony_bag
   = Some sony_camera ∧
   sony_arw_chain RefLib.lib Sample.renamed_sony_bag
   = Ok (Some (mkdt 2024 1 1 10 0 0 0 (Some (tzoffset 7200)))) ∧
   resolve_timestamp RefLib.lib Sample.renamed_sony_jpeg
     Sample.renamed_sony_bag "local"
   = Ok (Some Sample.june15_local)).
Proof. repeat split; vm_compute; reflexivity. Qed.

Lemma filename_timestamp_is_local_witness :
  extract_timestamp_from_filename Sample.dji_photo
  = Some (replace_tzinfo Sample.june15_naive (Some tzlocal)) ∧
  ∀ r, resolve_timestamp RefLib.lib Sample.dji_photo
         (Sample.bare_bag Sample.dji_photo_path) "UTC" = Ok r →
       r = Some (replace_tzinfo Sample.june15_naive (Some tzlocal)).
Proof.
  pose proof (filename_timestamp_is_local RefLib.lib Sample.dji_photo
                (Sample.bare_bag Sample.dji_photo_path) "UTC"
                Sample.june15_naive (or_introl eq_refl)) as [H1 H2].
  split; [exact H1 | exact (H2 eq_refl)].
Defined.

(** C4 as the specification states it fails when a zone is configured:
    with [UTC] the timestamp read from the name is still in the local
    zone. *)
Lemma filename_timestamp_not_in_configured_zone :
  spec_naive_instant dji_pattern Sample.dji_photo
  = Some Sample.june15_naive ∧
  extract_timestamp_from_filename Sample.dji_photo
  = Some Sample.june15_local ∧
  resolve_timestamp RefLib.lib Sample.dji_photo
    (Sample.bare_bag Sample.dji_photo_path) "UTC"
  = Ok (Some Sample.june15_local) ∧
  tzinfo Sample.june15_local ≠ Some (spec_configured_zone "UTC").
Proof. repeat split; try (vm_compute; reflexivity). discriminate. Qed.



Lemma quicktime_blocks_local_conversion_witness :
  extract_timestamp_from_metadata RefLib.lib
    (Sample.quicktime_bag "2023-06-15 12:30:22" "+02:00") "local"
  = Ok (Some (mkdt 2023 6 15 12 30 22 0 (Some (tzoffset 7200)))).
Proof.
  apply (quicktime_blocks_local_conversion RefLib.lib);
    [discriminate | discriminate | reflexivity | reflexivity].
Defined.

(** Without the QuickTime group the same string is converted: on the
    reference machine, whose zone is UTC, to 10:30:22. *)
Example plain_tag_converted :
  extract_timestamp_from_metadata RefLib.lib
    [("CreateDate", VStr "2023-06-15 12:30:22+02:00")] "local"
  = Ok (Some (mkdt 2023 6 15 10 30 22 0 (Some tzlocal))).
Proof. vm_compute. reflexivity. Qed.

Section Pipeline.

Variable L : PyLib.

(** ** Synthesis *)

(** C9 at a drone video whose bag has no resolution, frame rate or
    duration: three empty components in a row leave four dashes, and the
    one pass of [replace('--', '-')] turns them into two. *)
Theorem dash_run_survives_cleanup :
  _identify_device_type Sample.dji_video (Sample.bare_bag "in/x")
  = Some dji_drone ∧
  _identify_media_type Sample.dji_video = Some video ∧
  _generate_new_filename L (Some dji_drone) (Some video) Sample.dji_video
    (Sample.bare_bag "in/x") "20230615" "143022"
  = Ok "20230615-143022--DJI-Mavic3Pro.mp4" ∧
  Py.contains "--" "20230615-143022--DJI-Mavic3Pro.mp4" = true.
Proof. repeat split; vm_compute; reflexivity. Qed.

(** ** The dry run *)

(** C2 at a drone photo: the real run copies to the dated tree
    [YYYY/YYYY-MM/YYYY-MM-DD], the dry run announces [YYYY/MM]. *)
Theorem dry_run_announces_other_path :
  snd (process L (Sample.env_with (Sample.bare_bag Sample.dji_photo_path))
         (Sample.world_with Sample.dji_photo_path) Sample.dji_photo_path
         "out" "local")
  = Ok (Some "out/photos/2023/2023-06/2023-06-15/20230615-143022-0007-DJI-Mavic3Pro-.jpg") ∧
  dry_run_file L (Sample.env_with (Sample.bare_bag Sample.dji_photo_path))
    Sample.dji_photo_path "out" "local"
  = Ok (DryReport (Some dji_drone, Some image) (Some Sample.june15_local)
          (Some "out/photos/2023/06/20230615-143022-0007-DJI-Mavic3Pro-.jpg")) ∧
  "out/photos/2023/06/20230615-143022-0007-DJI-Mavic3Pro-.jpg"
  ≠ Sample.photo_out.
Proof.
  split; [vm_compute; reflexivity|]. split; [vm_compute; reflexivity|].
  discriminate.
Qed.

(** ** [process] and the planned output *)

Lemma process_planned (E : env) (w : world) (path base timezone : string)
    (dir out : string) :
  planned_output L E path base timezone = Some (dir, out) →
  path ∈ paths w →
  process L E w path base timezone =
    let w' := mkdir_parents w dir in
    if is_file_already_processed w' path out then (w', Ok None)
    else if copy_ok E path out
         then (World ({[out]} ∪ paths w') (store w'), Ok (Some out))
         else (w', Ok None).
Proof.
  intros Hp Hin. unfold planned_output in Hp. unfold process.
  rewrite bool_decide_eq_true_2 by done. cbn [negb].
  destruct (extract_metadata E path) as [|kv md']; [done|].
  destruct (_identify_device_type _ _) as [d|]; [|done].
  destruct (_identify_media_type _) as [m|]; [|done].
  destruct (resolve_timestamp _ _ _ _) as [[ts|]|]; try done.
  destruct (get_formatted_timestamp ts) as [date_str time_str].
  unfold create_output_directory.
  destruct (_generate_new_filename _ _ _ _ _ _ _) as [fn|]; [|done].
  destruct (String.eqb fn EmptyString); [done|].
  injection Hp as <- <-. reflexivity.
Qed.

Lemma already_processed_after_mkdir (w : world) (f dir out : string) :
  out ∈ paths w ∨ is_Some (store w !! f) →
  is_file_already_processed (mkdir_parents w dir) f out = true.
Proof.
  intros H. unfold is_file_already_processed, mkdir_parents. cbn [paths store].
  case_bool_decide as Hout; [done|]. apply bool_decide_eq_true_2.
  destruct H as [H|H]; [|done]. exfalso. apply Hout. set_solver.
Qed.



(** ** The drone photo of the scenario *)



End Pipeline.

(** ** Closed instances of the pipeline *)





(** ** Sample runs *)

Example classification_samples :
  _identify_device_type "C0001.MP4" [] = Some sony_camera ∧
  _identify_device_type "DSC00123.ARW" [] = Some sony_camera ∧
  _identify_device_type "screen-20230615-143022.mp4" [] = Some dji_rc_pro ∧
  _identify_device_type Sample.dji_photo [] = Some dji_drone ∧
  _identify_device_type "IMG_0001.png" [] = None ∧
  _identify_media_type "IMG_0001.png" = None.
Proof. repeat split; reflexivity. Qed.

Example filename_timestamp_samples :
  extract_timestamp_from_filename "screen-20230615-143022.mp4"
  = Some Sample.june15_local ∧
  extract_timestamp_from_filename "clip_2023-06-15T14:30:22.mp4"
  = Some Sample.june15_local ∧
  extract_timestamp_from_filename "DJI_20231315143022_0007_D.jpg" = None ∧
  extract_timestamp_from_filename "DSC00123.ARW" = None.
Proof. repeat split; reflexivity. Qed.

Example strip_placeholders_sample :
  strip_placeholders false "a-{x}-{}b}-{{y}z}-{q" = "a--{}b}-z}-{q".
Proof. reflexivity. Qed.

(** A shutter count of 42 is written [000042]. *)
Example shutter_count_sample :
  _generate_new_filename RefLib.lib (Some sony_camera) (Some image)
    "DSC00123.ARW" [("ShutterCount", VStr "42"); ("Model", VStr "ILCE-7M4")]
    "20230615" "143022"
  = Ok "20230615-143022-000042-Sony-ILCE7M4.arw".
Proof. vm_compute. reflexivity. Qed.

Example resolution_samples :
  resolution_label 2160 = "4K" ∧ resolution_label 1080 = "FHD" ∧
  resolution_label 720 = "HD" ∧ resolution_label 540 = "540p".
Proof. repeat split; reflexivity. Qed.

Example duration_samples :
  _extract_video_duration RefLib.lib (Some video) [("Duration", VStr "154 s")]
  = Ok (Some "02m34s") ∧
  _extract_video_duration RefLib.lib (Some video) [("Duration", VInt 45)]
  = Ok (Some "45s") ∧
  _extract_video_duration RefLib.lib (Some video) [("Duration", VStr "0:02:34")]
  = Ok (Some "02m34s").
Proof. repeat split; vm_compute; reflexivity. Qed.

Example sony_video_sample :
  _generate_new_filename RefLib.lib (Some sony_camera) (Some video) "C0001.MP4"
    [ ("VideoFrameRate", VStr "29.97"); ("ImageWidth", VInt 3840);
      ("ImageHeight", VInt 2160); ("Duration", VStr "0:02:34") ]
    "20230615" "143022"
  = Ok "20230615-143022-4K-30p-02m34s-Sony-ILCE7M4.mp4".
Proof. vm_compute. reflexivity. Qed.

(** A year below 1000 loses its leading zeros in the date string, as
    [strftime('%Y')] prints it. *)
Example year_999_sample :
  get_formatted_timestamp (mkdt 999 1 2 3 4 5 0 None)
  = ("9990102", "030405") ∧
  output_directory "out" (mkdt 999 1 2 3 4 5 0 None) (Some image)
  = "out/photos/999/999-01/999-01-02".
Proof. split; vm_compute; reflexivity. Qed.

(** * Further properties *)

Section Batch.

Variable L : PyLib.

(** ** What [process] does to the world *)

(** [process] never writes to the tracking store. *)
Lemma process_store (E : env) (w : world) (p base timezone : string) :
  store (process L E w p base timezone).1 = store w.
Proof.
  unfold process.
  destruct (negb _); [done|].
  destruct (extract_metadata E p) as [|kv md']; [done|].
  destruct (_identify_device_type _ _) as [d|]; [|done].
  destruct (_identify_media_type _) as [m|]; [|done].
  destruct (resolve_timestamp _ _ _ _) as [[ts|]|]; try done.
  destruct (get_formatted_timestamp ts) as [date_str time_str].
  unfold create_output_directory.
  destruct (_generate_new_filename _ _ _ _ _ _ _) as [fn|]; [|done].
  destruct (String.eqb fn EmptyString); [done|].
  destruct (is_file_already_processed _ _ _); [done|].
  by destruct (copy_ok E _ _).
Qed.

(** [process] removes nothing. *)
Lemma process_paths (E : env) (w : world) (p base timezone : string) :
  paths w ⊆ paths (process L E w p base timezone).1.
Proof.
  unfold process.
  destruct (negb _); [done|].
  destruct (extract_metadata E p) as [|kv md']; [done|].
  destruct (_identify_device_type _ _) as [d|]; [|done].
  destruct (_identify_media_type _) as [m|]; [|done].
  destruct (resolve_timestamp _ _ _ _) as [[ts|]|]; try done.
  destruct (get_formatted_timestamp ts) as [date_str time_str].
  unfold create_output_directory.
  destruct (_generate_new_filename _ _ _ _ _ _ _) as [fn|];
    [|cbn; set_solver].
  destruct (String.eqb fn EmptyString); [cbn; set_solver|].
  destruct (is_file_already_processed _ _ _); [cbn; set_solver|].
  destruct (copy_ok E _ _); cbn; set_solver.
Qed.

(** What a returned path tells. *)
Lemma process_some (E : env) (w : world) (p base timezone out : string) :
  (process L E w p base timezone).2 = Ok (Some out) →
  ∃ dir,
    planned_output L E p base timezone = Some (dir, out) ∧
    p ∈ paths w ∧
    is_file_already_processed (mkdir_parents w dir) p out = false ∧
    copy_ok E p out = true ∧
    (process L E w p base timezone).1
    = World ({[out]} ∪ paths (mkdir_parents w dir)) (store w).
Proof.
  unfold process, planned_output.
  destruct (bool_decide (p ∈ paths w)) eqn:Hin; [|done]. cbn [negb].
  apply bool_decide_eq_true_1 in Hin.
  destruct (extract_metadata E p) as [|kv md']; [done|].
  destruct (_identify_device_type _ _) as [d|]; [|done].
  destruct (_identify_media_type _) as [m|]; [|done].
  destruct (resolve_timestamp _ _ _ _) as [[ts|]|]; try done.
  destruct (get_formatted_timestamp ts) as [date_str time_str].
  unfold create_output_directory.
  destruct (_generate_new_filename _ _ _ _ _ _ _) as [fn|]; [|done].
  destruct (String.eqb fn EmptyString); [done|].
  destruct (is_file_already_processed _ _ _) eqn:Hdone; [done|].
  destruct (copy_ok E _ _) eqn:Hcopy; [|done].
  cbn [snd fst]. intros [= <-]. eauto 10.
Qed.

(** A file that is not yet processed, asked after the output directory
    was made: the output path is new and the source is not on record. *)
Lemma not_processed_is_fresh (w : world) (dir p out : string) :
  is_file_already_processed (mkdir_parents w dir) p out = false →
  (out ∉ paths w) ∧ store w !! p = None.
Proof.
  unfold is_file_already_processed. intros Hnew.
  case_bool_decide as Hout; [done|].
  apply bool_decide_eq_false_1 in Hnew.
  cbn [paths store mkdir_parents] in *.
  split; [set_solver|].
  destruct (store w !! p) eqn:Hs; [|done]. destruct Hnew. eauto.
Qed.


(** ** The loop of [process_files] *)

Lemma process_file_counts (E : env) (base timezone : string)
    (dry remove : bool) (w : world) (c : counts) (f : string) :
  let c' := (process_file L E base timezone dry remove (w, c) f).2 in
  success_count c' + error_count c' = S (success_count c + error_count c).
Proof.
  unfold process_file.
  destruct (negb _); [cbn; lia|].
  destruct dry.
  - destruct (dry_run_file _ _ _ _ _); cbn; lia.
  - destruct (process _ _ _ _ _ _) as [w' [[out|]|e]]; cbn; lia.
Qed.

Lemma fold_process_file_counts (E : env) (base timezone : string)
    (dry remove : bool) (l : list string) (st : world * counts) :
  success_count (fold_left (process_file L E base timezone dry remove) l st).2
  + error_count (fold_left (process_file L E base timezone dry remove) l st).2
  = success_count st.2 + error_count st.2 + length l.
Proof.
  revert st. induction l as [|f l IH]; intros st; cbn [fold_left length];
    [lia|].
  rewrite IH. destruct st as [w0 c0].
  pose proof (process_file_counts E base timezone dry remove w0 c0 f) as Hc.
  cbn [snd] in *. lia.
Qed.

(** X2: every file of the list is counted once, as a success or as an
    error, in a dry run as in a real one. *)
Theorem every_file_is_counted_once (E : env) (w : world) (l : list string)
    (base timezone : string) (dry remove : bool) :
  success_count (process_files L E w l base timezone dry remove).2 +
  error_count (process_files L E w l base timezone dry remove).2
  = length l.
Proof.
  unfold process_files. rewrite fold_process_file_counts. cbn. lia.
Qed.


Lemma dry_step (E : env) (base timezone : string) (remove : bool)
    (w : world) (c : counts) (f : string) :
  (process_file L E base timezone true remove (w, c) f).1 = w ∧
  process_file L E base timezone true remove (w, c) f
  = process_file L E base timezone true false (w, c) f.
Proof.
  unfold process_file. destruct (negb _); [done|].
  by destruct (dry_run_file _ _ _ _ _).
Qed.

(** X4: a dry run leaves the world as it is, and the flag that removes
    sources has no effect on it. *)
Theorem dry_run_touches_nothing (E : env) (w : world) (l : list string)
    (base timezone : string) (remove : bool) :
  (process_files L E w l base timezone true remove).1 = w ∧
  process_files L E w l base timezone true remove
  = process_files L E w l base timezone true false.
Proof.
  unfold process_files. generalize (Counts 0 0).
  induction l as [|f l IH]; intros c; cbn [fold_left]; [done|].
  destruct (dry_step E base timezone remove w c f) as [Hw ->].
  destruct (dry_step E base timezone false w c f) as [Hw' _].
  destruct (process_file L E base timezone true false (w, c) f) as [w' c'].
  cbn [fst] in Hw'. subst w'. apply IH.
Qed.

(** ** Running twice *)

Lemma process_missing_source (E : env) (w : world) (p base timezone : string) :
  p ∉ paths w → process L E w p base timezone = (w, Ok None).
Proof.
  intros H. unfold process. by rewrite bool_decide_eq_false_2.
Qed.

(** X5: a file that was processed is left alone the next time.  After a
    turn of the loop that succeeded, a second turn on the same file
    changes nothing in the world, copies nothing, and counts an error;
    this holds with and without the removal of sources. *)
Theorem second_turn_changes_nothing (E : env) (base timezone : string)
    (remove : bool) (w : world) (c : counts) (f out : string) :
  exiftool_available E = true →
  (process L E w f base timezone).2 = Ok (Some out) →
  (process_file L E base timezone false remove (w, c) f).2 = succeeded c ∧
  process_file L E base timezone false remove
    (process_file L E base timezone false remove (w, c) f) f
  = ((process_file L E base timezone false remove (w, c) f).1,
     failed (succeeded c)).
Proof.
  intros Hx Hout.
  pose proof (process_some _ _ _ _ _ _ Hout)
    as (dir & Hplan & Hin & Hnew & Hcopy & Hw).
  pose proof (not_processed_is_fresh _ _ _ _ Hnew) as (Hfresh & _).
  assert (Hstep : process_file L E base timezone false remove (w, c) f
    = (if remove && remove_ok E f
       then World (paths (mark_file_as_processed E
                            (process L E w f base timezone).1 f out)
                   ∖ {[f]})
                  (store (mark_file_as_processed E
                            (process L E w f base timezone).1 f out))
       else mark_file_as_processed E (process L E w f base timezone).1 f out,
       succeeded c)).
  { unfold process_file. rewrite Hx. cbn [negb].
    destruct (process L E w f base timezone) as [w1 r]. cbn [snd] in Hout.
    by subst r. }
  rewrite Hstep. split; [done|]. rewrite Hw. clear Hstep Hw Hout.
  unfold process_file. rewrite Hx. cbn [negb].
  assert (paths (mark_file_as_processed E
                   (World ({[out]} ∪ paths (mkdir_parents w dir)) (store w))
                   f out)
          = {[out]} ∪ paths (mkdir_parents w dir)) as Hpaths.
  { unfold mark_file_as_processed. by destruct (mark_ok E f out). }
  destruct (remove && remove_ok E f).
  - rewrite process_missing_source; [done|]. cbn [paths]. rewrite Hpaths.
    set_solver.
  - erewrite process_planned; [|exact Hplan|rewrite Hpaths; cbn; set_solver].
    cbv zeta.
    rewrite already_processed_after_mkdir by (left; rewrite Hpaths; set_solver).
    f_equal. cbn [fst]. revert Hpaths.
    generalize (mark_file_as_processed E
                  (World ({[out]} ∪ paths (mkdir_parents w dir)) (store w))
                  f out).
    intros [ps st]. cbn [paths]. intros ->.
    unfold mkdir_parents. cbn [paths store]. f_equal. set_solver.
Qed.

(** ** Removing sources *)

Lemma process_file_store (E : env) (base timezone : string) (remove : bool)
    (w : world) (c : counts) (f q : string) :
  is_Some (store w !! q) →
  is_Some (store (process_file L E base timezone false remove (w, c) f).1
           !! q).
Proof.
  intros Hq. unfold process_file. destruct (negb _); [done|].
  pose proof (process_store E w f base timezone) as Hs.
  destruct (process L E w f base timezone) as [w1 [[out|]|e]];
    cbn [fst] in *; try by rewrite Hs.
  assert (is_Some (store (mark_file_as_processed E w1 f out) !! q)).
  { unfold mark_file_as_processed.
    destruct (mark_ok E f out); cbn [store]; rewrite Hs; [|done].
    destruct (decide (f = q)) as [->|];
      [rewrite lookup_insert_eq | rewrite lookup_insert_ne]; eauto. }
  by destruct (remove && remove_ok E f).
Qed.

Lemma process_file_paths (E : env) (base timezone : string) (remove : bool)
    (w : world) (c : counts) (f q : string) :
  q ∈ paths w →
  q ∈ paths (process_file L E base timezone false remove (w, c) f).1 ∨
  (remove = true ∧ q = f ∧
   (is_Some (store (process_file L E base timezone false remove (w, c) f).1
             !! q) ∨
    ∃ out, mark_ok E q out = false)).
Proof.
  intros Hq. unfold process_file. destruct (negb _); [by left|].
  pose proof (process_paths E w f base timezone) as Hp.
  destruct (process L E w f base timezone) as [w1 [[out|]|e]];
    cbn [fst] in *; try (left; set_solver).
  assert (paths (mark_file_as_processed E w1 f out) = paths w1) as Hm.
  { unfold mark_file_as_processed. by destruct (mark_ok E f out). }
  destruct remove; cbn [andb]; [|left; rewrite Hm; set_solver].
  destruct (remove_ok E f); [|left; rewrite Hm; set_solver].
  cbn [paths store]. rewrite Hm.
  destruct (decide (q = f)) as [->|]; [|left; set_solver].
  right. split; [done|]. split; [done|].
  unfold mark_file_as_processed. destruct (mark_ok E f out) eqn:Hok.
  - left. cbn [store]. rewrite lookup_insert_eq. eauto.
  - right. eauto.
Qed.

(** X6: sources disappear only through [--remove-processed], and only
    after they were copied and recorded.  A path that existed before a
    real run either still exists after it, or the flag was given, the path
    is a file of the list and it is on record in the store, the one way
    out being that the write of its row failed; and what the store held it
    still holds. *)
Theorem only_recorded_sources_are_removed (E : env) (w : world)
    (l : list string) (base timezone : string) (remove : bool) :
  (∀ q, q ∈ paths w →
     q ∈ paths (process_files L E w l base timezone false remove).1 ∨
     (remove = true ∧ q ∈ l ∧
      (q ∈ get_processed_files
             (process_files L E w l base timezone false remove).1 ∨
       ∃ out, mark_ok E q out = false))) ∧
  get_processed_files w
  ⊆ get_processed_files (process_files L E w l base timezone false remove).1.
Proof.
  unfold process_files, get_processed_files. generalize (Counts 0 0).
  assert (Hstore : ∀ l st q,
    is_Some (store st.1 !! q) →
    is_Some (store (fold_left (process_file L E base timezone false remove)
                      l st).1 !! q)).
  { clear. induction l as [|f l IH]; intros [w0 c0] q Hq; [done|].
    cbn [fold_left].
    apply IH. destruct (process_file _ _ _ _ _ _ _ _) as [w1 c1] eqn:Hs.
    pose proof (process_file_store E base timezone remove w0 c0 f q Hq) as H.
    by rewrite Hs in H. }
  intros c. split.
  - revert w c. induction l as [|f l IH]; intros w c q Hq; [by left|].
    cbn [fold_left].
    destruct (process_file_paths E base timezone remove w c f q Hq)
      as [Hq'|(Hr & -> & [Hs|Hs])].
    + destruct (process_file L E base timezone false remove (w, c) f)
        as [w1 c1]. cbn [fst] in Hq'.
      destruct (IH w1 c1 q Hq') as [?|(? & ? & ?)]; [by left|].
      right. split_and!; [done|set_solver|done].
    + right. split_and!; [done|set_solver|].
      left. apply elem_of_dom. by apply Hstore.
    + right. split_and!; [done|set_solver|by right].
  - intros q Hq. apply elem_of_dom. apply elem_of_dom in Hq.
    by apply (Hstore l (w, c) q).
Qed.

(** ** Where the copies go *)

Lemma append_assoc (a b c : string) : (a +:+ b) +:+ c = a +:+ b +:+ c.
Proof.
  induction a as [|x a IH]; [done|]. by rewrite !append_cons, IH.
Qed.

Lemma has_prefix_app (a b : string) : Py.has_prefix a (a +:+ b) = true.
Proof.
  induction a as [|x a IH]; [done|]. rewrite append_cons. cbn.
  by rewrite Ascii.eqb_refl, IH.
Qed.

(** X7: images are filed under [photos], videos under [videos], each in
    the tree [YYYY/YYYY-MM/YYYY-MM-DD] of the resolved timestamp.  A path
    [process] returns is the output directory, the media directory, the
    three date directories and the synthesized name, which is not
    empty. *)
Theorem outputs_are_filed_by_media_and_date (E : env) (w : world)
    (p base timezone out : string) :
  (process L E w p base timezone).2 = Ok (Some out) →
  ∃ m ts fn,
    _identify_media_type (path_name p) = Some m ∧
    resolve_timestamp L (path_name p) (extract_metadata E p) timezone
    = Ok (Some ts) ∧
    fn ≠ EmptyString ∧
    out = base +:+ "/" +:+
          match m with image => "photos" | video => "videos" end +:+ "/" +:+
          strftime_Y ts +:+ "/" +:+
          strftime_Y ts +:+ "-" +:+ strftime_m ts +:+ "/" +:+
          strftime_Y ts +:+ "-" +:+ strftime_m ts +:+ "-" +:+
          strftime_d ts +:+ "/" +:+ fn.
Proof.
  intros H. apply process_some in H as (dir & Hplan & _).
  unfold planned_output in Hplan.
  destruct (extract_metadata E p) as [|kv md']; [done|].
  destruct (_identify_device_type _ _) as [d|]; [|done].
  destruct (_identify_media_type _) as [m|]; [|done].
  destruct (resolve_timestamp _ _ _ _) as [[ts|]|]; try done.
  destruct (get_formatted_timestamp ts) as [date_str time_str].
  destruct (_generate_new_filename _ _ _ _ _ _ _) as [fn|]; [|done].
  destruct (String.eqb_spec fn EmptyString) as [|Hfn]; [done|].
  injection Hplan as _ <-. exists m, ts, fn. split_and!; try done.
  unfold output_directory, path_join.
  destruct m; by rewrite ?append_assoc.
Qed.

End Batch.



Lemma second_turn_changes_nothing_witness :
  (process_file RefLib.lib Sample.photo_env "out" "local" false true
     (Sample.photo_world, Counts 0 0) Sample.dji_photo_path).2
  = succeeded (Counts 0 0) ∧
  process_file RefLib.lib Sample.photo_env "out" "local" false true
    (process_file RefLib.lib Sample.photo_env "out" "local" false true
       (Sample.photo_world, Counts 0 0) Sample.dji_photo_path)
    Sample.dji_photo_path
  = ((process_file RefLib.lib Sample.photo_env "out" "local" false true
        (Sample.photo_world, Counts 0 0) Sample.dji_photo_path).1,
     failed (succeeded (Counts 0 0))).
Proof.
  apply (second_turn_changes_nothing RefLib.lib Sample.photo_env "out"
           "local" true Sample.photo_world (Counts 0 0)
           Sample.dji_photo_path Sample.photo_out).
  - reflexivity.
  - vm_compute. reflexivity.
Defined.

Lemma outputs_are_filed_by_media_and_date_witness :
  ∃ m ts fn,
    _identify_media_type (path_name Sample.dji_photo_path) = Some m ∧
    resolve_timestamp RefLib.lib (path_name Sample.dji_photo_path)
      (extract_metadata Sample.photo_env Sample.dji_photo_path) "local"
    = Ok (Some ts) ∧
    fn ≠ EmptyString ∧
    Sample.photo_out
    = "out" +:+ "/" +:+
      match m with image => "photos" | video => "videos" end +:+ "/" +:+
      strftime_Y ts +:+ "/" +:+
      strftime_Y ts +:+ "-" +:+ strftime_m ts +:+ "/" +:+
      strftime_Y ts +:+ "-" +:+ strftime_m ts +:+ "-" +:+
      strftime_d ts +:+ "/" +:+ fn.
Proof.
  apply (outputs_are_filed_by_media_and_date RefLib.lib Sample.photo_env
           Sample.photo_world Sample.dji_photo_path "out" "local"
           Sample.photo_out).
  vm_compute. reflexivity.
Defined.

(** ** The tracking store *)


(** ** What [replace] keeps out of a string *)

Lemma count_app (c : ascii) (a b : string) :
  Py.count c (a +:+ b) = Py.count c a + Py.count c b.
Proof.
  induction a as [|x a IH]; [done|]. rewrite append_cons. cbn.
  rewrite IH. lia.
Qed.

Lemma string_length_app (a b : string) :
  String.length (a +:+ b) = String.length a + String.length b.
Proof.
  induction a as [|x a IH]; [done|]. rewrite append_cons. cbn [String.length].
  by rewrite IH.
Qed.

(** Replacing a character leaves none of it, when the new text has none. *)
Lemma replace_char_count (c : ascii) (new s : string) :
  Py.count c new = 0 →
  Py.count c (Py.replace (String c EmptyString) new s) = 0.
Proof.
  intros Hn. unfold Py.replace.
  induction s as [|x s IH]; [done|]. cbn [Py.replace_go Py.has_prefix].
  rewrite andb_true_r, (Ascii.eqb_sym c x).
  destruct (Ascii.eqb x c) eqn:Hx.
  - cbn [String.length Nat.sub]. by rewrite count_app, Hn, IH.
  - cbn [Py.count]. by rewrite Hx, IH.
Qed.

Lemma replace_go_nonempty (old new : string) (s : string) :
  new ≠ EmptyString → s ≠ EmptyString →
  Py.replace_go old new 0 s ≠ EmptyString.
Proof.
  intros Hn Hs. destruct s as [|x s]; [done|]. cbn [Py.replace_go].
  destruct (Py.has_prefix old _); [|done].
  destruct new; [done|]. by rewrite append_cons.
Qed.

(** ** Placeholders *)

Lemma closes_no_brace (n : nat) (s : string) :
  Py.count "}" s = 0 → closes n s = false.
Proof.
  revert n. induction s as [|c s IH]; intros n; [done|]. cbn.
  destruct (Ascii.eqb c "}"); [done|]. intros H. by apply IH.
Qed.

Lemma closes_S_false (n : nat) (s : string) :
  closes (S n) s = false → Py.count "}" s = 0.
Proof.
  revert n. induction s as [|c s IH]; intros n; [done|]. cbn.
  destruct (Ascii.eqb c "}"); [done|]. intros H. by apply (IH (S n)).
Qed.

(** Nothing closes at the head of [s]: [s] is empty, starts with the
    closing brace, or has none. *)
Lemma closes_0_false (s : string) :
  closes 0 s = false →
  s = EmptyString ∨ (∃ r, s = String "}" r) ∨ Py.count "}" s = 0.
Proof.
  destruct s as [|c s]; [by left|]. cbn.
  destruct (Ascii.eqb_spec c "}") as [->|Hc]; [eauto|].
  intros H. right. right. by apply closes_S_false in H.
Qed.

Lemma has_placeholder_app_plain (a s : string) :
  Py.count "{" a = 0 → has_placeholder (a +:+ s) = has_placeholder s.
Proof.
  induction a as [|x a IH]; [done|]. rewrite append_cons. cbn.
  destruct (Ascii.eqb x "{"); [done|]. intros H. by rewrite IH.
Qed.

Section Replace.

Variables (old new : string) (first : ascii) (old' : string).
Hypothesis old_first : old = String first old'.
Hypothesis first_not_brace : first ≠ "}"%char.
Hypothesis new_open : Py.count "{" new = 0.
Hypothesis new_close : Py.count "}" new = 0.

Lemma replace_go_no_close (k : nat) (s : string) :
  Py.count "}" s = 0 → Py.count "}" (Py.replace_go old new k s) = 0.
Proof using new_close.
  revert k. induction s as [|c s IH]; intros k; [done|]. cbn [Py.count].
  destruct (Ascii.eqb c "}") eqn:Hc; [done|]. intros H.
  cbn [Py.replace_go]. destruct k; [|by apply IH].
  destruct (Py.has_prefix old _).
  - rewrite count_app, new_close. by apply IH.
  - cbn [Py.count]. rewrite Hc. by apply IH.
Qed.

Lemma replace_go_keeps_close (r : string) :
  Py.replace_go old new 0 (String "}" r)
  = String "}" (Py.replace_go old new 0 r).
Proof using old_first first_not_brace.
  cbn [Py.replace_go]. rewrite old_first. cbn [Py.has_prefix].
  destruct (Ascii.eqb_spec first "}") as [?|_]; [done|]. done.
Qed.

Lemma replace_go_closes (s : string) :
  closes 0 s = false → closes 0 (Py.replace_go old new 0 s) = false.
Proof using All.
  intros H. apply closes_0_false in H as [->|[[r ->]|H]]; [done| |].
  - by rewrite replace_go_keeps_close.
  - apply closes_no_brace. by apply replace_go_no_close.
Qed.

(** A replacement of this kind makes no placeholder. *)
Lemma replace_go_no_placeholder (k : nat) (s : string) :
  has_placeholder s = false →
  has_placeholder (Py.replace_go old new k s) = false.
Proof using All.
  revert k. induction s as [|c s IH]; intros k; [done|].
  cbn [has_placeholder]. intros H. apply orb_false_iff in H as [Hc Hs].
  cbn [Py.replace_go]. destruct k; [|by apply IH].
  destruct (Py.has_prefix old _).
  - rewrite has_placeholder_app_plain by done. by apply IH.
  - cbn [has_placeholder]. rewrite (IH 0 Hs), orb_false_r.
    destruct (Ascii.eqb c "{"); [|done]. cbn in *.
    by apply replace_go_closes.
Qed.

End Replace.

Lemma strip_no_close (b : bool) (s : string) :
  Py.count "}" s = 0 → Py.count "}" (strip_placeholders b s) = 0.
Proof.
  revert b. induction s as [|c s IH]; intros b; [done|]. cbn [Py.count].
  destruct (Ascii.eqb c "}") eqn:Hc; [done|]. intros H.
  cbn [strip_placeholders]. destruct b; [by apply IH|].
  destruct (_ && _); [by apply IH|]. cbn [Py.count]. rewrite Hc.
  by apply IH.
Qed.

Lemma strip_closes (s : string) :
  closes 0 s = false → closes 0 (strip_placeholders false s) = false.
Proof.
  intros H. apply closes_0_false in H as [->|[[r ->]|H]]; [done|done|].
  apply closes_no_brace. by apply strip_no_close.
Qed.

(** [re.sub] leaves no placeholder behind. *)
Lemma strip_no_placeholder (b : bool) (s : string) :
  has_placeholder (strip_placeholders b s) = false.
Proof.
  revert b. induction s as [|c s IH]; intros b; [done|].
  cbn [strip_placeholders]. destruct b; [apply IH|].
  destruct (Ascii.eqb c "{") eqn:Hc; cbn [andb].
  - destruct (closes 0 s) eqn:Hcl; [apply IH|].
    cbn [has_placeholder]. rewrite Hc, IH, orb_false_r. cbn.
    by apply strip_closes.
  - cbn [has_placeholder]. by rewrite Hc, IH.
Qed.

(** X9: a synthesized name has no space and no unfilled placeholder,
    whatever the device, the media, the name and the bag. *)
Theorem synthesized_name_is_clean (L : PyLib) (device_type : option device)
    (media_type : option media) (name : string) (md : dict)
    (date_str time_str fn : string) :
  _generate_new_filename L device_type media_type name md date_str time_str
  = Ok fn →
  Py.count " " fn = 0 ∧ has_placeholder fn = false.
Proof.
  unfold _generate_new_filename. intros H.
  apply bind_ok in H as (c & _ & [= <-]). unfold cleanup. split.
  - by apply replace_char_count.
  - apply (replace_go_no_placeholder " " "-" " " EmptyString); try done.
    apply (replace_go_no_placeholder "--" "-" "-" "-"); try done.
    apply strip_no_placeholder.
Qed.

Lemma synthesized_name_is_clean_witness :
  Py.count " " "20230615-143022-0007-DJI-Mavic3Pro-.jpg" = 0 ∧
  has_placeholder "20230615-143022-0007-DJI-Mavic3Pro-.jpg" = false.
Proof.
  apply (synthesized_name_is_clean RefLib.lib (Some dji_drone) (Some image)
           Sample.dji_photo Sample.photo_bag "20230615" "143022").
  vm_compute. reflexivity.
Defined.

(** ** Make and model *)

Lemma first_stripped_nonempty (md : dict) (fields : list string) (s : string) :
  first_stripped md fields = Some s → s ≠ EmptyString.
Proof.
  induction fields as [|f fields IH]; [done|]. cbn [first_stripped].
  destruct (dict_get md f); try apply IH.
  destruct (negb (String.eqb s0 EmptyString)); cbn [andb]; [|apply IH].
  destruct (String.eqb_spec (Py.strip s0) EmptyString); cbn [negb];
    [apply IH|]. by intros [= <-].
Qed.

Lemma replace_nonempty (old new s : string) :
  old ≠ EmptyString → new ≠ EmptyString → s ≠ EmptyString →
  Py.replace old new s ≠ EmptyString.
Proof.
  intros Ho Hn Hs. unfold Py.replace. destruct old; [done|].
  by apply replace_go_nonempty.
Qed.

(** X10: the make and the model that go into a name are never empty and
    hold no space, whatever the bag says and also when it says nothing. *)
Theorem make_and_model_are_usable (device_type : option device) (md : dict) :
  clean_make (_extract_make device_type md) ≠ EmptyString ∧
  clean_model (_extract_model device_type md) ≠ EmptyString ∧
  Py.count " " (clean_make (_extract_make device_type md)) = 0 ∧
  Py.count " " (clean_model (_extract_model device_type md)) = 0.
Proof.
  assert (Hmake : _extract_make device_type md ≠ EmptyString).
  { unfold _extract_make.
    destruct (first_stripped md _) eqn:E;
      [by eapply first_stripped_nonempty|].
    by destruct device_type as [[]|]. }
  assert (Hmodel : _extract_model device_type md ≠ EmptyString).
  { unfold _extract_model.
    destruct (first_stripped md _) eqn:E;
      [by eapply first_stripped_nonempty|].
    by destruct device_type as [[]|]. }
  unfold clean_make, clean_model.
  apply String.eqb_neq in Hmake as Hmake'. rewrite Hmake'.
  apply String.eqb_neq in Hmodel as Hmodel'. rewrite Hmodel'.
  split_and!.
  - by apply replace_nonempty.
  - repeat case_match; try done; repeat apply replace_nonempty; done.
  - by apply replace_char_count.
  - repeat case_match; try done; by apply replace_char_count.
Qed.

(** ** Extensions *)

Lemma lower_char_idem (c : ascii) :
  Py.lower_char (Py.lower_char c) = Py.lower_char c.
Proof.
  unfold Py.lower_char. destruct (Py.is_upper c) eqn:Hu; [|by rewrite Hu].
  unfold Py.is_upper in *. rewrite nat_ascii_embedding.
  - apply andb_true_iff in Hu as [H1 H2].
    apply Nat.leb_le in H1, H2.
    replace (Nat.leb (nat_of_ascii c + 32) 90) with false; [by rewrite andb_false_r|].
    symmetry. apply Nat.leb_gt. lia.
  - apply andb_true_iff in Hu as [H1 H2]. apply Nat.leb_le in H2. lia.
Qed.

Lemma lower_idem (s : string) : Py.lower (Py.lower s) = Py.lower s.
Proof.
  induction s as [|c s IH]; [done|]. cbn. by rewrite lower_char_idem, IH.
Qed.

(** X11: normalising an extension ignores its case, is idempotent, and
    turns [.jpeg] in any case into [.jpg]. *)
Theorem normalized_extension_is_stable (extension : string) :
  get_normalized_extension (Py.lower extension)
  = get_normalized_extension extension ∧
  get_normalized_extension (get_normalized_extension extension)
  = get_normalized_extension extension ∧
  Py.lower (get_normalized_extension extension)
  = get_normalized_extension extension ∧
  (Py.lower extension = ".jpeg" →
   get_normalized_extension extension = ".jpg").
Proof.
  unfold get_normalized_extension. rewrite lower_idem.
  generalize (lower_idem extension). generalize (Py.lower extension).
  intros e He.
  assert (Hcases : assoc_get EXTENSION_MAPPING e e = e ∨
                   (e = ".jpeg" ∧ assoc_get EXTENSION_MAPPING e e = ".jpg")).
  { unfold EXTENSION_MAPPING. cbn [assoc_get].
    destruct (String.eqb_spec ".jpeg" e) as [<-|]; [by right|].
    left.
    destruct (String.eqb_spec ".dng" e) as [<-|]; [done|].
    destruct (String.eqb_spec ".arw" e) as [<-|]; [done|].
    by destruct (String.eqb_spec ".mp4" e) as [<-|]. }
  split_and!; [done| | |].
  - destruct Hcases as [H|[-> H]]; [|done].
    by rewrite !H, He, H.
  - destruct Hcases as [->|[-> ->]]; done.
  - intros ->. reflexivity.
Qed.

(** ** Finding the files *)

Lemma supported_iff_media (p : string) :
  supported p = true ↔ is_Some (_identify_media_type (path_name p)).
Proof.
  unfold supported, _identify_media_type, get_file_extension.
  generalize (Py.lower (suffix (path_name p))). intros e.
  change all_extensions with [".jpg"; ".jpeg"; ".dng"; ".arw"; ".mp4"].
  unfold str_in. cbn [existsb].
  destruct (String.eqb e ".jpg"), (String.eqb e ".jpeg"),
    (String.eqb e ".dng"), (String.eqb e ".arw"), (String.eqb e ".mp4");
    cbn; split; (eauto || (intros [? ?]; done) || done).
Qed.

(** X12: [find_media_files] returns exactly the files of the directory
    (of its tree, when recursive) whose media type [process] will know:
    no file it returns is turned down for its extension, and none with a
    known extension is left out.  A directory that does not exist gives
    no file. *)
Theorem found_files_have_a_media_type (d : listing) (p : string) :
  (In p (find_media_files d true) ↔
   dir_exists d = true ∧ In p (walked_files d) ∧
   is_Some (_identify_media_type (path_name p))) ∧
  (In p (find_media_files d false) ↔
   dir_exists d = true ∧ In (p, true) (top_entries d) ∧
   is_Some (_identify_media_type (path_name p))).
Proof.
  unfold find_media_files. destruct (dir_exists d); cbn [negb].
  - split.
    + rewrite filter_In, supported_iff_media. tauto.
    + rewrite in_map_iff. split.
      * intros [[q b] [<- Hq]]. apply filter_In in Hq as [Hin Hq].
        cbn [fst snd] in *. apply andb_true_iff in Hq as [-> Hs].
        by rewrite <- supported_iff_media.
      * intros (_ & Hin & Hm). exists (p, true). split; [done|].
        apply filter_In. split; [done|]. cbn.
        by apply supported_iff_media.
  - split; split; try done; intros [? _]; done.
Qed.

(** ** The date in a drone file name *)

Lemma take_digits_app (n : nat) (s r : string) (acc : Z) :
  String.length s = n → Py.all_chars Py.is_digit s = true →
  take_digits n (s +:+ r) acc = Some (Py.digits_val s acc, r).
Proof.
  revert s acc. induction n as [|n IH]; intros [|c s] acc Hl Hd; try done.
  rewrite append_cons. cbn in *. apply andb_true_iff in Hd as [-> Hd].
  apply IH; [lia|done].
Qed.

Lemma all_digits_app (a b : string) :
  Py.all_chars Py.is_digit (a +:+ b) = true →
  Py.all_chars Py.is_digit a = true ∧ Py.all_chars Py.is_digit b = true.
Proof.
  induction a as [|c a IH]; [done|].
  rewrite append_cons. cbn. intros H.
  apply andb_true_iff in H as [-> H]. by apply IH in H.
Qed.

(** The DJI pattern on a name that starts with [DJI_], fourteen digits
    and an underscore. *)
Lemma dji_pattern_digits (ys mos ds hs mis ss rest : string) :
  String.length ys = 4 → String.length mos = 2 → String.length ds = 2 →
  String.length hs = 2 → String.length mis = 2 → String.length ss = 2 →
  Py.all_chars Py.is_digit (ys +:+ mos +:+ ds +:+ hs +:+ mis +:+ ss) = true →
  re_search dji_pattern
    ("DJI_" +:+ ys +:+ mos +:+ ds +:+ hs +:+ mis +:+ ss +:+ "_" +:+ rest)
  = Some (G6 (Py.digits_val ys 0) (Py.digits_val mos 0)
             (Py.digits_val ds 0) (Py.digits_val hs 0)
             (Py.digits_val mis 0) (Py.digits_val ss 0)).
Proof.
  intros Hy Hmo Hd Hh Hmi Hs Hdig.
  apply all_digits_app in Hdig as [Dy Hdig].
  apply all_digits_app in Hdig as [Dmo Hdig].
  apply all_digits_app in Hdig as [Dd Hdig].
  apply all_digits_app in Hdig as [Dh Hdig].
  apply all_digits_app in Hdig as [Dmi Ds].
  assert (Hm : dji_pattern
            ("DJI_" +:+ ys +:+ mos +:+ ds +:+ hs +:+ mis +:+ ss +:+ "_" +:+ rest)
          = Some (G6 (Py.digits_val ys 0) (Py.digits_val mos 0)
                     (Py.digits_val ds 0) (Py.digits_val hs 0)
                     (Py.digits_val mis 0) (Py.digits_val ss 0))).
  { unfold dji_pattern.
    change (lit "DJI_" ("DJI_" +:+ ?x)) with (Some x).
    cbn [mbind option_bind].
    rewrite !take_digits_app by done. cbn [mbind option_bind].
    rewrite take_digits_app by done. cbn [mbind option_bind].
    rewrite take_digits_app by done. cbn [mbind option_bind].
    rewrite take_digits_app by done. cbn [mbind option_bind].
    rewrite take_digits_app by done. cbn [mbind option_bind].
    rewrite take_digits_app by done. cbn [mbind option_bind].
    reflexivity. }
  destruct ("DJI_" +:+ ys +:+ mos +:+ ds +:+ hs +:+ mis +:+ ss +:+ "_" +:+ rest)
    as [|c s] eqn:E; cbn [re_search]; by rewrite Hm.
Qed.

(** X13: in a name that starts with [DJI_], fourteen digits and an
    underscore, the digits are the timestamp: when they spell a date and a
    time that exist, that instant in the local zone is returned, whatever
    follows in the name. *)
Theorem dji_name_gives_its_digits (ys mos ds hs mis ss rest : string)
    (dt : datetime) :
  String.length ys = 4 → String.length mos = 2 → String.length ds = 2 →
  String.length hs = 2 → String.length mis = 2 → String.length ss = 2 →
  Py.all_chars Py.is_digit (ys +:+ mos +:+ ds +:+ hs +:+ mis +:+ ss) = true →
  datetime_new (Py.digits_val ys 0) (Py.digits_val mos 0)
    (Py.digits_val ds 0) (Py.digits_val hs 0) (Py.digits_val mis 0)
    (Py.digits_val ss 0) (Some tzlocal) = Some dt →
  extract_timestamp_from_filename
    ("DJI_" +:+ ys +:+ mos +:+ ds +:+ hs +:+ mis +:+ ss +:+ "_" +:+ rest)
  = Some dt.
Proof.
  intros Hy Hmo Hd Hh Hmi Hs Hdig Hdt.
  unfold extract_timestamp_from_filename, try_pattern.
  rewrite (dji_pattern_digits ys mos ds hs mis ss rest) by done.
  cbn [mbind option_bind]. unfold local_datetime_of.
  cbn [g1 g2 g3 g4 g5 g6]. by rewrite Hdt.
Qed.

Lemma dji_name_gives_its_digits_witness :
  extract_timestamp_from_filename
    ("DJI_" +:+ "2024" +:+ "02" +:+ "29" +:+ "23" +:+ "59" +:+ "58" +:+
     "_" +:+ "0042_D_screen-20230615-143022.JPG")
  = Some (mkdt 2024 2 29 23 59 58 0 (Some tzlocal)).
Proof.
  apply dji_name_gives_its_digits; reflexivity.
Defined.

(** X14: a timestamp read from a file name is a date and a time that
    exist, to the second, in the local zone: the digits of a match that
    spell no such date are passed over. *)
Theorem filename_timestamp_exists (filename : string) (dt : datetime) :
  extract_timestamp_from_filename filename = Some dt →
  between 1 (year dt) 9999 = true ∧ between 1 (month dt) 12 = true ∧
  between 1 (day dt) (days_in_month (year dt) (month dt)) = true ∧
  between 0 (hour dt) 23 = true ∧ between 0 (minute dt) 59 = true ∧
  between 0 (second dt) 59 = true ∧
  microsecond dt = 0%Z ∧ tzinfo dt = Some tzlocal.
Proof.
  pose (local_datetime_of_valid := λ d : datetime,
    between 1 (year d) 9999 = true ∧ between 1 (month d) 12 = true ∧
    between 1 (day d) (days_in_month (year d) (month d)) = true ∧
    between 0 (hour d) 23 = true ∧ between 0 (minute d) 59 = true ∧
    between 0 (second d) 59 = true ∧
    microsecond d = 0%Z ∧ tzinfo d = Some tzlocal).
  change (extract_timestamp_from_filename filename = Some dt →
          local_datetime_of_valid dt).
  assert (Hnew : ∀ g d, local_datetime_of g = Some d →
    local_datetime_of_valid d).
  { intros g d. unfold local_datetime_of, datetime_new.
    destruct (_ && _) eqn:Hv; [|done]. intros [= <-]. cbn.
    do 5 (apply andb_true_iff in Hv as [Hv ?]). split_and!; done. }
  assert (Htry : ∀ (pat : string → option groups6) d,
    try_pattern pat filename = Some d → local_datetime_of_valid d).
  { intros pat d. unfold try_pattern.
    destruct (re_search pat filename) as [g|]; [|done]. apply Hnew. }
  unfold extract_timestamp_from_filename.
  destruct (try_pattern dji_pattern filename) eqn:E1;
    [intros [= <-]; by eapply Htry|].
  destruct (try_pattern screen_pattern filename) eqn:E2;
    [intros [= <-]; by eapply Htry|]. apply Htry.
Qed.

Lemma filename_timestamp_exists_witness :
  between 1 (year Sample.june15_local) 9999 = true ∧
  between 1 (month Sample.june15_local) 12 = true ∧
  between 1 (day Sample.june15_local)
    (days_in_month (year Sample.june15_local) (month Sample.june15_local))
  = true ∧
  between 0 (hour Sample.june15_local) 23 = true ∧
  between 0 (minute Sample.june15_local) 59 = true ∧
  between 0 (second Sample.june15_local) 59 = true ∧
  microsecond Sample.june15_local = 0%Z ∧
  tzinfo Sample.june15_local = Some tzlocal.
Proof.
  apply (filename_timestamp_exists Sample.dji_photo). reflexivity.
Defined.

(** ** The bag in the classification *)

Lemma metadata_pattern_miss (md : dict) (field : string)
    (values : list string) :
  Py.lower field = field → dict_lookup md field = None →
  metadata_pattern_hit md field values = false.
Proof.
  intros Hl Hk. unfold metadata_pattern_hit, dict_get.
  rewrite Hl, Hk. reflexivity.
Qed.

(** X15: the bag enters the classification through six keys written in
    lower case only.  A bag without them, such as one keyed by tag names
    that start with a capital, is classified like the empty bag, that is
    by the file name alone. *)
Theorem classification_reads_lower_case_keys (name : string) (md : dict) :
  Forall (λ k, dict_lookup md k = None)
    [ "make"; "model"; "product_name"; "manufacturer";
      "devicemanufacturer"; "devicemodelname" ] →
  _identify_device_type name md = _identify_device_type name [].
Proof.
  intros H.
  repeat (apply Forall_cons_1 in H as [? H]).
  assert (Hscan : scan_devices name md DEVICE_PATTERNS
                  = scan_devices name [] DEVICE_PATTERNS).
  { unfold DEVICE_PATTERNS, scan_devices, device_hit.
    cbn [metadata_patterns filename_patterns existsb fst snd].
    rewrite !metadata_pattern_miss by done. reflexivity. }
  unfold _identify_device_type. by rewrite Hscan.
Qed.

Lemma classification_reads_lower_case_keys_witness :
  _identify_device_type "IMG_0001.jpg"
    [("Make", VStr "DJI"); ("Model", VStr "L2D-20c")]
  = _identify_device_type "IMG_0001.jpg" [].
Proof.
  apply classification_reads_lower_case_keys.
  repeat constructor.
Defined.

(** ** The configured zone *)

Section Zone.

Variable L : PyLib.
Variables a b : string.
Hypothesis a_named : a ≠ "local".
Hypothesis b_named : b ≠ "local".

Lemma quicktime_step_zone q f flat t1 t2 :
  same_or_configured a b t1 t2 →
  match quicktime_step L q f (flat, t1), quicktime_step L q f (flat, t2) with
  | Ok (f1, u1), Ok (f2, u2) => f1 = f2 ∧ same_or_configured a b u1 u2
  | Raise e1, Raise e2 => e1 = e2
  | _, _ => False
  end.
Proof.
  intros Hrel. unfold quicktime_step.
  destruct (py_in f q) as [[|]|e]; cbn [mbind res_bind rbind]; [|done|done].
  destruct (py_in "TimeZone" q) as [has_tz|e]; cbn [mbind res_bind rbind];
    [|done].
  destruct (if has_tz then _ else _) as [tzv|e]; cbn [mbind res_bind rbind];
    [|done].
  destruct (py_getitem q f) as [v|e]; cbn [mbind res_bind rbind]; [|done].
  destruct has_tz, tzv; cbn; by (split; [|left]).
Qed.

Lemma quicktime_loop_zone q fields flat t1 t2 :
  same_or_configured a b t1 t2 →
  match quicktime_loop L q fields (flat, t1),
        quicktime_loop L q fields (flat, t2) with
  | Ok (f1, u1), Ok (f2, u2) => f1 = f2 ∧ same_or_configured a b u1 u2
  | Raise e1, Raise e2 => e1 = e2
  | _, _ => False
  end.
Proof.
  revert flat t1 t2. induction fields as [|f fields IH]; intros flat t1 t2 H.
  - cbn. done.
  - cbn [quicktime_loop].
    pose proof (quicktime_step_zone q f flat t1 t2 H) as Hs.
    destruct (quicktime_step L q f (flat, t1)) as [[f1 u1]|e1],
             (quicktime_step L q f (flat, t2)) as [[f2 u2]|e2];
      try done; cbn [mbind res_bind rbind].
    destruct Hs as [<- Hu]. by apply IH.
Qed.

Lemma timestamp_of_field_zone flat md t1 t2 tz0 s :
  same_or_configured a b t1 t2 →
  timestamp_of_field L flat md t1 tz0 s = timestamp_of_field L flat md t2 tz0 s.
Proof using a_named b_named.
  intros [->|[-> ->]]; [done|]. unfold timestamp_of_field.
  rewrite !bool_decide_eq_false_2 by congruence. done.
Qed.

Lemma fields_loop_zone flat md t1 t2 tz0 fields :
  same_or_configured a b t1 t2 →
  fields_loop L flat md t1 tz0 fields = fields_loop L flat md t2 tz0 fields.
Proof using a_named b_named.
  intros H. induction fields as [|f fields IH]; [done|]. cbn [fields_loop].
  rewrite IH. destruct (flat_get flat md f) as [| | | |ts| |]; try done.
  by rewrite (timestamp_of_field_zone flat md t1 t2 tz0 ts).
Qed.

Lemma working_tz_any (s : string) : working_tz s = tzlocal.
Proof. unfold working_tz. by destruct (String.eqb s "local"). Qed.

Lemma extract_timestamp_zone (md : dict) :
  extract_timestamp_from_metadata L md a
  = extract_timestamp_from_metadata L md b.
Proof using a_named b_named.
  unfold extract_timestamp_from_metadata.
  generalize timestamp_fields. intros fields.
  rewrite !working_tz_any.
  destruct (dict_mem md "QuickTime").
  - assert (same_or_configured a b (Some a) (Some b)) as H0 by (by right).
    pose proof (quicktime_loop_zone (dict_get md "QuickTime")
                  ["CreateDate"; "ModifyDate"; "TrackCreateDate";
                   "MediaCreateDate"]
                  (_flatten_metadata (VDict md) [] EmptyString)
                  (Some a) (Some b) H0) as H.
    destruct (quicktime_loop L _ _ (_, Some a)) as [[f1 u1]|e1],
             (quicktime_loop L _ _ (_, Some b)) as [[f2 u2]|e2];
      try done.
    + destruct H as [<- Hu]. cbn [mbind res_bind rbind].
      by rewrite (fields_loop_zone f1 md u1 u2).
    + by subst.
  - cbn [mbind res_bind rbind].
    by rewrite (fields_loop_zone _ md (Some a) (Some b)) by (by right).
Qed.

Lemma resolve_timestamp_zone (name : string) (md : dict) :
  resolve_timestamp L name md a = resolve_timestamp L name md b.
Proof using a_named b_named.
  unfold resolve_timestamp. by rewrite (extract_timestamp_zone md).
Qed.

Lemma process_zone (E : env) (w : world) (p base : string) :
  process L E w p base a = process L E w p base b.
Proof using a_named b_named.
  unfold process.
  by rewrite (resolve_timestamp_zone (path_name p) (extract_metadata E p)).
Qed.

Lemma dry_run_file_zone (E : env) (p base : string) :
  dry_run_file L E p base a = dry_run_file L E p base b.
Proof using a_named b_named.
  unfold dry_run_file.
  by rewrite (extract_timestamp_zone (extract_metadata E p)).
Qed.

Lemma process_file_zone (E : env) (base : string) (dry remove : bool)
    (st : world * counts) (f : string) :
  process_file L E base a dry remove st f
  = process_file L E base b dry remove st f.
Proof using a_named b_named.
  unfold process_file. destruct st as [w c].
  by rewrite process_zone, dry_run_file_zone.
Qed.

Lemma process_files_zone (E : env) (l : list string)
    (base : string) (dry remove : bool) (st : world * counts) :
  fold_left (process_file L E base a dry remove) l st
  = fold_left (process_file L E base b dry remove) l st.
Proof using a_named b_named.
  revert st. induction l as [|f l IH]; intros st.
  - cbn [fold_left]. exact eq_refl.
  - cbn [fold_left].
    rewrite (process_file_zone E base dry remove st f). exact (IH _).
Qed.

(** X16: the name of the configured zone does not matter.  Two runs that
    differ only in the zone, neither being ['local'], resolve the same
    timestamps, leave the same world and return the same counts. *)
Theorem zone_name_is_ignored (E : env) (w : world) (l : list string)
    (base : string) (dry remove : bool) :
  (∀ name md,
     resolve_timestamp L name md a = resolve_timestamp L name md b) ∧
  process_files L E w l base a dry remove
  = process_files L E w l base b dry remove.
Proof using a_named b_named.
  split; [exact resolve_timestamp_zone|].
  exact (process_files_zone E l base dry remove (w, Counts 0 0)).
Qed.

End Zone.

Lemma zone_name_is_ignored_witness :
  "UTC" ≠ "local" ∧ "Europe/Budapest" ≠ "local" ∧
  process_files RefLib.lib Sample.photo_env Sample.photo_world
    [Sample.dji_photo_path] "out" "UTC" false false
  = process_files RefLib.lib Sample.photo_env Sample.photo_world
    [Sample.dji_photo_path] "out" "Europe/Budapest" false false.
Proof.
  assert ("UTC" ≠ "local") as Ha by discriminate.
  assert ("Europe/Budapest" ≠ "local") as Hb by discriminate.
  split; [exact Ha|]. split; [exact Hb|].
  exact (proj2 (zone_name_is_ignored RefLib.lib "UTC" "Europe/Budapest"
                  Ha Hb Sample.photo_env Sample.photo_world
                  [Sample.dji_photo_path] "out" false false)).
Defined.

(** ** [main] *)

Section Main.

Variable L : PyLib.

(** X17: the exit status of [main] is 0 when every file that was found
    was counted as a success, which includes the case that none was found,
    and 1 otherwise; the world [main] leaves is the one [process_files]
    leaves on the files found. *)
Theorem exit_status_tells_all_succeeded (E : env) (w : world)
    (args : arguments) :
  (main L E w args).1
  = (process_files L E w
       (find_media_files (arg_input args) (arg_recursive args))
       (arg_output args) (arg_timezone args) (arg_dry_run args)
       (arg_remove_processed args)).1 ∧
  ((main L E w args).2 = 0%Z ∨ (main L E w args).2 = 1%Z) ∧
  ((main L E w args).2 = 0%Z ↔
   success_count
     (process_files L E w
        (find_media_files (arg_input args) (arg_recursive args))
        (arg_output args) (arg_timezone args) (arg_dry_run args)
        (arg_remove_processed args)).2
   = length (find_media_files (arg_input args) (arg_recursive args))).
Proof.
  unfold main.
  destruct (find_media_files _ _) as [|f l] eqn:Hfound;
    [cbn; split; [done|]; split; [by left|done]|].
  unfold process_files.
  pose proof (fold_process_file_counts L E (arg_output args)
                (arg_timezone args) (arg_dry_run args)
                (arg_remove_processed args) (f :: l) (w, Counts 0 0)) as Hc.
  destruct (fold_left _ (f :: l) _) as [w' c].
  cbn [fst snd success_count error_count length] in *.
  split; [done|]. destruct (Nat.eqb_spec (error_count c) 0) as [He|He].
  - split; [by left|]. split; [lia|done].
  - split; [by right|]. split; [done|lia].
Qed.

End Main.

(** ** The output tree *)

Lemma ancestors_go_whole (seen rest : string) :
  In (seen +:+ rest) (ancestors_go seen rest).
Proof.
  revert seen. induction rest as [|c rest IH]; intros seen.
  - rewrite append_empty_r. by left.
  - cbn [ancestors_go].
    assert (In (seen +:+ String c rest)
              (ancestors_go (seen +:+ String c EmptyString) rest)) as H.
    { specialize (IH (seen +:+ String c EmptyString)).
      by rewrite append_assoc, append_cons, append_empty_l in IH. }
    destruct (_ && _); [by right|done].
Qed.

Lemma ancestors_go_above (seen x y : string) :
  seen +:+ x ≠ EmptyString →
  In (seen +:+ x) (ancestors_go seen (x +:+ "/" +:+ y)).
Proof.
  revert seen. induction x as [|c x IH]; intros seen Hne.
  - rewrite append_empty_r in *. rewrite append_empty_l, append_cons.
    cbn [ancestors_go]. rewrite Ascii.eqb_refl. cbn [andb].
    destruct (String.eqb_spec seen EmptyString) as [->|_]; [done|].
    by left.
  - rewrite append_cons. cbn [ancestors_go].
    assert (In (seen +:+ String c x)
              (ancestors_go (seen +:+ String c EmptyString)
                 (x +:+ "/" +:+ y))) as H.
    { specialize (IH (seen +:+ String c EmptyString)).
      rewrite append_assoc, append_cons, append_empty_l in IH.
      apply IH. done. }
    destruct (_ && _); [by right|done].
Qed.

Lemma ancestors_above (x y : string) :
  x ≠ EmptyString → In x (ancestors (x +:+ "/" +:+ y)).
Proof. intros H. by apply (ancestors_go_above EmptyString x y). Qed.

(** X18: [create_output_directory] makes the directory it returns and the
    directories above it, down from the base directory; it removes nothing,
    leaves the tracking store alone, and doing it again changes nothing. *)
Theorem created_directory_exists (w : world) (base_dir : string)
    (timestamp : datetime) (media_type : option media) :
  (create_output_directory w base_dir timestamp media_type).2
    ∈ paths (create_output_directory w base_dir timestamp media_type).1 ∧
  (base_dir ≠ EmptyString →
   base_dir
     ∈ paths (create_output_directory w base_dir timestamp media_type).1) ∧
  paths w
    ⊆ paths (create_output_directory w base_dir timestamp media_type).1 ∧
  store (create_output_directory w base_dir timestamp media_type).1
  = store w ∧
  create_output_directory
    (create_output_directory w base_dir timestamp media_type).1
    base_dir timestamp media_type
  = create_output_directory w base_dir timestamp media_type.
Proof.
  unfold create_output_directory, mkdir_parents. cbn [fst snd paths store].
  split; [|split; [|split; [|split]]].
  - apply elem_of_union_l, elem_of_list_to_set, list_elem_of_In.
    apply (ancestors_go_whole EmptyString).
  - intros Hne. apply elem_of_union_l, elem_of_list_to_set, list_elem_of_In.
    unfold output_directory, path_join.
    destruct media_type as [[|]|]; rewrite !append_assoc;
      by apply ancestors_above.
  - set_solver.
  - done.
  - f_equal. f_equal. set_solver.
Qed.

(** ** [MetadataExtractor.extract_metadata] *)

Lemma dict_mem_set (d : dict) (k k' : string) (v : value) :
  dict_mem (dict_set d k v) k' = true ↔ k = k' ∨ dict_mem d k' = true.
Proof.
  unfold dict_mem. induction d as [|[k0 v0] d IH]; cbn [dict_set dict_lookup].
  - destruct (String.eqb_spec k k'); naive_solver.
  - destruct (String.eqb_spec k0 k) as [->|Hk]; cbn [dict_lookup].
    + destruct (String.eqb_spec k k'); naive_solver.
    + destruct (String.eqb_spec k0 k'); naive_solver.
Qed.

Lemma dict_mem_set_same (d : dict) (k : string) (v : value) :
  dict_mem (dict_set d k v) k = true.
Proof. apply dict_mem_set. by left. Qed.

Lemma dict_mem_set_mono (d : dict) (k k' : string) (v : value) :
  dict_mem d k' = true → dict_mem (dict_set d k v) k' = true.
Proof. intros H. apply dict_mem_set. by right. Qed.

Lemma add_group_mono (g : string) (gd fm : dict) (k : string) :
  dict_mem fm k = true →
  dict_mem (MetadataExtractor.add_group g gd fm) k = true.
Proof.
  unfold MetadataExtractor.add_group. revert fm.
  induction gd as [|[t x] gd IH]; intros fm H; [done|]. cbn [fold_left].
  apply IH. cbn [fst snd].
  destruct (dict_mem (dict_set fm _ x) t); by repeat apply dict_mem_set_mono.
Qed.

Lemma add_group_tags (g : string) (gd fm : dict) (t : string) (x : value) :
  In (t, x) gd →
  dict_mem (MetadataExtractor.add_group g gd fm) (g +:+ ":" +:+ t) = true ∧
  dict_mem (MetadataExtractor.add_group g gd fm) t = true.
Proof.
  revert fm. induction gd as [|[t0 x0] gd IH]; intros fm Hin; [done|].
  destruct Hin as [[= -> ->]|Hin]; [|by apply IH].
  change (MetadataExtractor.add_group g ((t, x) :: gd) fm)
    with (MetadataExtractor.add_group g gd
            (let fm := dict_set fm (g +:+ ":" +:+ t) x in
             if dict_mem fm t then fm else dict_set fm t x)).
  cbv zeta. split; apply add_group_mono.
  - destruct (dict_mem (dict_set fm (g +:+ ":" +:+ t) x) t);
      [|apply dict_mem_set_mono]; apply dict_mem_set_same.
  - destruct (dict_mem (dict_set fm (g +:+ ":" +:+ t) x) t) eqn:Ht;
      [done|apply dict_mem_set_same].
Qed.

Lemma add_entry_mono (fm : dict) (e : string * value) (k : string) :
  dict_mem fm k = true → dict_mem (MetadataExtractor.add_entry fm e) k = true.
Proof.
  intros H. destruct e as [g v]. unfold MetadataExtractor.add_entry.
  destruct (String.eqb g "SourceFile"); [by apply dict_mem_set_mono|].
  destruct v; try by apply dict_mem_set_mono.
  by apply add_group_mono, dict_mem_set_mono.
Qed.

Lemma fold_add_entry_mono (md fm : dict) (k : string) :
  dict_mem fm k = true →
  dict_mem (fold_left MetadataExtractor.add_entry md fm) k = true.
Proof.
  revert fm. induction md as [|e md IH]; intros fm H; [done|].
  cbn [fold_left]. by apply IH, add_entry_mono.
Qed.

Lemma add_entry_key (fm : dict) (g : string) (v : value) :
  dict_mem (MetadataExtractor.add_entry fm (g, v)) g = true.
Proof.
  unfold MetadataExtractor.add_entry.
  destruct (String.eqb g "SourceFile"); [apply dict_mem_set_same|].
  destruct v; try apply dict_mem_set_same.
  apply add_group_mono, dict_mem_set_same.
Qed.

(** ** The values of the extracted bag *)

Lemma dict_lookup_set (d : dict) (k k' : string) (v : value) :
  dict_lookup (dict_set d k v) k'
  = if String.eqb k k' then Some v else dict_lookup d k'.
Proof.
  induction d as [|[k0 v0] d IH]; cbn [dict_set dict_lookup]; [done|].
  destruct (String.eqb_spec k0 k) as [->|Hk]; cbn [dict_lookup].
  - by destruct (String.eqb k k').
  - rewrite IH. destruct (String.eqb_spec k0 k') as [->|]; [|done].
    by rewrite (proj2 (String.eqb_neq _ _)) by congruence.
Qed.

Lemma dict_lookup_set_ne (d : dict) (k k' : string) (v : value) :
  k ≠ k' → dict_lookup (dict_set d k v) k' = dict_lookup d k'.
Proof.
  intros H. by rewrite dict_lookup_set, (proj2 (String.eqb_neq _ _)).
Qed.

Lemma dict_lookup_set_eq (d : dict) (k : string) (v : value) :
  dict_lookup (dict_set d k v) k = Some v.
Proof. by rewrite dict_lookup_set, String.eqb_refl. Qed.

Lemma dict_mem_lookup (d : dict) (k : string) (v : value) :
  dict_lookup d k = Some v → dict_mem d k = true.
Proof. unfold dict_mem. by intros ->. Qed.

(** A bare name is never its own prefixed name. *)
Lemma prefixed_ne_bare (g t : string) : g +:+ ":" +:+ t ≠ t.
Proof.
  intros H. apply (f_equal String.length) in H.
  rewrite !string_length_app in H. cbn [String.length] in H. lia.
Qed.

Lemma colon_free_ne_prefixed (k g t : string) :
  Py.count ":" k = 0 → k ≠ g +:+ ":" +:+ t.
Proof.
  intros Hk ->. rewrite !count_app in Hk. cbn in Hk. lia.
Qed.

Lemma append_inj_r (a b b' : string) : a +:+ b = a +:+ b' → b = b'.
Proof.
  induction a as [|x a IH]; [done|]. rewrite !append_cons.
  intros [= H]. by apply IH.
Qed.

(** Two prefixed names that agree have the same group, when no group
    name holds a colon. *)
Lemma prefixed_group_inj (g g' t t' : string) :
  Py.count ":" g = 0 → Py.count ":" g' = 0 →
  g +:+ ":" +:+ t = g' +:+ ":" +:+ t' → g = g'.
Proof.
  revert g'. induction g as [|x g IH]; intros [|x' g'] Hg Hg'.
  - done.
  - rewrite append_empty_l, !append_cons. intros [= <- _].
    cbn in Hg'. lia.
  - rewrite append_empty_l, !append_cons. intros [= -> _].
    cbn in Hg. lia.
  - rewrite !append_cons. intros [= <- H]. f_equal.
    cbn [Py.count] in Hg, Hg'. apply (IH g'); [lia|lia|done].
Qed.

(** The tags of a group leave alone a key that is none of their prefixed
    names and that is already there. *)
Lemma add_group_lookup_keep (g : string) (gd fm : dict) (k : string)
    (v : value) :
  (∀ t x, In (t, x) gd → k ≠ g +:+ ":" +:+ t) →
  dict_lookup fm k = Some v →
  dict_lookup (MetadataExtractor.add_group g gd fm) k = Some v.
Proof.
  unfold MetadataExtractor.add_group. revert fm.
  induction gd as [|[t x] gd IH]; intros fm Hk Hv; [done|].
  cbn [fold_left fst snd]. apply IH; [intros t' x' H; apply (Hk t' x'); by right|].
  assert (dict_lookup (dict_set fm (g +:+ ":" +:+ t) x) k = Some v) as H1.
  { rewrite dict_lookup_set_ne; [done|]. intros H.
    apply (Hk t x); [by left|done]. }
  destruct (dict_mem (dict_set fm (g +:+ ":" +:+ t) x) t) eqn:Hm; [done|].
  rewrite dict_lookup_set_ne; [done|]. intros ->.
  unfold dict_mem in Hm. by rewrite H1 in Hm.
Qed.

(** One more entry leaves alone a key that is there, that is not the key
    of the entry and none of its prefixed names. *)
Lemma add_entry_lookup_keep (fm : dict) (G : string) (V : value)
    (k : string) (v : value) :
  G ≠ k →
  (∀ d t x, V = VDict d → In (t, x) d → k ≠ G +:+ ":" +:+ t) →
  dict_lookup fm k = Some v →
  dict_lookup (MetadataExtractor.add_entry fm (G, V)) k = Some v.
Proof.
  intros HG Hk Hv. unfold MetadataExtractor.add_entry.
  assert (dict_lookup (dict_set fm G V) k = Some v) as H1
    by (by rewrite dict_lookup_set_ne).
  destruct (String.eqb G "SourceFile"); [done|].
  destruct V as [| | | | | |d]; try done.
  apply add_group_lookup_keep; [|done]. intros t x. by apply Hk.
Qed.

Lemma fold_add_entry_lookup_keep (md fm : dict) (k : string) (v : value) :
  (∀ G V, In (G, V) md →
     G ≠ k ∧ ∀ d t x, V = VDict d → In (t, x) d → k ≠ G +:+ ":" +:+ t) →
  dict_lookup fm k = Some v →
  dict_lookup (fold_left MetadataExtractor.add_entry md fm) k = Some v.
Proof.
  revert fm. induction md as [|[G V] md IH]; intros fm Hmd Hv; [done|].
  cbn [fold_left]. apply IH; [intros G' V' H; apply Hmd; by right|].
  destruct (Hmd G V) as [HG Hk]; [by left|]. by apply add_entry_lookup_keep.
Qed.

(** A tag of a group is found under its prefixed name with its value. *)
Lemma add_group_lookup_prefixed (g : string) (gd fm : dict) (t : string)
    (x : value) :
  NoDup (map fst gd) → In (t, x) gd →
  dict_lookup (MetadataExtractor.add_group g gd fm) (g +:+ ":" +:+ t)
  = Some x.
Proof.
  revert fm. induction gd as [|[t0 x0] gd IH]; intros fm Hnd Hin; [done|].
  apply NoDup_cons in Hnd as [Hfresh Hnd].
  destruct Hin as [[= -> ->]|Hin].
  - change (MetadataExtractor.add_group g ((t, x) :: gd) fm)
      with (MetadataExtractor.add_group g gd
              (let fm := dict_set fm (g +:+ ":" +:+ t) x in
               if dict_mem fm t then fm else dict_set fm t x)).
    cbv zeta. apply add_group_lookup_keep.
    + intros t' x' Hin' H. apply (append_inj_r g) in H.
      apply (append_inj_r ":") in H. subst t'. apply Hfresh.
      apply list_elem_of_In, in_map_iff. by exists (t, x').
    + destruct (dict_mem _ t);
        [|rewrite dict_lookup_set_ne by (intros H; by apply (prefixed_ne_bare g t))];
        apply dict_lookup_set_eq.
  - change (MetadataExtractor.add_group g ((t0, x0) :: gd) fm)
      with (MetadataExtractor.add_group g gd
              (let fm := dict_set fm (g +:+ ":" +:+ t0) x0 in
               if dict_mem fm t0 then fm else dict_set fm t0 x0)).
    by apply IH.
Qed.

(** What a bare name holds is the value of a tag of that name. *)
Lemma add_group_bare (g : string) (gd fm : dict) (t : string)
    (P : value → Prop) :
  Py.count ":" t = 0 →
  (∀ x, In (t, x) gd → P x) →
  (∀ x, dict_lookup fm t = Some x → P x) →
  ∀ x, dict_lookup (MetadataExtractor.add_group g gd fm) t = Some x → P x.
Proof.
  intros Ht. unfold MetadataExtractor.add_group. revert fm.
  induction gd as [|[t0 x0] gd IH]; intros fm Hgd Hfm; [done|].
  cbn [fold_left fst snd].
  apply IH; [intros x H; apply Hgd; by right|].
  intros x.
  assert (dict_lookup (dict_set fm (g +:+ ":" +:+ t0) x0) t
          = dict_lookup fm t) as H1.
  { apply dict_lookup_set_ne. intros H. symmetry in H. revert H.
    by apply colon_free_ne_prefixed. }
  destruct (dict_mem _ t0); [rewrite H1; apply Hfm|].
  rewrite dict_lookup_set. destruct (String.eqb_spec t0 t) as [->|_].
  - intros [= <-]. apply Hgd. by left.
  - rewrite H1. apply Hfm.
Qed.

Lemma add_entry_bare (fm : dict) (G : string) (V : value) (t : string)
    (P : value → Prop) :
  Py.count ":" t = 0 → G ≠ t →
  (∀ d x, V = VDict d → G ≠ "SourceFile" → In (t, x) d → P x) →
  (∀ x, dict_lookup fm t = Some x → P x) →
  ∀ x, dict_lookup (MetadataExtractor.add_entry fm (G, V)) t = Some x → P x.
Proof.
  intros Ht HG HV Hfm. unfold MetadataExtractor.add_entry.
  assert (∀ x, dict_lookup (dict_set fm G V) t = Some x → P x) as H1.
  { intros x. rewrite dict_lookup_set_ne by done. apply Hfm. }
  destruct (String.eqb_spec G "SourceFile") as [|HS]; [done|].
  destruct V as [| | | | | |d]; try done.
  apply add_group_bare; [done| |done]. intros x. by apply (HV d).
Qed.

Lemma fold_add_entry_bare (md fm : dict) (t : string) (P : value → Prop) :
  Py.count ":" t = 0 →
  (∀ G V, In (G, V) md →
     G ≠ t ∧ ∀ d x, V = VDict d → G ≠ "SourceFile" → In (t, x) d → P x) →
  (∀ x, dict_lookup fm t = Some x → P x) →
  ∀ x, dict_lookup (fold_left MetadataExtractor.add_entry md fm) t = Some x →
       P x.
Proof.
  intros Ht. revert fm. induction md as [|[G V] md IH]; intros fm Hmd Hfm;
    [done|].
  cbn [fold_left]. apply IH; [intros G' V' H; apply Hmd; by right|].
  destruct (Hmd G V) as [HG HV]; [by left|]. by apply add_entry_bare.
Qed.

(** X19: nothing [exiftool] reports is lost in the bag
    [extract_metadata] returns, the keys of the reported object being
    distinct and holding no colon.  Every key of the object holds its
    value; every tag of a group holds its value under [Group:Tag]; and the
    bare name of a tag, when it holds no colon and is no key of the
    object, holds the value of a tag of that name in one of the groups. *)
Theorem extracted_bag_keeps_every_tag (metadata : dict)
    (others : list value) :
  NoDup (map fst metadata) →
  Forall (λ kv, Py.count ":" (fst kv) = 0) metadata →
  ∃ bag,
    MetadataExtractor.extract_metadata
      (MetadataExtractor.Json (VList (VDict metadata :: others))) = Ok bag ∧
    (∀ g v, In (g, v) metadata → dict_lookup bag g = Some v) ∧
    (∀ g d t x, In (g, VDict d) metadata → g ≠ "SourceFile" →
       NoDup (map fst d) → In (t, x) d →
       dict_lookup bag (g +:+ ":" +:+ t) = Some x) ∧
    (∀ g d t x, In (g, VDict d) metadata → g ≠ "SourceFile" →
       In (t, x) d → Py.count ":" t = 0 →
       (∀ v, ¬ In (t, v) metadata) →
       ∃ g' d' x',
         In (g', VDict d') metadata ∧ g' ≠ "SourceFile" ∧ In (t, x') d' ∧
         dict_lookup bag t = Some x').
Proof.
  intros Hnd Hcolon. eexists. split; [reflexivity|].
  unfold MetadataExtractor.flatten.
  rewrite Forall_forall in Hcolon.
  assert (Hkey : ∀ G V, In (G, V) metadata → Py.count ":" G = 0).
  { intros G V H. apply (Hcolon (G, V)). by apply list_elem_of_In. }
  split; [|split].
  - intros g v Hin. apply in_split in Hin as (pre & post & ->).
    rewrite fold_left_app. cbn [fold_left].
    rewrite map_app in Hnd. apply NoDup_app in Hnd as (_ & Hpre & Hnd).
    cbn [map fst] in Hpre, Hnd. apply NoDup_cons in Hnd as [Hfresh _].
    assert (Hg : Py.count ":" g = 0)
      by (apply (Hkey g v), in_or_app; right; by left).
    apply fold_add_entry_lookup_keep.
    + intros G V HGV. split.
      * intros ->. apply Hfresh, list_elem_of_In, in_map_iff.
        by exists (g, V).
      * intros d t x _ _. by apply colon_free_ne_prefixed.
    + unfold MetadataExtractor.add_entry.
      destruct (String.eqb g "SourceFile"); [apply dict_lookup_set_eq|].
      destruct v; try apply dict_lookup_set_eq.
      apply add_group_lookup_keep; [|apply dict_lookup_set_eq].
      intros t x _. by apply colon_free_ne_prefixed.
  - intros g d t x Hin Hg Hd Ht. apply in_split in Hin as (pre & post & ->).
    rewrite fold_left_app. cbn [fold_left].
    rewrite map_app in Hnd. apply NoDup_app in Hnd as (_ & Hpre & Hnd).
    cbn [map fst] in Hpre, Hnd. apply NoDup_cons in Hnd as [Hfresh _].
    assert (Hgc : Py.count ":" g = 0)
      by (apply (Hkey g (VDict d)), in_or_app; right; by left).
    apply fold_add_entry_lookup_keep.
    + intros G V HGV.
      assert (HG : Py.count ":" G = 0)
        by (apply (Hkey G V), in_or_app; right; by right).
      split.
      * intros H. revert H. by apply colon_free_ne_prefixed.
      * intros d' t' x' _ _ H. apply prefixed_group_inj in H; [|done|done].
        subst G. apply Hfresh, list_elem_of_In, in_map_iff.
        by exists (g, V).
    + unfold MetadataExtractor.add_entry.
      rewrite (proj2 (String.eqb_neq _ _) Hg).
      by apply add_group_lookup_prefixed.
  - intros g d t x Hin Hg Ht Htc Htop.
    assert (dict_mem (fold_left MetadataExtractor.add_entry metadata []) t
            = true) as Hmem.
    { clear Hnd Hcolon Hkey Htop. revert Hin. generalize (@nil (string * value)).
      induction metadata as [|e md IH]; intros fm Hin; [done|].
      cbn [fold_left]. destruct Hin as [->|Hin]; [|by apply IH].
      apply fold_add_entry_mono. unfold MetadataExtractor.add_entry.
      rewrite (proj2 (String.eqb_neq _ _) Hg).
      by apply (add_group_tags g d _ t x). }
    unfold dict_mem in Hmem.
    destruct (dict_lookup _ t) as [x'|] eqn:Hx; [|done].
    revert Hx.
    apply (fold_add_entry_bare metadata [] t
             (λ x', ∃ g' d' x'0,
                In (g', VDict d') metadata ∧ g' ≠ "SourceFile" ∧
                In (t, x'0) d' ∧ Some x' = Some x'0)); [done| |done].
    intros G V HGV. split.
    + intros ->. by apply (Htop V).
    + intros d' x'' -> HS Hin'. by exists G, d', x''.
Qed.

Lemma extracted_bag_keeps_every_tag_witness :
  ∃ bag,
    MetadataExtractor.extract_metadata
      (MetadataExtractor.Json
         (VList [VDict [ ("SourceFile", VStr "in/C0001.MP4");
                         ("QuickTime",
                          VDict [("CreateDate",
                                  VStr "2023:06:15 12:30:22")]) ]]))
    = Ok bag ∧
    (∀ g v,
       In (g, v) [ ("SourceFile", VStr "in/C0001.MP4");
                   ("QuickTime",
                    VDict [("CreateDate", VStr "2023:06:15 12:30:22")]) ] →
       dict_lookup bag g = Some v) ∧
    (∀ g d t x,
       In (g, VDict d)
          [ ("SourceFile", VStr "in/C0001.MP4");
            ("QuickTime",
             VDict [("CreateDate", VStr "2023:06:15 12:30:22")]) ] →
       g ≠ "SourceFile" → NoDup (map fst d) → In (t, x) d →
       dict_lookup bag (g +:+ ":" +:+ t) = Some x) ∧
    (∀ g d t x,
       In (g, VDict d)
          [ ("SourceFile", VStr "in/C0001.MP4");
            ("QuickTime",
             VDict [("CreateDate", VStr "2023:06:15 12:30:22")]) ] →
       g ≠ "SourceFile" → In (t, x) d → Py.count ":" t = 0 →
       (∀ v, ¬ In (t, v)
                 [ ("SourceFile", VStr "in/C0001.MP4");
                   ("QuickTime",
                    VDict [("CreateDate", VStr "2023:06:15 12:30:22")]) ]) →
       ∃ g' d' x',
         In (g', VDict d')
            [ ("SourceFile", VStr "in/C0001.MP4");
              ("QuickTime",
               VDict [("CreateDate", VStr "2023:06:15 12:30:22")]) ] ∧
         g' ≠ "SourceFile" ∧ In (t, x') d' ∧
         dict_lookup bag t = Some x').
Proof.
  apply (extracted_bag_keeps_every_tag
           [ ("SourceFile", VStr "in/C0001.MP4");
             ("QuickTime",
              VDict [("CreateDate", VStr "2023:06:15 12:30:22")]) ] []).
  - simpl. apply NoDup_cons. split; [|apply NoDup_cons; split;
                                       [|apply NoDup_nil; exact I]].
    + intros H. apply list_elem_of_In in H. simpl in H.
      destruct H as [H|[]]. discriminate H.
    + intros H. apply list_elem_of_In in H. simpl in H. exact H.
  - apply Forall_cons. split; [reflexivity|].
    apply Forall_cons. split; [reflexivity|]. apply Forall_nil. exact I.
Defined.

(** ** From the name's digits to the stamp of the new name *)

Lemma is_digit_cases (c : ascii) :
  Py.is_digit c = true →
  In c ["0"; "1"; "2"; "3"; "4"; "5"; "6"; "7"; "8"; "9"]%char.
Proof.
  destruct c as [[] [] [] [] [] [] [] []]; vm_compute; intros H;
    try discriminate H; tauto.
Qed.

Lemma fmt_0d_2_table :
  forallb (λ c1, forallb (λ c2,
    String.eqb
      (Py.fmt_0d 2 (Py.digits_val (String c1 (String c2 EmptyString)) 0))
      (String c1 (String c2 EmptyString)))
    ["0"; "1"; "2"; "3"; "4"; "5"; "6"; "7"; "8"; "9"]%char)
    ["0"; "1"; "2"; "3"; "4"; "5"; "6"; "7"; "8"; "9"]%char = true.
Proof. vm_compute. reflexivity. Qed.

Lemma str_int_4_table :
  forallb (λ c1, forallb (λ c2, forallb (λ c3, forallb (λ c4,
    String.eqb
      (Py.str_int
         (Py.digits_val
            (String c1 (String c2 (String c3 (String c4 EmptyString)))) 0))
      (String c1 (String c2 (String c3 (String c4 EmptyString)))))
    ["0"; "1"; "2"; "3"; "4"; "5"; "6"; "7"; "8"; "9"]%char)
    ["0"; "1"; "2"; "3"; "4"; "5"; "6"; "7"; "8"; "9"]%char)
    ["0"; "1"; "2"; "3"; "4"; "5"; "6"; "7"; "8"; "9"]%char)
    ["1"; "2"; "3"; "4"; "5"; "6"; "7"; "8"; "9"]%char = true.
Proof. vm_compute. reflexivity. Qed.

(** Two digits are printed back as they were read. *)
Lemma fmt_0d_2_digits (s : string) :
  String.length s = 2 → Py.all_chars Py.is_digit s = true →
  Py.fmt_0d 2 (Py.digits_val s 0) = s.
Proof.
  destruct s as [|c1 [|c2 [|c3 s]]]; try done. intros _ H.
  cbn [Py.all_chars] in H.
  apply andb_true_iff in H as [H1 H]. apply andb_true_iff in H as [H2 _].
  apply is_digit_cases in H1, H2.
  pose proof fmt_0d_2_table as T.
  rewrite forallb_forall in T. specialize (T c1 H1).
  rewrite forallb_forall in T. specialize (T c2 H2).
  by apply String.eqb_eq in T.
Qed.

(** Four digits that do not start with a zero are printed back as they
    were read. *)
Lemma str_int_4_digits (s : string) :
  String.length s = 4 → Py.all_chars Py.is_digit s = true →
  Py.has_prefix "0" s = false →
  Py.str_int (Py.digits_val s 0) = s.
Proof.
  destruct s as [|c1 [|c2 [|c3 [|c4 [|c5 s]]]]]; try done. intros _ H Hz.
  cbn [Py.all_chars] in H.
  apply andb_true_iff in H as [H1 H]. apply andb_true_iff in H as [H2 H].
  apply andb_true_iff in H as [H3 H]. apply andb_true_iff in H as [H4 _].
  apply is_digit_cases in H1, H2, H3, H4.
  destruct H1 as [<-|H1]; [done|].
  pose proof str_int_4_table as T.
  rewrite forallb_forall in T. specialize (T c1 H1).
  rewrite forallb_forall in T. specialize (T c2 H2).
  rewrite forallb_forall in T. specialize (T c3 H3).
  rewrite forallb_forall in T. specialize (T c4 H4).
  by apply String.eqb_eq in T.
Qed.

Lemma datetime_new_fields (y m d H M S : Z) (z : option tz) (dt : datetime) :
  datetime_new y m d H M S z = Some dt → dt = mkdt y m d H M S 0 z.
Proof.
  unfold datetime_new. destruct (_ && _); [|done]. by intros [= <-].
Qed.

(** X20: the stamp of the new name is the one in the old name.  For a
    name that starts with [DJI_], fourteen digits and an underscore, the
    digits spelling a date and a time that exist, formatting the timestamp
    read from the name gives the last six digits as the time and, as the
    date, the year as a number followed by the four digits of month and
    day; from the year 1000 on that is the first eight digits, before it
    the zeros the year starts with are lost. *)
Theorem dji_name_keeps_its_stamp (ys mos ds hs mis ss rest : string) :
  String.length ys = 4 → String.length mos = 2 → String.length ds = 2 →
  String.length hs = 2 → String.length mis = 2 → String.length ss = 2 →
  Py.all_chars Py.is_digit (ys +:+ mos +:+ ds +:+ hs +:+ mis +:+ ss) = true →
  is_Some (datetime_new (Py.digits_val ys 0) (Py.digits_val mos 0)
             (Py.digits_val ds 0) (Py.digits_val hs 0) (Py.digits_val mis 0)
             (Py.digits_val ss 0) (Some tzlocal)) →
  get_formatted_timestamp <$>
    extract_timestamp_from_filename
      ("DJI_" +:+ ys +:+ mos +:+ ds +:+ hs +:+ mis +:+ ss +:+ "_" +:+ rest)
  = Some (Py.str_int (Py.digits_val ys 0) +:+ mos +:+ ds,
          hs +:+ mis +:+ ss) ∧
  (Py.has_prefix "0" ys = false → Py.str_int (Py.digits_val ys 0) = ys) ∧
  (Py.has_prefix "0" ys = true →
   String.length (Py.str_int (Py.digits_val ys 0)) < 4).
Proof.
  intros Hy Hmo Hd Hh Hmi Hs Hdig [dt Hdt].
  pose proof Hdig as Hall.
  apply all_digits_app in Hdig as [Dy Hdig].
  apply all_digits_app in Hdig as [Dmo Hdig].
  apply all_digits_app in Hdig as [Dd Hdig].
  apply all_digits_app in Hdig as [Dh Hdig].
  apply all_digits_app in Hdig as [Dmi Ds].
  split; [|split].
  - unfold extract_timestamp_from_filename, try_pattern.
    rewrite (dji_pattern_digits ys mos ds hs mis ss rest) by done.
    cbn [mbind option_bind]. unfold local_datetime_of.
    cbn [g1 g2 g3 g4 g5 g6]. rewrite Hdt. cbn [fmap option_fmap option_map].
    apply datetime_new_fields in Hdt as ->.
    unfold get_formatted_timestamp, strftime_Y, strftime_m, strftime_d,
      strftime_H, strftime_M, strftime_S.
    cbn [year month day hour minute second].
    by rewrite !fmt_0d_2_digits.
  - by apply str_int_4_digits.
  - clear Hdt Hall. destruct ys as [|c1 [|c2 [|c3 [|c4 [|c5 s]]]]]; try done.
    cbn [Py.has_prefix]. rewrite andb_true_r. intros Hc.
    apply Ascii.eqb_eq in Hc as <-. cbn [Py.all_chars] in Dy.
    apply andb_true_iff in Dy as [_ H]. apply andb_true_iff in H as [H2 H].
    apply andb_true_iff in H as [H3 H]. apply andb_true_iff in H as [H4 _].
    apply is_digit_cases in H2, H3, H4. cbn [In] in H2, H3, H4.
    repeat match goal with
           | H : _ ∨ _ |- _ => destruct H as [<-|H]
           | H : False |- _ => destruct H
           end; vm_compute; lia.
Qed.

Lemma dji_name_keeps_its_stamp_witness :
  get_formatted_timestamp <$>
    extract_timestamp_from_filename
      ("DJI_" +:+ "0999" +:+ "02" +:+ "28" +:+ "23" +:+ "59" +:+ "58" +:+
       "_" +:+ "0042_D.JPG")
  = Some (Py.str_int (Py.digits_val "0999" 0) +:+ "02" +:+ "28",
          "23" +:+ "59" +:+ "58") ∧
  (Py.has_prefix "0" "0999" = false →
   Py.str_int (Py.digits_val "0999" 0) = "0999") ∧
  (Py.has_prefix "0" "0999" = true →
   String.length (Py.str_int (Py.digits_val "0999" 0)) < 4).
Proof.
  apply dji_name_keeps_its_stamp; try reflexivity.
  vm_compute. eexists. reflexivity.
Defined.

(** ** The colon dates of the Sony raw files *)

Lemma split1_no_sep (sep : ascii) (s : string) :
  Py.count sep s = 0 → Py.split1 sep s = [s].
Proof.
  induction s as [|c s IH]; [done|]. cbn [Py.count Py.split1].
  destruct (Ascii.eqb c sep); [done|]. intros H. by rewrite IH.
Qed.

Lemma split1_app (sep : ascii) (d t : string) :
  Py.count sep d = 0 →
  Py.split1 sep (d +:+ String sep t) = [d; t].
Proof.
  induction d as [|c d IH].
  - intros _. rewrite append_empty_l. cbn [Py.split1].
    by rewrite Ascii.eqb_refl.
  - rewrite append_cons. cbn [Py.count Py.split1].
    destruct (Ascii.eqb c sep); [done|]. intros H. by rewrite IH.
Qed.

(** A string has no separator, or it is a part without one, the
    separator, and the rest. *)
Lemma split1_cases (sep : ascii) (s : string) :
  Py.count sep s = 0 ∨
  ∃ d t, s = d +:+ String sep t ∧ Py.count sep d = 0.
Proof.
  induction s as [|c s IH]; [by left|]. cbn [Py.count].
  destruct (Ascii.eqb_spec c sep) as [->|Hc].
  - right. exists EmptyString, s. by rewrite append_empty_l.
  - destruct IH as [H|(d & t & -> & H)]; [by left|].
    right. exists (String c d), t. rewrite append_cons. split; [done|].
    cbn [Py.count]. by rewrite (proj2 (Ascii.eqb_neq _ _) Hc).
Qed.

Lemma count_contains (c : ascii) (s : string) :
  0 < Py.count c s → Py.contains (String c EmptyString) s = true.
Proof.
  induction s as [|a s IH]; cbn [Py.count Py.contains Py.has_prefix];
    [lia|].
  rewrite (Ascii.eqb_sym a c). destruct (Ascii.eqb c a); [by intros _|].
  cbn [andb orb Nat.add]. intros H. by apply IH.
Qed.

Lemma replace_char_length (c c' : ascii) (s : string) :
  String.length (Py.replace (String c EmptyString) (String c' EmptyString) s)
  = String.length s.
Proof.
  unfold Py.replace. induction s as [|a s IH]; [done|].
  cbn [Py.replace_go Py.has_prefix String.length Nat.sub].
  destruct (Ascii.eqb c a); cbn [andb].
  - rewrite append_cons, append_empty_l. cbn [String.length]. by rewrite IH.
  - cbn [String.length]. by rewrite IH.
Qed.

Lemma replace_char_absent (c : ascii) (new s : string) :
  Py.count c s = 0 → Py.replace (String c EmptyString) new s = s.
Proof.
  unfold Py.replace. induction s as [|a s IH]; [done|].
  cbn [Py.count Py.replace_go Py.has_prefix]. rewrite (Ascii.eqb_sym c a).
  destruct (Ascii.eqb a c); [done|]. cbn [andb]. intros H. by rewrite IH.
Qed.

Lemma replace_char_other (c c' x : ascii) (s : string) :
  x ≠ c → x ≠ c' →
  Py.count x (Py.replace (String c EmptyString) (String c' EmptyString) s)
  = Py.count x s.
Proof.
  intros Hc Hc'. unfold Py.replace. induction s as [|a s IH]; [done|].
  cbn [Py.replace_go Py.has_prefix String.length Nat.sub Py.count].
  destruct (Ascii.eqb_spec c a) as [<-|Ha]; cbn [andb].
  - rewrite append_cons, append_empty_l. cbn [Py.count]. rewrite IH.
    rewrite (proj2 (Ascii.eqb_neq c' x)) by done.
    by rewrite (proj2 (Ascii.eqb_neq c x)) by done.
  - cbn [Py.count]. by rewrite IH.
Qed.

(** When [colon_date] rewrites. *)
Lemma colon_date_eq (date_str : string) :
  colon_date date_str
  = if Nat.leb 2 (Py.count ":" date_str) then
      match Py.split1 " " date_str with
      | [date_part; time_part] =>
          Py.replace ":" "-" date_part +:+ " " +:+ time_part
      | _ => date_str
      end
    else date_str.
Proof.
  unfold colon_date. destruct (Nat.leb_spec 2 (Py.count ":" date_str));
    [|by rewrite andb_false_r].
  by rewrite count_contains by lia.
Qed.

Lemma colon_date_no_blank (date_str : string) :
  Py.count " " date_str = 0 → colon_date date_str = date_str.
Proof.
  intros H. rewrite colon_date_eq, split1_no_sep by done.
  by destruct (Nat.leb _ _).
Qed.

Lemma colon_date_parts (date_part time_part : string) :
  Py.count " " date_part = 0 →
  colon_date (date_part +:+ " " +:+ time_part)
  = if Nat.leb 2 (Py.count ":" (date_part +:+ " " +:+ time_part))
    then Py.replace ":" "-" date_part +:+ " " +:+ time_part
    else date_part +:+ " " +:+ time_part.
Proof.
  intros H. rewrite colon_date_eq.
  change (" " +:+ time_part) with (String " " time_part).
  by rewrite split1_app.
Qed.

(** X21: the colon dates of the Sony raw files.  Only the text before the
    first blank is rewritten, and only when the whole string holds two
    colons or more: a string with fewer colons is left as it is, the time
    keeps its colons and a date with no time after it is left as it is.
    The rewriting keeps the length and changes nothing when done again. *)
Theorem colon_date_rewrites_the_date_only (date_str : string) :
  String.length (colon_date date_str) = String.length date_str ∧
  colon_date (colon_date date_str) = colon_date date_str ∧
  (Py.count ":" date_str < 2 → colon_date date_str = date_str) ∧
  (Py.count " " date_str = 0 → colon_date date_str = date_str) ∧
  (∀ date_part time_part,
     date_str = date_part +:+ " " +:+ time_part →
     Py.count " " date_part = 0 →
     2 ≤ Py.count ":" date_str →
     colon_date date_str
     = Py.replace ":" "-" date_part +:+ " " +:+ time_part).
Proof.
  split; [|split; [|split; [intros Hc; rewrite colon_date_eq;
                            by rewrite (proj2 (Nat.leb_gt _ _))|split]]].
  - destruct (split1_cases " " date_str) as [H|(d & t & -> & H)];
      [by rewrite colon_date_no_blank|].
    change (String " " t) with (" " +:+ t). rewrite colon_date_parts by done.
    destruct (Nat.leb _ _); [|done].
    rewrite !string_length_app. by rewrite replace_char_length.
  - destruct (split1_cases " " date_str) as [H|(d & t & -> & H)];
      [by rewrite !(colon_date_no_blank date_str)|].
    change (String " " t) with (" " +:+ t). rewrite colon_date_parts by done.
    destruct (Nat.leb _ _) eqn:Hc; [|by rewrite colon_date_parts, Hc].
    rewrite colon_date_parts by (by rewrite replace_char_other).
    rewrite (replace_char_absent ":" "-" (Py.replace ":" "-" d))
      by (by apply (replace_char_count ":" "-")).
    match goal with |- (if ?c then _ else _) = _ => by destruct c end.
  - apply colon_date_no_blank.
  - intros d t -> H Hc. rewrite colon_date_parts by done.
    by rewrite (proj2 (Nat.leb_le _ _)).
Qed.

(** ** Successes and the rows of the store *)

Section Rows.

Variable L : PyLib.




End Rows.

(** ** What can fail in the naming *)



(** ** The labels of a video *)

Lemma first_some_elim {A B} (P : B → Prop) (f : A → option B) (l : list A)
    (y : B) :
  (∀ x y, f x = Some y → P y) → first_some f l = Some y → P y.
Proof.
  intros Hf. induction l as [|x l IH]; [done|]. cbn [first_some].
  destruct (f x) as [y'|] eqn:Hx; [|done]. intros [= <-]. eauto.
Qed.

Section Labels.

Variable L : PyLib.

Lemma resolution_label_shape (height : Z) :
  In (resolution_label height) ["4K"; "FHD"; "HD"] ∨
  ends_in_p (resolution_label height).
Proof.
  unfold resolution_label.
  destruct (_ =? 2160)%Z; [left; cbn; tauto|].
  destruct (_ =? 1080)%Z; [left; cbn; tauto|].
  destruct (_ =? 720)%Z; [left; cbn; tauto|].
  right. by eexists.
Qed.

Lemma resolution_label_value_shape (height : value) :
  In (resolution_label_value L height) ["4K"; "FHD"; "HD"] ∨
  ends_in_p (resolution_label_value L height).
Proof.
  destruct height; cbn [resolution_label_value];
    try (right; by eexists); [apply resolution_label_shape|].
  destruct (Qeq_bool q 2160); [left; cbn; tauto|].
  destruct (Qeq_bool q 1080); [left; cbn; tauto|].
  destruct (Qeq_bool q 720); [left; cbn; tauto|].
  right. by eexists.
Qed.

Lemma fps_label_shape (fps : pyfloat L) (r : string) :
  fps_label L fps = Ok r → ends_in_p r.
Proof.
  unfold fps_label.
  repeat (destruct (near L fps _);
            [intros [= <-]; by eexists (String _ (String _ EmptyString))|]).
  destruct (f_is_integer L fps).
  - destruct (f_int L fps) as [z|e]; cbn [mbind res_bind rbind]; [|done].
    intros [= <-]. by eexists.
  - intros [= <-]. by eexists.
Qed.

Lemma resolution_of_pair_shape (md : dict) (wh : string * string)
    (r : string) :
  resolution_of_pair L md wh = Some r →
  In r ["4K"; "FHD"; "HD"] ∨ ends_in_p r.
Proof.
  unfold resolution_of_pair. destruct (_ && _); [|done].
  match goal with |- (if ?c then _ else _) = _ → _ => destruct c end;
    [|done].
  destruct (dict_get md (snd wh)) as [| | | |h| |] eqn:Hh;
    lazymatch goal with
    | |- Some (resolution_label_value L ?v) = Some r → _ =>
        intros [= <-]; apply (resolution_label_value_shape v)
    | _ => idtac
    end.
  destruct (Py.int_of_str _) as [z|]; [|done].
  intros [= <-]. apply resolution_label_shape.
Qed.

Lemma resolution_of_image_size_shape (md : dict) (r : string) :
  resolution_of_image_size md = Some r →
  In r ["4K"; "FHD"; "HD"] ∨ ends_in_p r.
Proof.
  unfold resolution_of_image_size.
  destruct (dict_get md "ImageSize") as [| | | |s| |]; try done.
  destruct (negb _); [|done].
  match goal with |- (if ?c then _ else _) = _ → _ => destruct c end;
    [|done].
  destruct (Py.split _ _) as [|w [|h [|x l]]]; try done.
  destruct (Py.int_of_str w); [|done].
  destruct (Py.int_of_str h); [|done].
  intros [= <-]. apply resolution_label_shape.
Qed.

Lemma sony_fps_loop_shape (md : dict) (fields : list string) (r : string) :
  sony_fps_loop L md fields = Ok (Some r) → ends_in_p r.
Proof.
  induction fields as [|f fields IH]; [done|]. cbn [sony_fps_loop].
  destruct (_ && _); [|done].
  destruct (float_or_raise L _) as [x|e]; cbn [mbind res_bind rbind].
  - destruct (fps_label L x) as [r'|e] eqn:Hr.
    + intros [= <-]. by apply fps_label_shape in Hr.
    + by destruct e.
  - by destruct e.
Qed.

Lemma fps_of_field_shape (md : dict) (field r : string) :
  fps_of_field L md field = Some r → ends_in_p r.
Proof.
  unfold fps_of_field. destruct (truthy _); [|done].
  destruct (float_or_raise L _) as [x|e]; cbn [mbind res_bind rbind]; [|done].
  destruct (fps_label L x) as [r'|e] eqn:Hr; [|done].
  intros [= <-]. by apply fps_label_shape in Hr.
Qed.

(** X24: the labels of a video have a shape.  A resolution is [4K], [FHD],
    [HD] or ends in [p]; a frame rate ends in [p]; whichever field of the
    bag they were read from. *)
Theorem video_labels_have_a_shape (device_type : option device)
    (name : string) (md : dict) (r : string) :
  (_extract_resolution L device_type name md = Some r →
   In r ["4K"; "FHD"; "HD"] ∨ ends_in_p r) ∧
  (_extract_fps L device_type name md = Ok (Some r) → ends_in_p r).
Proof.
  split.
  - unfold _extract_resolution.
    match goal with
    | |- match ?sony with _ => _ end = _ → _ =>
        assert (∀ r', sony = Some r' →
                  In r' ["4K"; "FHD"; "HD"] ∨ ends_in_p r') as Hs;
        [|destruct sony as [r'|]; [intros [= <-]; by apply Hs|]]
    end.
    { intros r'. destruct (_ && _); [|done]. destruct (_ && _); [|done].
      destruct (py_int _); [|done]. destruct (py_int _); [|done].
      intros [= <-]. apply resolution_label_shape. }
    destruct (first_some _ _) as [r'|] eqn:Hf.
    + intros [= <-].
      exact (first_some_elim
               (λ r, In r ["4K"; "FHD"; "HD"] ∨ ends_in_p r) _ _ _
               (resolution_of_pair_shape md) Hf).
    + apply resolution_of_image_size_shape.
  - unfold _extract_fps. generalize fps_fields. intros fields.
    match goal with
    | |- ?m ≫= _ = _ → _ =>
        assert (∀ r', m = Ok (Some r') → ends_in_p r') as Hs;
        [|destruct m as [[r'|]|e]; cbn [mbind res_bind rbind]; try done;
          [intros [= <-]; by apply Hs|]]
    end.
    { intros r'. destruct (_ && _); [|done]. apply sony_fps_loop_shape. }
    intros [= Hf].
    exact (first_some_elim ends_in_p _ _ _ (fps_of_field_shape md) Hf).
Qed.

End Labels.

(** ** [_flatten_metadata] *)

Lemma add_direct_mono (new_key : string) (d result : dict) (k : string) :
  dict_mem result k = true → dict_mem (add_direct new_key d result) k = true.
Proof.
  unfold add_direct. revert result.
  induction d as [|[t x] d IH]; intros result H; [done|]. cbn [fold_left].
  apply IH. cbn [fst snd]. destruct (is_dict x); [done|].
  by apply dict_mem_set_mono.
Qed.

Lemma flatten_metadata_mono :
  ∀ (v : value) (result : dict) (prefix k : string),
    dict_mem result k = true →
    dict_mem (_flatten_metadata v result prefix) k = true.
Proof.
  fix IH 1. intros v result prefix k H.
  destruct v as [| | | | | |items]; try exact H.
  cbn [_flatten_metadata]. revert items result H.
  fix IHr 1. intros items result H.
  destruct items as [|[key x] rest]; [exact H|].
  apply IHr.
  pose proof (IH x result (prefixed prefix key) k H) as Hx.
  destruct x; try (apply dict_mem_set_mono, H).
  apply add_direct_mono, Hx.
Qed.

Lemma flatten_metadata_cons (key : string) (x : value) (rest result : dict)
    (prefix : string) :
  _flatten_metadata (VDict ((key, x) :: rest)) result prefix
  = _flatten_metadata (VDict rest)
      match x with
      | VDict d =>
          add_direct (prefixed prefix key) d
            (_flatten_metadata x result (prefixed prefix key))
      | _ => dict_set result (prefixed prefix key) x
      end prefix.
Proof. reflexivity. Qed.

Lemma add_direct_tags (new_key : string) (d result : dict) (t : string)
    (x : value) :
  In (t, x) d → is_dict x = false →
  dict_mem (add_direct new_key d result) (new_key +:+ ":" +:+ t) = true.
Proof.
  unfold add_direct. revert result.
  induction d as [|[t0 x0] d IH]; intros result Hin Hx; [done|].
  cbn [fold_left fst snd]. destruct Hin as [[= -> ->]|Hin]; [|by apply IH].
  rewrite Hx. apply (add_direct_mono new_key d), dict_mem_set_same.
Qed.

Lemma contains_colon (a b : string) :
  Py.contains ":" (a +:+ ":" +:+ b) = true.
Proof.
  induction a as [|c a IH]; [done|]. rewrite append_cons.
  cbn [Py.contains]. by rewrite IH, orb_true_r.
Qed.

Lemma prefixed_colon (prefix key : string) :
  prefix ≠ EmptyString → Py.contains ":" (prefixed prefix key) = true.
Proof.
  intros H. unfold prefixed.
  rewrite (proj2 (String.eqb_neq _ _) H). apply contains_colon.
Qed.

Lemma prefixed_nonempty (prefix key : string) :
  prefix ≠ EmptyString → prefixed prefix key ≠ EmptyString.
Proof.
  intros H. unfold prefixed. rewrite (proj2 (String.eqb_neq _ _) H).
  by destruct prefix.
Qed.

Lemma add_direct_keys (new_key : string) (d result : dict) (k : string) :
  dict_mem (add_direct new_key d result) k = true →
  dict_mem result k = true ∨ Py.contains ":" k = true.
Proof.
  unfold add_direct. revert result.
  induction d as [|[t x] d IH]; intros result H; [by left|].
  cbn [fold_left fst snd] in H. apply IH in H as [H|H]; [|by right].
  destruct (is_dict x); [by left|].
  apply dict_mem_set in H as [<-|H]; [right; apply contains_colon|by left].
Qed.

(** Below the top level every key that is written holds a colon. *)
Lemma flatten_metadata_keys_below :
  ∀ (v : value) (result : dict) (prefix k : string),
    prefix ≠ EmptyString →
    dict_mem (_flatten_metadata v result prefix) k = true →
    dict_mem result k = true ∨ Py.contains ":" k = true.
Proof.
  fix IH 1. intros v result prefix k Hp.
  destruct v as [| | | | | |items]; try (by left).
  revert items result.
  fix IHr 1. intros items result.
  destruct items as [|[key x] rest]; [by left|].
  change (_flatten_metadata (VDict ((key, x) :: rest)) result prefix)
    with (_flatten_metadata (VDict rest)
            match x with
            | VDict d =>
                add_direct (prefixed prefix key) d
                  (_flatten_metadata x result (prefixed prefix key))
            | _ => dict_set result (prefixed prefix key) x
            end prefix).
  intros H. apply IHr in H as [H|H]; [|by right].
  pose proof (IH x result (prefixed prefix key) k
                (prefixed_nonempty prefix key Hp)) as Hx.
  destruct x;
    try (apply dict_mem_set in H as [Hk|H];
         [right; rewrite <- Hk; by apply prefixed_colon|by left]).
  apply add_direct_keys in H as [H|H]; [by apply Hx|by right].
Qed.

Lemma dict_mem_cons (e : string * value) (d : dict) (k : string) :
  dict_mem d k = true → dict_mem (e :: d) k = true.
Proof.
  unfold dict_mem. destruct e as [k0 v0]. cbn [dict_lookup].
  by destruct (String.eqb k0 k).
Qed.

Lemma dict_mem_head (k : string) (v : value) (d : dict) :
  dict_mem ((k, v) :: d) k = true.
Proof. unfold dict_mem. cbn [dict_lookup]. by rewrite String.eqb_refl. Qed.

Lemma flatten_metadata_top_keys (md result : dict) (k : string) :
  (∀ d, ¬ In (EmptyString, VDict d) md) →
  dict_mem (_flatten_metadata (VDict md) result EmptyString) k = true →
  dict_mem result k = true ∨ dict_mem md k = true ∨
  Py.contains ":" k = true.
Proof.
  revert result. induction md as [|[key x] rest IH]; intros result Hne H;
    [by left|].
  rewrite flatten_metadata_cons in H.
  apply IH in H as [H|[H|H]];
    [|right; left; by apply dict_mem_cons|by right; right
     |intros d Hd; apply (Hne d); by right].
  change (prefixed EmptyString key) with key in H.
  assert (dict_mem (dict_set result key x) k = true →
          dict_mem result k = true ∨ dict_mem ((key, x) :: rest) k = true ∨
          Py.contains ":" k = true) as Hset.
  { intros Hs. apply dict_mem_set in Hs as [<-|Hs]; [|by left].
    right. left. apply dict_mem_head. }
  destruct x as [| | | | | |d]; try by apply Hset.
  apply add_direct_keys in H as [H|H]; [|by right; right].
  apply flatten_metadata_keys_below in H as [H|H];
    [by left|by right; right|].
  intros ->. apply (Hne d). by left.
Qed.

(** X25: the keys of the flattened bag are paths.  A value of the top
    level that is not a group keeps its key, a tag of a group is found
    under [Group:Tag], and no bare tag name is added: a key of the
    flattened bag is a key of the top level or holds a colon (no group
    being named by the empty string). *)
Theorem flattened_keys_are_paths (metadata : dict) :
  (∀ k x, In (k, x) metadata → is_dict x = false →
     dict_mem (_flatten_metadata (VDict metadata) [] EmptyString) k = true) ∧
  (∀ g d t x, In (g, VDict d) metadata → In (t, x) d → is_dict x = false →
     dict_mem (_flatten_metadata (VDict metadata) [] EmptyString)
       (g +:+ ":" +:+ t) = true) ∧
  ((∀ d, ¬ In (EmptyString, VDict d) metadata) →
   ∀ k, dict_mem (_flatten_metadata (VDict metadata) [] EmptyString) k = true →
        dict_mem metadata k = true ∨ Py.contains ":" k = true).
Proof.
  split; [|split].
  - generalize (@nil (string * value)).
    induction metadata as [|[key v] rest IH]; intros result k x Hin Hx;
      [done|].
    rewrite flatten_metadata_cons.
    destruct Hin as [[= -> ->]|Hin]; [|by apply (IH _ k x)].
    apply flatten_metadata_mono.
    change (prefixed EmptyString k) with k.
    destruct x; try done; apply dict_mem_set_same.
  - generalize (@nil (string * value)).
    induction metadata as [|[key v] rest IH]; intros result g d t x Hin Ht Hx;
      [done|].
    rewrite flatten_metadata_cons.
    destruct Hin as [[= -> ->]|Hin]; [|by apply (IH _ g d t x)].
    apply flatten_metadata_mono.
    change (prefixed EmptyString g) with g.
    by apply (add_direct_tags g d _ t x).
  - intros Hne k H.
    apply flatten_metadata_top_keys in H as [H|H]; [done|done|done].
Qed.
